(** * Background service worker of the Chrome/Gemini bridge

    A shallow embedding of the background coordinator
    (connection manager, request router, per-tab console-log buffer)
    together with the properties its specification states about it.

    The worker is single threaded and event driven.  Its module-level
    variables ([socket], [reconnectAttempts], [_pendingRequests],
    [consoleLogs], [attachedTabs]) become the fields of one state
    record; every
    listener is a function on that record; what the worker does to the
    outside (frames written to the socket, broadcasts to the side
    panel, timers armed, Chrome API calls, DOM operations in the page)
    is appended to logs kept in the same record.  What the outside
    answers (the active tab, the outcome of an injection, whether the
    debugger attaches, ...) is read from a [World] record. *)

From Stdlib Require Import String Ascii List Lia Bool DecimalString.
From stdpp Require Import base gmap sets list strings.

Set Warnings "-abstract-large-number,-clear-no-such-hyp".

Open Scope string_scope.
Open Scope list_scope.
Open Scope stdpp_scope.
Open Scope nat_scope.

(** ** JavaScript values the worker handles *)

(** A thrown value: an [Error] instance with its message, or anything
    else ([error instanceof Error] is false). *)
Inductive JsExn :=
| JsError (message : string)
| JsThrown.

(** [error instanceof Error ? error.message : fallback] *)
Definition errorMessageOr (fallback : string) (e : JsExn) : string :=
  match e with
  | JsError m => m
  | JsThrown => fallback
  end.

(** Truthiness of a possibly undefined string: [undefined] and the
    empty string are falsy. *)
Definition truthy_str (o : option string) : bool :=
  match o with
  | Some s => negb (String.eqb s "")
  | None => false
  end.

(** [a || b] on a possibly undefined string with a string default. *)
Definition str_or (o : option string) (d : string) : string :=
  if truthy_str o then default d o else d.

(** Truthiness of a possibly undefined boolean. *)
Definition truthy_bool (o : option bool) : bool := default false o.

(** Truthiness of a possibly undefined number: [undefined] and [0]. *)
Definition truthy_num (o : option nat) : bool :=
  match o with
  | Some (S _) => true
  | _ => false
  end.

(** Decimal rendering of a natural number, as a template literal
    prints it. *)
Definition show_nat (n : nat) : string :=
  NilEmpty.string_of_uint (Nat.to_uint n).

(** [Array.prototype.join] on strings. *)
Fixpoint join (sep : string) (l : list string) : string :=
  match l with
  | [] => ""
  | [x] => x
  | x :: rest => x +:+ sep +:+ join sep rest
  end.

(** [s.split('/')[0]]: the part of [s] before the first slash. *)
Fixpoint before_slash (s : string) : string :=
  match s with
  | EmptyString => EmptyString
  | String c rest =>
      if Ascii.eqb c "/"%char then EmptyString else String c (before_slash rest)
  end.

(** [url.startsWith(p)] *)
Definition startsWith (url p : string) : bool := String.prefix p url.

(** ** Console log records *)

(** The names every object literal inherits from [Object.prototype]:
    looked up in a table written as an object literal, each of them
    yields an inherited member (a function, or the prototype itself
    for [__proto__]), which is truthy and is not a string. *)
Definition object_prototype_keys : list string :=
  ["constructor"; "__defineGetter__"; "__defineSetter__"; "hasOwnProperty";
   "__lookupGetter__"; "__lookupSetter__"; "isPrototypeOf";
   "propertyIsEnumerable"; "toString"; "valueOf"; "__proto__";
   "toLocaleString"].

(** [key in Object.prototype] *)
Definition inherited_key (key : string) : bool :=
  existsb (String.eqb key) object_prototype_keys.

(** What the [level] field of a record holds at run time: a string,
    or the member of [Object.prototype] of that name, which the level
    table of [Runtime.consoleAPICalled] yields for such a call type. *)
Inductive LevelValue :=
| LevelString (s : string)
| LevelInherited (key : string).

(** [ConsoleLogEntry].  The level is kept as what it is at run time:
    [Log.entryAdded] stores the protocol's level by a cast. *)
Record ConsoleLogEntry := {
  level : LevelValue;
  text : string;
  timestamp : nat;
  url : option string;
  lineNumber : option nat;
  stackTrace : option string
}.

Definition MAX_LOGS_PER_TAB : nat := 500.

(** ** Envelopes *)

(** The [data] payloads the handlers build. *)
Inductive ResponseData :=
| DomData (html url title selector : string)
| SelectionData (text url title : string)
| UrlData (url title : option string) (id : option nat)
| ScreenshotData (dataUrl format : string)
| ScriptData (success : bool)
| ModifyData (modifiedCount : nat) (message : string)
| LogsData (logs : list ConsoleLogEntry) (tabId : nat)
           (url : option string) (isCapturing : bool).

(** [request.params], with the fields the handlers read, at the types
    their casts declare. *)
Record Params := {
  p_selector : option string;
  p_includeStyles : option bool;
  p_script : option string;
  p_action : option string;
  p_value : option string;
  p_attributeName : option string;
  p_all : option bool;
  p_level : option string;
  p_clear : option bool
}.

Definition no_params : Params :=
  {| p_selector := None; p_includeStyles := None; p_script := None;
     p_action := None; p_value := None; p_attributeName := None;
     p_all := None; p_level := None; p_clear := None |}.

(** [BrowserContextRequest].  The action is whatever string the
    backend sent. *)
Record BrowserContextRequest := {
  requestId : string;
  action : string;
  params : option Params
}.

(** [BrowserContextResponse] *)
Record BrowserContextResponse := {
  r_requestId : string;
  r_success : bool;
  r_data : option ResponseData;
  r_error : option string
}.

Inductive ConnStatus := Connected | Disconnected | Connecting | StatusError.

(** [WebSocketMessage] *)
Inductive WebSocketMessage :=
| TerminalInput (data : string)
| TerminalOutput (data : string)
| TerminalResize (cols rows : nat)
| BrowserRequest (req : BrowserContextRequest)
| BrowserResponse (resp : BrowserContextResponse)
| ConnectionStatus (status : ConnStatus) (message : option string).

(** Messages arriving on [chrome.runtime.onMessage]. *)
Inductive RuntimeMessage :=
| Ping
| Pong
| FromPanel (m : WebSocketMessage)
| ReconnectCommand
| OtherMessage.

(** ** The world outside the worker *)

Inductive ReadyState := CONNECTING | OPEN | CLOSING | CLOSED.

Record Tab := {
  tab_id : option nat;
  tab_url : option string;
  tab_title : option string
}.

Definition Element := nat.

(** The DOM operations the [modifyDom] injection performs. *)
Inductive DomOp :=
| SetInnerHTML (v : string)
| SetOuterHTML (v : string)
| SetTextContent (v : string)
| SetAttribute (name v : string)
| RemoveAttribute (name : string)
| ClassListAdd (v : string)
| ClassListRemove (v : string)
| RemoveElement
| InsertAdjacentHTML (position v : string).

(** What running a piece of page script does: it completes, or it
    raises a value whose [message] may be missing. *)
Inductive ScriptOutcome :=
| Completes
| Raises (message : option string).

(** The page of the active tab. *)
Record Page := {
  location_href : string;
  document_title : string;
  querySelectorAll : string -> JsExn + list Element;
  outerHTML : Element -> string;
  selection : option string;
  dom_raises : Element -> DomOp -> option JsExn;
  run_script : string -> ScriptOutcome
}.

(** [document.querySelector]: the first match, if any. *)
Definition querySelector (pg : Page) (sel : string) : JsExn + option Element :=
  match querySelectorAll pg sel with
  | inl e => inl e
  | inr els => inr (head els)
  end.

(** How [chrome.scripting.executeScript] itself behaves: it rejects,
    it resolves without a frame result, or it runs the injected
    function in the page. *)
Inductive ScriptingOutcome :=
| ScriptingRejects (e : JsExn)
| ScriptingNoResult
| ScriptingRuns.

(** What the page observes. *)
Inductive PageEffect :=
| DomMutation (el : Element) (op : DomOp)
| ScriptElementRun (code : string) (caught : option string).

(** Chrome API calls made against a tab. *)
Inductive ApiCall :=
| TabsQuery
| ScriptingExecuteScript (tabId : nat)
| CaptureVisibleTab
| DebuggerAttach (tabId : nat)
| DebuggerSendCommand (tabId : nat) (method : string)
| DebuggerDetach (tabId : nat).

(** ** Debugger events *)

Record CallFrame := {
  functionName : string;
  cf_url : string;
  cf_lineNumber : nat;
  cf_columnNumber : nat
}.

(** A console argument ([Runtime.RemoteObject]).  [ro_value] is the
    argument's value already rendered by [String(...)];
    [ro_preview_properties] holds each previewed property as its JSON
    text. *)
Record RemoteObject := {
  ro_type : string;
  ro_value : string;
  ro_has_preview : bool;
  ro_preview_description : option string;
  ro_preview_properties : option (list string);
  ro_description : option string
}.

Inductive DebuggerEvent :=
| LogEntryAdded (lvl txt : string) (u : option string) (line : option nat)
                (frames : option (list CallFrame))
| RuntimeConsoleAPICalled (type : string) (args : option (list RemoteObject))
                          (frames : option (list CallFrame))
| RuntimeExceptionThrown (txt : option string) (exnDescription : option string)
                         (u : option string) (line : option nat)
                         (frames : option (list CallFrame))
| OtherDebuggerMethod (method : string).

(** ** The worker's state *)

(** The module-level variables of the worker, followed by the logs of
    what it did to the outside.  [sockets] is the store of the
    [WebSocket] objects created so far with their [readyState];
    [socket] refers into it, so that an object the variable no longer
    refers to still exists and still fires its handlers. *)
Record BgState := {
  socket : option nat;
  sockets : list ReadyState;
  reconnectAttempts : nat;
  (* [_pendingRequests], request identifier to the handle of its
     timeout: declared, and written nowhere *)
  pendingRequests : gmap string nat;
  consoleLogs : gmap nat (list ConsoleLogEntry);
  attachedTabs : gset nat;
  (* armed [setTimeout(connectToBackend, RECONNECT_DELAY)] timers *)
  reconnectTimers : nat;
  (* armed timers of the deferred status broadcast of the liveness probe *)
  statusTimers : list WebSocketMessage;
  (* [chrome.runtime.sendMessage] broadcasts, in order *)
  broadcasts : list WebSocketMessage;
  (* messages handed to [sendToBackend], with what it returned *)
  sendCalls : list (WebSocketMessage * bool);
  apiCalls : list ApiCall;
  pageEffects : list PageEffect
}.

Definition initial_state : BgState :=
  {| socket := None; sockets := []; reconnectAttempts := 0;
     pendingRequests := ∅; consoleLogs := ∅; attachedTabs := ∅;
     reconnectTimers := 0;
     statusTimers := []; broadcasts := []; sendCalls := []; apiCalls := [];
     pageEffects := [] |}.

Definition set_socket (v : option nat) (s : BgState) : BgState :=
  {| socket := v; sockets := sockets s;
     reconnectAttempts := reconnectAttempts s;
     pendingRequests := pendingRequests s; consoleLogs := consoleLogs s;
     attachedTabs := attachedTabs s; reconnectTimers := reconnectTimers s;
     statusTimers := statusTimers s; broadcasts := broadcasts s;
     sendCalls := sendCalls s; apiCalls := apiCalls s;
     pageEffects := pageEffects s |}.

Definition set_sockets (v : list ReadyState) (s : BgState) : BgState :=
  {| socket := socket s; sockets := v;
     reconnectAttempts := reconnectAttempts s;
     pendingRequests := pendingRequests s; consoleLogs := consoleLogs s;
     attachedTabs := attachedTabs s; reconnectTimers := reconnectTimers s;
     statusTimers := statusTimers s; broadcasts := broadcasts s;
     sendCalls := sendCalls s; apiCalls := apiCalls s;
     pageEffects := pageEffects s |}.

Definition set_reconnectAttempts (v : nat) (s : BgState) : BgState :=
  {| socket := socket s; sockets := sockets s; reconnectAttempts := v;
     pendingRequests := pendingRequests s; consoleLogs := consoleLogs s;
     attachedTabs := attachedTabs s; reconnectTimers := reconnectTimers s;
     statusTimers := statusTimers s; broadcasts := broadcasts s;
     sendCalls := sendCalls s; apiCalls := apiCalls s;
     pageEffects := pageEffects s |}.

Definition set_consoleLogs (v : gmap nat (list ConsoleLogEntry)) (s : BgState)
  : BgState :=
  {| socket := socket s; sockets := sockets s;
     reconnectAttempts := reconnectAttempts s;
     pendingRequests := pendingRequests s; consoleLogs := v;
     attachedTabs := attachedTabs s; reconnectTimers := reconnectTimers s;
     statusTimers := statusTimers s; broadcasts := broadcasts s;
     sendCalls := sendCalls s; apiCalls := apiCalls s;
     pageEffects := pageEffects s |}.

Definition set_attachedTabs (v : gset nat) (s : BgState) : BgState :=
  {| socket := socket s; sockets := sockets s;
     reconnectAttempts := reconnectAttempts s;
     pendingRequests := pendingRequests s; consoleLogs := consoleLogs s;
     attachedTabs := v; reconnectTimers := reconnectTimers s;
     statusTimers := statusTimers s; broadcasts := broadcasts s;
     sendCalls := sendCalls s; apiCalls := apiCalls s;
     pageEffects := pageEffects s |}.

Definition set_reconnectTimers (v : nat) (s : BgState) : BgState :=
  {| socket := socket s; sockets := sockets s;
     reconnectAttempts := reconnectAttempts s;
     pendingRequests := pendingRequests s; consoleLogs := consoleLogs s;
     attachedTabs := attachedTabs s; reconnectTimers := v;
     statusTimers := statusTimers s; broadcasts := broadcasts s;
     sendCalls := sendCalls s; apiCalls := apiCalls s;
     pageEffects := pageEffects s |}.

Definition set_statusTimers (v : list WebSocketMessage) (s : BgState)
  : BgState :=
  {| socket := socket s; sockets := sockets s;
     reconnectAttempts := reconnectAttempts s;
     pendingRequests := pendingRequests s; consoleLogs := consoleLogs s;
     attachedTabs := attachedTabs s; reconnectTimers := reconnectTimers s;
     statusTimers := v; broadcasts := broadcasts s; sendCalls := sendCalls s;
     apiCalls := apiCalls s; pageEffects := pageEffects s |}.

Definition set_broadcasts (v : list WebSocketMessage) (s : BgState) : BgState :=
  {| socket := socket s; sockets := sockets s;
     reconnectAttempts := reconnectAttempts s;
     pendingRequests := pendingRequests s; consoleLogs := consoleLogs s;
     attachedTabs := attachedTabs s; reconnectTimers := reconnectTimers s;
     statusTimers := statusTimers s; broadcasts := v;
     sendCalls := sendCalls s; apiCalls := apiCalls s;
     pageEffects := pageEffects s |}.

Definition set_sendCalls (v : list (WebSocketMessage * bool)) (s : BgState)
  : BgState :=
  {| socket := socket s; sockets := sockets s;
     reconnectAttempts := reconnectAttempts s;
     pendingRequests := pendingRequests s; consoleLogs := consoleLogs s;
     attachedTabs := attachedTabs s; reconnectTimers := reconnectTimers s;
     statusTimers := statusTimers s; broadcasts := broadcasts s;
     sendCalls := v; apiCalls := apiCalls s; pageEffects := pageEffects s |}.

Definition set_apiCalls (v : list ApiCall) (s : BgState) : BgState :=
  {| socket := socket s; sockets := sockets s;
     reconnectAttempts := reconnectAttempts s;
     pendingRequests := pendingRequests s; consoleLogs := consoleLogs s;
     attachedTabs := attachedTabs s; reconnectTimers := reconnectTimers s;
     statusTimers := statusTimers s; broadcasts := broadcasts s;
     sendCalls := sendCalls s; apiCalls := v;
     pageEffects := pageEffects s |}.

Definition set_pageEffects (v : list PageEffect) (s : BgState) : BgState :=
  {| socket := socket s; sockets := sockets s;
     reconnectAttempts := reconnectAttempts s;
     pendingRequests := pendingRequests s; consoleLogs := consoleLogs s;
     attachedTabs := attachedTabs s; reconnectTimers := reconnectTimers s;
     statusTimers := statusTimers s; broadcasts := broadcasts s;
     sendCalls := sendCalls s; apiCalls := apiCalls s; pageEffects := v |}.

(** [socket?.readyState] *)
Definition socket_readyState (s : BgState) : option ReadyState :=
  match socket s with
  | Some i => sockets s !! i
  | None => None
  end.

(** [socket?.readyState === WebSocket.OPEN] *)
Definition socket_is_open (s : BgState) : bool :=
  match socket_readyState s with
  | Some OPEN => true
  | _ => false
  end.

(** ** Log buffer: normalising debugger events *)

Definition newline : string := String (ascii_of_nat 10) EmptyString.

(** One line of a formatted call stack. *)
Definition format_frame (f : CallFrame) : string :=
  "  at " +:+ str_or (Some (functionName f)) "(anonymous)" +:+ " (" +:+
  cf_url f +:+ ":" +:+ show_nat (cf_lineNumber f) +:+ ":" +:+
  show_nat (cf_columnNumber f) +:+ ")".

(** [stackTrace?.callFrames?.map(...).join('\n')] *)
Definition format_stack (frames : option (list CallFrame)) : option string :=
  (λ fs, join newline (map format_frame fs)) <$> frames.

(** The level table of [Runtime.consoleAPICalled], with its
    [|| 'log']: [levelMap[consoleEvent.type] || 'log'].  A type that
    is no own key of the table but a name every object inherits finds
    the inherited member, which is truthy and is kept. *)
Definition console_level (type : string) : LevelValue :=
  if String.eqb type "log" then LevelString "log"
  else if String.eqb type "info" then LevelString "info"
  else if String.eqb type "warn" then LevelString "warning"
  else if String.eqb type "warning" then LevelString "warning"
  else if String.eqb type "error" then LevelString "error"
  else if String.eqb type "debug" then LevelString "debug"
  else if inherited_key type then LevelInherited type
  else LevelString "log".

(** [JSON.stringify] of an array whose elements are given as JSON. *)
Definition json_array (items : list string) : string :=
  "[" +:+ join "," items +:+ "]".

(** Formatting of one console argument; [None] is [undefined], which
    [join] prints as the empty string. *)
Definition format_arg (arg : RemoteObject) : option string :=
  if String.eqb (ro_type arg) "string" then Some (ro_value arg)
  else if String.eqb (ro_type arg) "number" then Some (ro_value arg)
  else if String.eqb (ro_type arg) "boolean" then Some (ro_value arg)
  else if String.eqb (ro_type arg) "undefined" then Some "undefined"
  else if String.eqb (ro_type arg) "object" && ro_has_preview arg then
    if truthy_str (ro_preview_description arg) then ro_preview_description arg
    else (λ ps, json_array (take 5 ps)) <$> ro_preview_properties arg
  else Some (str_or (ro_description arg) ("[" +:+ ro_type arg +:+ "]")).

(** The record built from one debugger event at time [now]; [None]
    when the method is none of the three the listener handles. *)
Definition entry_of_event (now : nat) (ev : DebuggerEvent)
  : option ConsoleLogEntry :=
  match ev with
  | LogEntryAdded lvl txt u line frames =>
      Some {| level := LevelString lvl; text := txt; timestamp := now; url := u;
              lineNumber := line; stackTrace := format_stack frames |}
  | RuntimeConsoleAPICalled type args frames =>
      let txt :=
        str_or ((λ l, join " " (map (λ a, default "" (format_arg a)) l)) <$> args)
               "" in
      Some {| level := console_level type; text := txt; timestamp := now;
              url := None; lineNumber := None;
              stackTrace := format_stack frames |}
  | RuntimeExceptionThrown txt descr u line frames =>
      Some {| level := LevelString "error";
              text := if truthy_str txt then default "" txt
                      else str_or descr "Unknown error";
              timestamp := now; url := u; lineNumber := line;
              stackTrace := format_stack frames |}
  | OtherDebuggerMethod _ => None
  end.

(** [logs.push(entry)] followed by the trim: when
    [logs.length > MAX_LOGS_PER_TAB], then
    [logs.splice(0, logs.length - MAX_LOGS_PER_TAB)]. *)
Definition push_and_trim (logs : list ConsoleLogEntry) (entry : ConsoleLogEntry)
  : list ConsoleLogEntry :=
  let logs := logs ++ [entry] in
  if decide (MAX_LOGS_PER_TAB < length logs)
  then drop (length logs - MAX_LOGS_PER_TAB) logs
  else logs.

(** The [chrome.debugger.onEvent] listener. *)
Definition onDebuggerEvent (source_tabId : option nat) (now : nat)
    (ev : DebuggerEvent) (s : BgState) : BgState :=
  match source_tabId with
  | Some tabId =>
      if negb (truthy_num (Some tabId)) || negb (bool_decide (tabId ∈ attachedTabs s))
      then s
      else
        match entry_of_event now ev with
        | Some entry =>
            let logs := default [] (consoleLogs s !! tabId) in
            set_consoleLogs (<[tabId := push_and_trim logs entry]> (consoleLogs s)) s
        | None => s
        end
  | None => s
  end.

(** The [chrome.debugger.onDetach] listener. *)
Definition onDebuggerDetach (source_tabId : option nat) (s : BgState) : BgState :=
  match source_tabId with
  | Some tabId =>
      if truthy_num (Some tabId)
      then set_attachedTabs (attachedTabs s ∖ {[tabId]}) s
      else s
  | None => s
  end.

(** The [chrome.tabs.onRemoved] listener. *)
Definition onTabRemoved (tabId : nat) (s : BgState) : BgState :=
  set_consoleLogs (delete tabId (consoleLogs s))
    (set_attachedTabs (attachedTabs s ∖ {[tabId]}) s).

(** ** Connection manager *)

Definition MAX_RECONNECT_ATTEMPTS : nat := 10.
Definition RECONNECT_DELAY : nat := 2000.

(** [broadcastToExtension]: a publish that tolerates no listener. *)
Definition broadcastToExtension (m : WebSocketMessage) (s : BgState) : BgState :=
  set_broadcasts (broadcasts s ++ [m]) s.

(** [scheduleReconnect] *)
Definition scheduleReconnect (s : BgState) : BgState :=
  if decide (reconnectAttempts s < MAX_RECONNECT_ATTEMPTS) then
    set_reconnectTimers (S (reconnectTimers s))
      (set_reconnectAttempts (S (reconnectAttempts s)) s)
  else
    broadcastToExtension
      (ConnectionStatus StatusError
         (Some "Failed to connect after multiple attempts. Is the backend running?"))
      s.

(** [connectToBackend].  [ctor] says whether [new WebSocket(...)]
    throws; when it does not, a fresh object in state [CONNECTING] is
    stored and [socket] refers to it. *)
Definition connectToBackend (ctor : option JsExn) (s : BgState) : BgState :=
  if socket_is_open s then s
  else
    let s := broadcastToExtension (ConnectionStatus Connecting None) s in
    match ctor with
    | None =>
        set_socket (Some (length (sockets s)))
          (set_sockets (sockets s ++ [CONNECTING]) s)
    | Some _ => scheduleReconnect s
    end.

(** [socket.onopen] *)
Definition socket_onopen (s : BgState) : BgState :=
  broadcastToExtension (ConnectionStatus Connected None)
    (set_reconnectAttempts 0 s).

(** [socket.onclose] *)
Definition socket_onclose (s : BgState) : BgState :=
  scheduleReconnect
    (broadcastToExtension (ConnectionStatus Disconnected None)
       (set_socket None s)).

(** [socket.onerror] *)
Definition socket_onerror (s : BgState) : BgState :=
  broadcastToExtension
    (ConnectionStatus StatusError (Some "Failed to connect to backend server")) s.

(** [sendToBackend]: writes the frame when the socket is open and
    returns [true]; otherwise warns and returns [false].  Every call is
    recorded with what it returned.  Serialising a message and writing
    to an open socket do not throw. *)
Definition sendToBackend (m : WebSocketMessage) (s : BgState) : bool * BgState :=
  if socket_is_open s
  then (true, set_sendCalls (sendCalls s ++ [(m, true)]) s)
  else (false, set_sendCalls (sendCalls s ++ [(m, false)]) s).

(** The frames actually written to the socket. *)
Definition wire (s : BgState) : list WebSocketMessage :=
  map fst (filter (λ c, snd c = true) (sendCalls s)).

(** ** Listeners that need no answer from the outside *)

(** Events delivered to the worker between two of its steps.  The
    socket events name the object they fire on; the browser moves that
    object's [readyState] before it runs the handler. *)
Inductive AsyncEvent :=
| SocketOpened (i : nat)
| SocketClosed (i : nat)
| SocketErrored (i : nat)
| DebuggerEventFired (source_tabId : option nat) (now : nat) (ev : DebuggerEvent)
| DebuggerDetached (source_tabId : option nat)
| TabRemoved (tabId : nat).

Definition deliver (ev : AsyncEvent) (s : BgState) : BgState :=
  match ev with
  | SocketOpened i =>
      match sockets s !! i with
      | Some CONNECTING => socket_onopen (set_sockets (<[i := OPEN]> (sockets s)) s)
      | _ => s
      end
  | SocketClosed i =>
      match sockets s !! i with
      | Some CLOSED | None => s
      | Some _ => socket_onclose (set_sockets (<[i := CLOSED]> (sockets s)) s)
      end
  | SocketErrored i =>
      match sockets s !! i with
      | Some _ => socket_onerror s
      | None => s
      end
  | DebuggerEventFired src now ev => onDebuggerEvent src now ev s
  | DebuggerDetached src => onDebuggerDetach src s
  | TabRemoved tabId => onTabRemoved tabId s
  end.

Definition deliver_all (evs : list AsyncEvent) (s : BgState) : BgState :=
  foldl (λ s ev, deliver ev s) s evs.

(** ** Asynchronous code: state and exceptions *)

(** An [async] function: it reads and writes the worker's state and
    either returns or throws; what it wrote before throwing stays. *)
Definition M (A : Type) : Type := BgState -> (JsExn + A) * BgState.

Definition ret {A} (a : A) : M A := λ s, (inr a, s).
Definition throw {A} (e : JsExn) : M A := λ s, (inl e, s).

Definition bind {A B} (m : M A) (k : A -> M B) : M B :=
  λ s, match m s with
       | (inl e, s') => (inl e, s')
       | (inr a, s') => k a s'
       end.

Definition try_catch {A} (m : M A) (handler : JsExn -> M A) : M A :=
  λ s, match m s with
       | (inl e, s') => handler e s'
       | (inr a, s') => (inr a, s')
       end.

Definition gets {A} (f : BgState -> A) : M A := λ s, (inr (f s), s).

(** A step that touches no state: it returns, or throws, what it is
    given. *)
Definition of_result {A} (r : JsExn + A) : M A := λ s, (r, s).
Definition modify (f : BgState -> BgState) : M unit := λ s, (inr tt, f s).

Notation "'let*' x ':=' m 'in' k" := (bind m (λ x, k))
  (at level 10, x pattern, m at level 100, k at level 200).
Notation "m ';;' k" := (bind m (λ _, k))
  (at level 100, k at level 200, right associativity).

(** A Chrome API call: it is logged, then resolves or rejects as the
    world says. *)
Definition api {A} (c : ApiCall) (answer : JsExn + A) : M A :=
  λ s, (answer, set_apiCalls (apiCalls s ++ [c]) s).

(** What the outside answers while one request is handled.  Every
    Chrome call settles: it resolves or it rejects. *)
Record World := {
  tabs_query : JsExn + list Tab;
  scripting : ScriptingOutcome;
  page : Page;
  captureVisibleTab : JsExn + string;
  debugger_attach : nat -> JsExn + unit;
  debugger_sendCommand : nat -> string -> JsExn + unit;
  (* what is delivered during the settle delay after an attach *)
  settle_events : list AsyncEvent
}.

(** [chrome.scripting.executeScript] with an injected function.  The
    function runs in the page, where it leaves effects and returns or
    throws; a throw rejects the call.  The result is
    [results[0]?.result]. *)
Definition scripting_executeScript {R} (w : World) (tabId : nat)
    (func : Page -> list PageEffect * (JsExn + R)) : M (option R) :=
  match scripting w with
  | ScriptingRejects e => api (ScriptingExecuteScript tabId) (inl e)
  | ScriptingNoResult => api (ScriptingExecuteScript tabId) (inr None)
  | ScriptingRuns =>
      let '(effects, r) := func (page w) in
      api (ScriptingExecuteScript tabId) (inr tt) ;;
      modify (λ s, set_pageEffects (pageEffects s ++ effects) s) ;;
      match r with
      | inl e => throw e
      | inr v => ret (Some v)
      end
  end.

(** ** Request router: the capability handlers *)

Definition failure (req : BrowserContextRequest) (err : string)
  : BrowserContextResponse :=
  {| r_requestId := requestId req; r_success := false;
     r_data := None; r_error := Some err |}.

Definition success (req : BrowserContextRequest) (d : option ResponseData)
  : BrowserContextResponse :=
  {| r_requestId := requestId req; r_success := true;
     r_data := d; r_error := None |}.

(** The denylist of [getActiveTab]. *)
Definition restricted_url (url : string) : bool :=
  startsWith url "chrome://" || startsWith url "chrome-extension://" ||
  startsWith url "edge://" || startsWith url "about:" ||
  startsWith url "devtools://".

(** [tab.id!] *)
Definition id_of (tab : Tab) : nat := default 0 (tab_id tab).

(** [getActiveTab] *)
Definition getActiveTab (w : World) : M Tab :=
  let* tabs := api TabsQuery (tabs_query w) in
  match head tabs with
  | None => throw (JsError "No active tab found")
  | Some tab =>
      if negb (truthy_num (tab_id tab)) then throw (JsError "No active tab found")
      else
        let url := str_or (tab_url tab) "" in
        if restricted_url url then
          throw (JsError ("Cannot access restricted page: " +:+
                          before_slash url +:+ "//..."))
        else ret tab
  end.

(** What the [getDom] injection returns. *)
Inductive DomResult :=
| DomFound (html url title selector : string)
| DomNotFound (error : string).

Definition getDom_func (options : Params) (pg : Page)
  : list PageEffect * (JsExn + DomResult) :=
  let selector := str_or (p_selector options) "body" in
  match querySelector pg selector with
  | inl e => ([], inl e)
  | inr None => ([], inr (DomNotFound ("Element not found: " +:+ selector)))
  | inr (Some element) =>
      ([], inr (DomFound (outerHTML pg element) (location_href pg)
                         (document_title pg) selector))
  end.

(** [getActiveTabDom] *)
Definition getActiveTabDom (w : World) (request : BrowserContextRequest)
  : M BrowserContextResponse :=
  let* tab := getActiveTab w in
  let* result :=
    scripting_executeScript w (id_of tab)
      (getDom_func (default no_params (params request))) in
  match result with
  | Some (DomNotFound error) =>
      (* [result?.error] is truthy: the text is never empty *)
      ret (failure request error)
  | Some (DomFound html url title selector) =>
      ret (success request (Some (DomData html url title selector)))
  | None => ret (success request None)
  end.

Definition getSelection_func (pg : Page)
  : list PageEffect * (JsExn + ResponseData) :=
  ([], inr (SelectionData (str_or (selection pg) "") (location_href pg)
                          (document_title pg))).

(** [getActiveTabSelection] *)
Definition getActiveTabSelection (w : World) (request : BrowserContextRequest)
  : M BrowserContextResponse :=
  let* tab := getActiveTab w in
  let* result := scripting_executeScript w (id_of tab) getSelection_func in
  ret (success request result).

(** [getActiveTabUrl] *)
Definition getActiveTabUrl (w : World) (request : BrowserContextRequest)
  : M BrowserContextResponse :=
  let* tab := getActiveTab w in
  ret (success request (Some (UrlData (tab_url tab) (tab_title tab) (tab_id tab)))).

(** [captureActiveTabScreenshot] *)
Definition captureActiveTabScreenshot (w : World) (request : BrowserContextRequest)
  : M BrowserContextResponse :=
  try_catch
    (let* dataUrl := api CaptureVisibleTab (captureVisibleTab w) in
     ret (success request (Some (ScreenshotData dataUrl "png"))))
    (λ error,
       ret (failure request (errorMessageOr "Failed to capture screenshot" error))).

(** The text of the wrapper put around the user script. *)
Definition wrappedScript (script : string) : string :=
  newline +:+ "      (function() {" +:+ newline +:+
  "        try {" +:+ newline +:+
  "          " +:+ script +:+ newline +:+
  "        } catch (e) {" +:+ newline +:+
  "          return { __error: e.message || 'Script execution failed' };" +:+ newline +:+
  "        }" +:+ newline +:+
  "      })();" +:+ newline +:+ "    ".

(** What the wrapper evaluates to when the user script raises: the
    [__error] of the object its [catch] returns. *)
Definition wrapper_caught (o : ScriptOutcome) : option string :=
  match o with
  | Completes => None
  | Raises message => Some (str_or message "Script execution failed")
  end.

(** The [executeScript] injection: the wrapped code is run by
    appending a script element; the value of the wrapper is not read,
    and the function returns [{ success: true }]. *)
Definition executeScript_func (script : string) (pg : Page)
  : list PageEffect * (JsExn + ResponseData) :=
  ([ScriptElementRun (wrappedScript script) (wrapper_caught (run_script pg script))],
   inr (ScriptData true)).

(** [executeScriptInTab] *)
Definition executeScriptInTab (w : World) (request : BrowserContextRequest)
  : M BrowserContextResponse :=
  let* tab := getActiveTab w in
  let script := params request ≫= p_script in
  if negb (truthy_str script) then ret (failure request "No script provided")
  else
    try_catch
      (let* result :=
         scripting_executeScript w (id_of tab)
           (executeScript_func (default "" script)) in
       ret (success request result))
      (λ error,
         ret (failure request (errorMessageOr "Failed to execute script" error))).

(** What the [modifyDom] injection returns. *)
Inductive ModifyResult :=
| Modified (modifiedCount : nat) (message : string)
| NotModified (error : string).

(** The body of the [switch (action)]: the DOM operation to perform
    on an element, or the error the arm returns. *)
Definition dom_operation (action : string) (value attributeName : option string)
  : string + DomOp :=
  if String.eqb action "setHTML" then inr (SetInnerHTML (str_or value ""))
  else if String.eqb action "setOuterHTML" then inr (SetOuterHTML (str_or value ""))
  else if String.eqb action "setText" then inr (SetTextContent (str_or value ""))
  else if String.eqb action "setAttribute" then
    if negb (truthy_str attributeName)
    then inl "attributeName required for setAttribute action"
    else inr (SetAttribute (default "" attributeName) (str_or value ""))
  else if String.eqb action "removeAttribute" then
    if negb (truthy_str attributeName)
    then inl "attributeName required for removeAttribute action"
    else inr (RemoveAttribute (default "" attributeName))
  else if String.eqb action "addClass" then
    if negb (truthy_str value)
    then inl "value (class name) required for addClass action"
    else inr (ClassListAdd (default "" value))
  else if String.eqb action "removeClass" then
    if negb (truthy_str value)
    then inl "value (class name) required for removeClass action"
    else inr (ClassListRemove (default "" value))
  else if String.eqb action "remove" then inr RemoveElement
  else if String.eqb action "insertBefore" then
    if negb (truthy_str value)
    then inl "value (HTML content) required for insertBefore action"
    else inr (InsertAdjacentHTML "beforebegin" (default "" value))
  else if String.eqb action "insertAfter" then
    if negb (truthy_str value)
    then inl "value (HTML content) required for insertAfter action"
    else inr (InsertAdjacentHTML "afterend" (default "" value))
  else inl ("Unknown action: " +:+ action).

(** The [for (const element of elements)] loop.  It carries the
    mutations done so far and [modifiedCount]; it ends with the count,
    with the error an arm returned, or with what a DOM operation
    threw. *)
Fixpoint modify_loop (pg : Page) (action : string)
    (value attributeName : option string) (elements : list Element)
    (applied : list PageEffect) (modifiedCount : nat)
  : list PageEffect * (JsExn + (string + nat)) :=
  match elements with
  | [] => (applied, inr (inr modifiedCount))
  | element :: rest =>
      match dom_operation action value attributeName with
      | inl error => (applied, inr (inl error))
      | inr op =>
          match dom_raises pg element op with
          | Some e => (applied, inl e)
          | None =>
              modify_loop pg action value attributeName rest
                (applied ++ [DomMutation element op]) (S modifiedCount)
          end
      end
  end.

(** The elements the injection works on:
    [all ? Array.from(querySelectorAll(selector))
         : [querySelector(selector)].filter(Boolean)]. *)
Definition selected_elements (pg : Page) (selector : string) (all : bool)
  : JsExn + list Element :=
  if all then querySelectorAll pg selector
  else
    match querySelector pg selector with
    | inl e => inl e
    | inr o => inr (option_list o)
    end.

(** The [modifyDom] injection; its own [try]/[catch] turns whatever
    is thrown inside into a failure result. *)
Definition modifyDom_func (selector action : string)
    (value attributeName : option string) (all : bool) (pg : Page)
  : list PageEffect * (JsExn + ModifyResult) :=
  match selected_elements pg selector all with
  | inl e => ([], inr (NotModified (errorMessageOr "DOM modification failed" e)))
  | inr elements =>
      if decide (length elements = 0) then
        ([], inr (NotModified ("No elements found matching: " +:+ selector)))
      else
        match modify_loop pg action value attributeName elements [] 0 with
        | (applied, inl e) =>
            (applied, inr (NotModified (errorMessageOr "DOM modification failed" e)))
        | (applied, inr (inl error)) => (applied, inr (NotModified error))
        | (applied, inr (inr modifiedCount)) =>
            (applied, inr (Modified modifiedCount
                          ("Modified " +:+ show_nat modifiedCount +:+
                           " element(s) using " +:+ action)))
        end
  end.

(** [modifyDomInTab] *)
Definition modifyDomInTab (w : World) (request : BrowserContextRequest)
  : M BrowserContextResponse :=
  let* tab := getActiveTab w in
  let prm := params request in
  if negb (truthy_str (prm ≫= p_selector)) then
    ret (failure request "No selector provided")
  else if negb (truthy_str (prm ≫= p_action)) then
    ret (failure request "No action provided")
  else
    try_catch
      (let* result :=
         scripting_executeScript w (id_of tab)
           (modifyDom_func (default "" (prm ≫= p_selector))
                           (default "" (prm ≫= p_action))
                           (prm ≫= p_value) (prm ≫= p_attributeName)
                           (default false (prm ≫= p_all))) in
       match result with
       | Some (Modified modifiedCount message) =>
           ret (success request (Some (ModifyData modifiedCount message)))
       | Some (NotModified error) =>
           ret (failure request (str_or (Some error) "DOM modification failed"))
       | None => ret (failure request "DOM modification failed")
       end)
      (λ error,
         ret (failure request (errorMessageOr "Failed to modify DOM" error))).

(** ** Console logs on request *)

(** [consoleLogs.get(tabId) || []] *)
Definition ring (tabId : nat) (s : BgState) : list ConsoleLogEntry :=
  default [] (consoleLogs s !! tabId).

(** [attachedTabs.has(tabId)] *)
Definition is_attached (tabId : nat) (s : BgState) : bool :=
  bool_decide (tabId ∈ attachedTabs s).

(** [attachDebuggerToTab] *)
Definition attachDebuggerToTab (w : World) (tabId : nat) : M unit :=
  let* attached := gets (is_attached tabId) in
  if attached then ret tt
  else
    try_catch
      (api (DebuggerAttach tabId) (debugger_attach w tabId) ;;
       modify (λ s, set_consoleLogs (<[tabId := []]> (consoleLogs s))
                      (set_attachedTabs ({[tabId]} ∪ attachedTabs s) s)) ;;
       api (DebuggerSendCommand tabId "Log.enable")
           (debugger_sendCommand w tabId "Log.enable") ;;
       api (DebuggerSendCommand tabId "Runtime.enable")
           (debugger_sendCommand w tabId "Runtime.enable"))
      (λ error, throw error).

(** [detachDebuggerFromTab].  [detach] says whether
    [chrome.debugger.detach] rejects. *)
Definition detachDebuggerFromTab (detach : JsExn + unit) (tabId : nat) : M unit :=
  let* attached := gets (is_attached tabId) in
  if negb attached then ret tt
  else
    try_catch
      (api (DebuggerDetach tabId) detach ;;
       modify (λ s, set_attachedTabs (attachedTabs s ∖ {[tabId]}) s))
      (λ _, ret tt).

(** What [levelMap[params.level] || []] evaluates to: an array of
    level names (that of an own key, or the empty one for a name that
    is no key at all), or the member of [Object.prototype] an
    inherited name finds, which is truthy and has no [includes]. *)
Inductive LevelLookup :=
| LevelList (levels : list string)
| LevelMember (key : string).

(** [levelMap[params.level] || []] *)
Definition allowedLevels (lvl : string) : LevelLookup :=
  if String.eqb lvl "error" then LevelList ["error"]
  else if String.eqb lvl "warning" then LevelList ["warning"]
  else if String.eqb lvl "info" then LevelList ["info"; "log"]
  else if inherited_key lvl then LevelMember lvl
  else LevelList [].

(** [levels.includes(log.level)] on an array of level names: a level
    that is not a string equals none of them. *)
Definition includes (levels : list string) (lvl : LevelValue) : bool :=
  match lvl with
  | LevelString s => existsb (String.eqb s) levels
  | LevelInherited _ => false
  end.

(** The [TypeError] of calling [allowedLevels.includes] when
    [allowedLevels] has no such method. *)
Definition includes_is_not_a_function : JsExn :=
  JsError "allowedLevels.includes is not a function".

(** The level filter of [getConsoleLogs].  [logs.filter] calls its
    callback once per record, so a lookup without [includes] throws
    on the first record and goes unnoticed on an empty ring. *)
Definition filter_logs (lvl : option string) (logs : list ConsoleLogEntry)
  : JsExn + list ConsoleLogEntry :=
  if truthy_str lvl && negb (String.eqb (default "" lvl) "all")
  then
    match allowedLevels (default "" lvl) with
    | LevelList levels =>
        inr (List.filter (λ log, includes levels (level log)) logs)
    | LevelMember _ =>
        match logs with
        | [] => inr []
        | _ :: _ => inl includes_is_not_a_function
        end
    end
  else inr logs.

(** [getConsoleLogs] *)
Definition getConsoleLogs (w : World) (request : BrowserContextRequest)
  : M BrowserContextResponse :=
  let* tab := getActiveTab w in
  let tabId := id_of tab in
  let prm := params request in
  let* attached := gets (is_attached tabId) in
  let* refused :=
    if negb attached then
      try_catch
        (attachDebuggerToTab w tabId ;;
         modify (deliver_all (settle_events w)) ;;
         ret None)
        (λ error,
           ret (Some (failure request
                        ("Failed to attach debugger: " +:+
                         errorMessageOr "Unknown error" error))))
    else ret None in
  match refused with
  | Some response => ret response
  | None =>
      let* logs := gets (ring tabId) in
      let* logs := of_result (filter_logs (prm ≫= p_level) logs) in
      (if truthy_bool (prm ≫= p_clear)
       then modify (λ s, set_consoleLogs (<[tabId := []]> (consoleLogs s)) s)
       else ret tt) ;;
      let* isCapturing := gets (is_attached tabId) in
      ret (success request (Some (LogsData logs tabId (tab_url tab) isCapturing)))
  end.

(** ** Request router: dispatch *)

(** The [switch (request.action)] of [handleBrowserContextRequest],
    with its [default] arm. *)
Definition dispatch (w : World) (request : BrowserContextRequest)
  : M BrowserContextResponse :=
  if String.eqb (action request) "getDom" then getActiveTabDom w request
  else if String.eqb (action request) "getSelection" then getActiveTabSelection w request
  else if String.eqb (action request) "getUrl" then getActiveTabUrl w request
  else if String.eqb (action request) "screenshot" then captureActiveTabScreenshot w request
  else if String.eqb (action request) "executeScript" then executeScriptInTab w request
  else if String.eqb (action request) "modifyDom" then modifyDomInTab w request
  else if String.eqb (action request) "getConsoleLogs" then getConsoleLogs w request
  else ret (failure request ("Unknown action: " +:+ action request)).

(** [handleBrowserContextRequest] *)
Definition handleBrowserContextRequest (w : World) (request : BrowserContextRequest)
  : M unit :=
  try_catch
    (let* response := dispatch w request in
     modify (λ s, snd (sendToBackend (BrowserResponse response) s)))
    (λ error,
       modify (λ s, snd (sendToBackend
                           (BrowserResponse
                              (failure request (errorMessageOr "Unknown error" error)))
                           s))).

(** [handleBackendMessage] *)
Definition handleBackendMessage (w : World) (message : WebSocketMessage) : M unit :=
  match message with
  | TerminalOutput _ => modify (broadcastToExtension message)
  | BrowserRequest request => handleBrowserContextRequest w request
  | _ => ret tt
  end.

(** ** The listener of the side panel *)

(** What the [chrome.runtime.onMessage] listener passes to
    [sendResponse]. *)
Inductive RuntimeReply :=
| ReplyPong (connectionStatus : ConnStatus)
| ReplySuccess
| NoReply.

Definition onRuntimeMessage (ctor : option JsExn) (m : RuntimeMessage)
    (s : BgState) : RuntimeReply * BgState :=
  match m with
  | Ping =>
      let status := if socket_is_open s then Connected else Disconnected in
      (ReplyPong status,
       set_statusTimers (statusTimers s ++ [ConnectionStatus status None]) s)
  | FromPanel (TerminalInput _ as message)
  | FromPanel (TerminalResize _ _ as message) =>
      (ReplySuccess, snd (sendToBackend message s))
  | ReconnectCommand =>
      (ReplySuccess, connectToBackend ctor (set_reconnectAttempts 0 s))
  | _ => (NoReply, s)
  end.

(** The keep-alive [setInterval] callback. *)
Definition keepAlive (ctor : option JsExn) (s : BgState) : BgState :=
  if negb (socket_is_open s) then connectToBackend ctor s else s.

(** ** The worker as a transition system *)

(** Everything that can wake the worker.  Where the step creates a
    socket, [ctor] says whether the constructor throws; where it
    handles a frame, [w] is what the outside answers meanwhile and
    [parsed] is [None] when [JSON.parse] throws. *)
Inductive Event :=
| Async (ev : AsyncEvent)
| SocketMessage (i : nat) (parsed : option WebSocketMessage) (w : World)
| ReconnectTimerFired (ctor : option JsExn)
| StatusTimerFired
| KeepAliveTick (ctor : option JsExn)
| RuntimeMessageReceived (m : RuntimeMessage) (ctor : option JsExn).

Definition step (e : Event) (s : BgState) : BgState :=
  match e with
  | Async ev => deliver ev s
  | SocketMessage i parsed w =>
      match sockets s !! i, parsed with
      | Some OPEN, Some message => snd (handleBackendMessage w message s)
      | _, _ => s
      end
  | ReconnectTimerFired ctor =>
      match reconnectTimers s with
      | S n => connectToBackend ctor (set_reconnectTimers n s)
      | O => s
      end
  | StatusTimerFired =>
      match statusTimers s with
      | m :: rest => broadcastToExtension m (set_statusTimers rest s)
      | [] => s
      end
  | KeepAliveTick ctor => keepAlive ctor s
  | RuntimeMessageReceived m ctor => snd (onRuntimeMessage ctor m s)
  end.

Definition run (evs : list Event) (s : BgState) : BgState :=
  foldl (λ s e, step e s) s evs.

(** The state once the module has been loaded: its last statement
    that touches the state is [connectToBackend()]. *)
Definition startup (ctor : option JsExn) : BgState :=
  connectToBackend ctor initial_state.

Definition reachable (s : BgState) : Prop :=
  ∃ ctor evs, s = run evs (startup ctor).

(** ** The content-script round trip *)

Module ContentScript.

Record ContentScriptMessage := {
  cs_type : string;
  cs_requestId : string;
  cs_params : option Params
}.

Record ContentScriptResponse := {
  csr_requestId : string;
  csr_success : bool;
  csr_error : option string
}.

Definition RESPONSE_TIMEOUT : nat := 10000.

(** The promise [_sendToContentScript] returns, as its caller sees it. *)
Inductive Promise :=
| Pending
| Fulfilled (response : ContentScriptResponse)
| Rejected (error : JsExn).

(** One call of [_sendToContentScript]: the promise, the deadline
    of the armed [setTimeout] ([None] once fired or cleared), the
    clock in milliseconds, and the message handed to
    [chrome.tabs.sendMessage]. *)
Record Call := {
  promise : Promise;
  timer : option nat;
  clock : nat;
  posted : nat * ContentScriptMessage
}.

(** [resolve] and [reject] settle a promise once; later calls do
    nothing. *)
Definition settle (outcome : Promise) (c : Call) : Call :=
  match promise c with
  | Pending => {| promise := outcome; timer := timer c; clock := clock c;
                  posted := posted c |}
  | _ => c
  end.

Definition set_timer (t : option nat) (c : Call) : Call :=
  {| promise := promise c; timer := t; clock := clock c; posted := posted c |}.

Definition set_clock (n : nat) (c : Call) : Call :=
  {| promise := promise c; timer := timer c; clock := n; posted := posted c |}.

(** [_sendToContentScript(tabId, message)] called at time [now]. *)
Definition sendToContentScript (now tabId : nat) (message : ContentScriptMessage)
  : Call :=
  {| promise := Pending; timer := Some (now + RESPONSE_TIMEOUT); clock := now;
     posted := (tabId, message) |}.

(** What happens to a call: time passes, or the callback of
    [chrome.tabs.sendMessage] runs, with [chrome.runtime.lastError]
    set or not. *)
Inductive CallEvent :=
| Elapse (ms : nat)
| Callback (lastError : option string) (response : ContentScriptResponse).

(** The body of the [setTimeout] callback. *)
Definition on_timeout (c : Call) : Call :=
  settle (Rejected (JsError "Content script response timeout")) (set_timer None c).

(** The callback passed to [chrome.tabs.sendMessage]. *)
Definition on_response (lastError : option string)
    (response : ContentScriptResponse) (c : Call) : Call :=
  let c := set_timer None c in
  match lastError with
  | Some message => settle (Rejected (JsError message)) c
  | None => settle (Fulfilled response) c
  end.

Definition call_step (e : CallEvent) (c : Call) : Call :=
  match e with
  | Elapse ms =>
      let c := set_clock (clock c + ms) c in
      match timer c with
      | Some deadline => if decide (deadline ≤ clock c) then on_timeout c else c
      | None => c
      end
  | Callback lastError response => on_response lastError response c
  end.

Definition call_run (evs : list CallEvent) (c : Call) : Call :=
  foldl (λ c e, call_step e c) c evs.

(** The milliseconds a sequence of events takes. *)
Definition elapsed (evs : list CallEvent) : nat :=
  sum_list (map (λ e, match e with Elapse ms => ms | Callback _ _ => 0 end) evs).

Definition is_elapse (e : CallEvent) : bool :=
  match e with Elapse _ => true | Callback _ _ => false end.

(** While only time passes, the call is either still waiting, with
    its timer armed and not yet due, or rejected by the timer, the
    deadline reached. *)
Definition waiting_or_timed_out (now : nat) (c : Call) : Prop :=
  (promise c = Pending ∧ timer c = Some (now + RESPONSE_TIMEOUT)
   ∧ clock c < now + RESPONSE_TIMEOUT)
  ∨ (promise c = Rejected (JsError "Content script response timeout")
     ∧ timer c = None
     ∧ now + RESPONSE_TIMEOUT ≤ clock c).

End ContentScript.

(** ** Predicates used to state the properties *)

(** [m] keeps [P]: from a state where [P] holds it ends, returning or
    throwing, in a state where [P] holds. *)
Definition keeps (P : BgState -> Prop) {A} (m : M A) : Prop :=
  ∀ s, P s -> P (snd (m s)).

(** Whatever [m] returns satisfies [Q]. *)
Definition returns {A} (Q : A -> Prop) (m : M A) : Prop :=
  ∀ s a, fst (m s) = inr a -> Q a.

(** No ring is longer than the cap. *)
Definition rings_bounded (s : BgState) : Prop :=
  ∀ tabId logs, consoleLogs s !! tabId = Some logs ->
                length logs ≤ MAX_LOGS_PER_TAB.

(** Every tab with a debug session owns a ring. *)
Definition sessions_have_rings (s : BgState) : Prop :=
  attachedTabs s ⊆ dom (consoleLogs s).

(** Every tab that owns a ring has a debug session. *)
Definition rings_have_sessions (s : BgState) : Prop :=
  dom (consoleLogs s) ⊆ attachedTabs s.

(** What holds of the worker's variables whenever it is idle. *)
Record invariant (s : BgState) : Prop := {
  inv_rings : rings_bounded s;
  inv_sessions : sessions_have_rings s;
  inv_tab_ids : 0 ∉ attachedTabs s;
  inv_attempts : reconnectAttempts s ≤ MAX_RECONNECT_ATTEMPTS;
  inv_pending : pendingRequests s = ∅
}.

(** The records a sequence of debugger events yields, in order. *)
Definition entries_of (evs : list (nat * DebuggerEvent)) : list ConsoleLogEntry :=
  omap (λ '(now, ev), entry_of_event now ev) evs.

(** The same events, fired for one tab. *)
Definition fired_for (tabId : nat) (evs : list (nat * DebuggerEvent))
  : list AsyncEvent :=
  map (λ '(now, ev), DebuggerEventFired (Some tabId) now ev) evs.

(** The response answers the request: it carries its identifier. *)
Definition carries_id (req : BrowserContextRequest)
    (resp : BrowserContextResponse) : Prop :=
  r_requestId resp = requestId req.

(** What [getActiveTab] answers in a world: the tab it resolves or
    the error it throws. *)
Definition active_tab (w : World) : JsExn + Tab :=
  fst (getActiveTab w initial_state).

(** The elements a [modifyDom] injection works on, given all the
    matches of its selector. *)
Definition targets (all : bool) (matches : list Element) : list Element :=
  if all then matches else take 1 matches.

(** ** Sample inputs *)

(** A page with three paragraphs, numbered 1 to 3, inside a body
    numbered 0; any other selector matches nothing. *)
Definition sample_page : Page :=
  {| location_href := "https://example.org/";
     document_title := "Example";
     querySelectorAll := λ sel,
       if String.eqb sel "p" then inr [1; 2; 3]
       else if String.eqb sel "body" then inr [0]
       else inr [];
     outerHTML := λ _, "<p></p>";
     selection := None;
     dom_raises := λ _ _, None;
     run_script := λ code,
       if String.eqb code "throw new Error('boom')" then Raises (Some "boom")
       else Completes |}.

Definition sample_tab (u : string) : Tab :=
  {| tab_id := Some 7; tab_url := Some u; tab_title := Some "Example" |}.

(** A world whose active tab has address [u], where every call
    succeeds and nothing happens during the settle delay. *)
Definition sample_world (u : string) : World :=
  {| tabs_query := inr [sample_tab u];
     scripting := ScriptingRuns;
     page := sample_page;
     captureVisibleTab := inr "data:image/png;base64,AAAA";
     debugger_attach := λ _, inr tt;
     debugger_sendCommand := λ _ _, inr tt;
     settle_events := [] |}.

(** The same world with no tab at all. *)
Definition tabless_world : World :=
  {| tabs_query := inr [];
     scripting := ScriptingRuns;
     page := sample_page;
     captureVisibleTab := inr "data:image/png;base64,AAAA";
     debugger_attach := λ _, inr tt;
     debugger_sendCommand := λ _ _, inr tt;
     settle_events := [] |}.

Definition sample_request (act : string) (p : option Params) : BrowserContextRequest :=
  {| requestId := "req-1"; action := act; params := p |}.

(** A state in which the socket is open: the module was loaded and
    the socket it created fired [open]. *)
Definition connected_state : BgState :=
  run [Async (SocketOpened 0)] (startup None).

(** A state in which the socket is still connecting. *)
Definition connecting_state : BgState := startup None.

(** A request for the console logs and what the debugger fires. *)
Definition logs_request (lvl : option string) (clr : bool) : BrowserContextRequest :=
  sample_request "getConsoleLogs"
    (Some {| p_selector := None; p_includeStyles := None; p_script := None;
             p_action := None; p_value := None; p_attributeName := None;
             p_all := None; p_level := lvl; p_clear := Some clr |}).

(** A state in which tab 7 has a debug session: the backend asked
    once for its console logs. *)
Definition attached_history : list Event :=
  [Async (SocketOpened 0);
   SocketMessage 0 (Some (BrowserRequest (logs_request None false)))
     (sample_world "https://example.org/")].

Definition attached_state : BgState := run attached_history (startup None).

(** The same, after the debugger was detached from tab 7 from
    outside. *)
Definition detached_history : list Event :=
  attached_history ++ [Async (DebuggerDetached (Some 7))].

Definition detached_state : BgState := run detached_history (startup None).

Definition sample_debugger_events : list (nat * DebuggerEvent) :=
  [(1000, LogEntryAdded "error" "Failed to load resource" None None None);
   (1001, OtherDebuggerMethod "Runtime.executionContextCreated");
   (1002, RuntimeConsoleAPICalled "warn" None None);
   (1003, RuntimeExceptionThrown (Some "Uncaught") None None (Some 3) None)].

(** A state in which the ring of tab 7 holds two errors and a
    warning. *)
Definition logged_history : list Event :=
  attached_history ++ map Async (fired_for 7 sample_debugger_events).

Definition logged_state : BgState := run logged_history (startup None).

(** The six actions whose handlers resolve the active tab first. *)
Definition tab_checked_actions : list string :=
  ["getDom"; "getSelection"; "getUrl"; "executeScript"; "modifyDom";
   "getConsoleLogs"].

(** A script that throws, as a request for [executeScript]. *)
Definition throwing_script_request : BrowserContextRequest :=
  sample_request "executeScript"
    (Some {| p_selector := None; p_includeStyles := None;
             p_script := Some "throw new Error('boom')";
             p_action := None; p_value := None; p_attributeName := None;
             p_all := None; p_level := None; p_clear := None |}).

(** A [modifyDom] request on the three paragraphs. *)
Definition modify_request (act : string) (value attributeName : option string)
    (all : bool) : BrowserContextRequest :=
  sample_request "modifyDom"
    (Some {| p_selector := Some "p"; p_includeStyles := None; p_script := None;
             p_action := Some act; p_value := value;
             p_attributeName := attributeName;
             p_all := Some all; p_level := None; p_clear := None |}).

(** A content-script message and a late answer to it. *)
Definition sample_cs_message : ContentScript.ContentScriptMessage :=
  {| ContentScript.cs_type := "content:getDom";
     ContentScript.cs_requestId := "req-1";
     ContentScript.cs_params := None |}.

Definition sample_cs_response : ContentScript.ContentScriptResponse :=
  {| ContentScript.csr_requestId := "req-1";
     ContentScript.csr_success := true;
     ContentScript.csr_error := None |}.

(** The [n]-th record of a long run of console output. *)
Definition sample_entry (n : nat) : ConsoleLogEntry :=
  {| level := LevelString "log"; text := show_nat n; timestamp := n; url := None;
     lineNumber := None; stackTrace := None |}.

(** ** The content script *)

Module ContentHandlers.

(** [window.getSelection()] when it is not [null]: its text, its
    number of ranges, and the [tagName] of the element of the first
    range (the common ancestor itself when it is an element, its
    parent otherwise; [None] when there is no such element). *)
Record Selection := {
  sel_toString : string;
  sel_rangeCount : nat;
  sel_elementTagName : option string
}.

(** The document the content script runs in: the page, and what the
    handlers read from it beyond what the worker's injections read.
    [call_function script] is [new Function(script)()] with its value
    rendered as the handler renders it: [None] for [undefined], the
    [JSON.stringify] text otherwise; constructing, calling and
    rendering may throw. *)
Record Document := {
  doc_page : Page;
  textContent : Element -> string;
  getPropertyValue : Element -> string -> string;
  getSelection_result : JsExn + option Selection;
  call_function : string -> JsExn + option string
}.

Inductive ReplyData :=
| DomReply (html text url title : string) (styles : option (list (string * string)))
| SelectionReply (text : string) (element : option string) (url title : string)
| ScriptReply (result : option string).

(** [ContentScriptResponse], with its data. *)
Record Reply := {
  reply_requestId : string;
  reply_success : bool;
  reply_data : option ReplyData;
  reply_error : option string
}.

Definition reply_failure (message : ContentScript.ContentScriptMessage)
    (err : string) : Reply :=
  {| reply_requestId := ContentScript.cs_requestId message;
     reply_success := false; reply_data := None; reply_error := Some err |}.

Definition reply_success_with (message : ContentScript.ContentScriptMessage)
    (d : ReplyData) : Reply :=
  {| reply_requestId := ContentScript.cs_requestId message;
     reply_success := true; reply_data := Some d; reply_error := None |}.

(** The style properties [getComputedStylesForElement] reads. *)
Definition style_properties : list string :=
  ["color"; "backgroundColor"; "fontSize"; "fontFamily"; "fontWeight";
   "width"; "height"; "margin"; "padding"; "border"; "display";
   "position"; "top"; "left"; "right"; "bottom"; "zIndex"].

(** [getComputedStylesForElement] *)
Definition getComputedStylesForElement (doc : Document) (element : Element)
  : list (string * string) :=
  map (λ prop, (prop, getPropertyValue doc element prop)) style_properties.

(** [getDom] *)
Definition getDom (doc : Document) (message : ContentScript.ContentScriptMessage)
  : Reply :=
  let prm := ContentScript.cs_params message in
  let selector := str_or (prm ≫= p_selector) "body" in
  match querySelector (doc_page doc) selector with
  | inl error => reply_failure message (errorMessageOr "Failed to get DOM" error)
  | inr None => reply_failure message ("Element not found: " +:+ selector)
  | inr (Some element) =>
      reply_success_with message
        (DomReply (outerHTML (doc_page doc) element) (textContent doc element)
           (location_href (doc_page doc)) (document_title (doc_page doc))
           (if truthy_bool (prm ≫= p_includeStyles)
            then Some (getComputedStylesForElement doc element)
            else None))
  end.

(** [s.toLowerCase()] on the letters of a tag name. *)
Definition lower_ascii (c : ascii) : ascii :=
  let n := nat_of_ascii c in
  if (65 <=? n) && (n <=? 90) then ascii_of_nat (n + 32) else c.

Fixpoint toLowerCase (s : string) : string :=
  match s with
  | EmptyString => EmptyString
  | String c rest => String (lower_ascii c) (toLowerCase rest)
  end.

(** [getSelection] *)
Definition getSelection (doc : Document) (message : ContentScript.ContentScriptMessage)
  : Reply :=
  match getSelection_result doc with
  | inl error =>
      reply_failure message (errorMessageOr "Failed to get selection" error)
  | inr sel =>
      let selectedText := str_or (sel_toString <$> sel) "" in
      let selectedElement :=
        match sel with
        | Some sl =>
            if decide (0 < sel_rangeCount sl) then
              match sel_elementTagName sl with
              | Some tag =>
                  if truthy_str (Some (toLowerCase tag))
                  then Some (toLowerCase tag) else None
              | None => None
              end
            else None
        | None => None
        end in
      reply_success_with message
        (SelectionReply selectedText selectedElement
           (location_href (doc_page doc)) (document_title (doc_page doc)))
  end.

(** [executeScript] *)
Definition executeScript (doc : Document) (message : ContentScript.ContentScriptMessage)
  : Reply :=
  let script := ContentScript.cs_params message ≫= p_script in
  if negb (truthy_str script) then reply_failure message "No script provided"
  else
    match call_function doc (default "" script) with
    | inr result => reply_success_with message (ScriptReply result)
    | inl error =>
        reply_failure message (errorMessageOr "Script execution failed" error)
    end.

(** [handleMessage].  No handler throws, so the promise the listener
    builds from it is fulfilled and [sendResponse] gets this reply. *)
Definition handleMessage (doc : Document) (message : ContentScript.ContentScriptMessage)
  : Reply :=
  if String.eqb (ContentScript.cs_type message) "content:getDom"
  then getDom doc message
  else if String.eqb (ContentScript.cs_type message) "content:getSelection"
  then getSelection doc message
  else if String.eqb (ContentScript.cs_type message) "content:executeScript"
  then executeScript doc message
  else reply_failure message
         ("Unknown message type: " +:+ ContentScript.cs_type message).

End ContentHandlers.

(** ** The side panel *)

Module SidePanel.

Inductive TerminalOp :=
| Write (data : string)
| Writeln (line : string).

(** The variables of the side panel and what its functions touch:
    the terminal (with its size) once [initTerminal] made it, the
    [isConnected] flag, the three elements [updateConnectionStatus]
    looks up (each may be missing), what was written to the terminal,
    what was sent to the worker, and the armed
    [setTimeout(sendResize, 100)] timers. *)
Record Panel := {
  terminal : option (nat * nat);
  isConnected : bool;
  statusElement : option string;
  statusText : option string;
  overlayHidden : option bool;
  written : list TerminalOp;
  posted : list RuntimeMessage;
  resizeTimers : nat
}.

Definition esc : string := String (ascii_of_nat 27) EmptyString.

Definition status_name (status : ConnStatus) : string :=
  match status with
  | Connected => "connected"
  | Disconnected => "disconnected"
  | Connecting => "connecting"
  | StatusError => "error"
  end.

(** [statusMessages[status] || status] *)
Definition status_message (status : ConnStatus) (message : option string) : string :=
  match status with
  | Connected => "Connected"
  | Disconnected => "Disconnected"
  | Connecting => "Connecting..."
  | StatusError => str_or message "Error"
  end.

(** [sendMessage] *)
Definition sendMessage (m : RuntimeMessage) (p : Panel) : Panel :=
  {| terminal := terminal p; isConnected := isConnected p;
     statusElement := statusElement p; statusText := statusText p;
     overlayHidden := overlayHidden p; written := written p;
     posted := posted p ++ [m]; resizeTimers := resizeTimers p |}.

(** [sendResize] *)
Definition sendResize (p : Panel) : Panel :=
  match terminal p with
  | Some (cols, rows) =>
      if isConnected p then sendMessage (FromPanel (TerminalResize cols rows)) p
      else p
  | None => p
  end.

(** The [terminal.onData] callback. *)
Definition onData (data : string) (p : Panel) : Panel :=
  if isConnected p then sendMessage (FromPanel (TerminalInput data)) p else p.

Definition terminal_write (ops : list TerminalOp) (p : Panel) : Panel :=
  match terminal p with
  | Some _ =>
      {| terminal := terminal p; isConnected := isConnected p;
         statusElement := statusElement p; statusText := statusText p;
         overlayHidden := overlayHidden p; written := written p ++ ops;
         posted := posted p; resizeTimers := resizeTimers p |}
  | None => p
  end.

(** [updateConnectionStatus] *)
Definition updateConnectionStatus (status : ConnStatus) (message : option string)
    (p : Panel) : Panel :=
  let p :=
    {| terminal := terminal p; isConnected := isConnected p;
       statusElement :=
         (λ _, "status-indicator " +:+ status_name status) <$> statusElement p;
       statusText := (λ _, status_message status message) <$> statusText p;
       overlayHidden := overlayHidden p; written := written p;
       posted := posted p; resizeTimers := resizeTimers p |} in
  let p :=
    match overlayHidden p with
    | Some _ =>
        match status with
        | Connected =>
            {| terminal := terminal p; isConnected := true;
               statusElement := statusElement p; statusText := statusText p;
               overlayHidden := Some true; written := written p;
               posted := posted p; resizeTimers := S (resizeTimers p) |}
        | _ =>
            {| terminal := terminal p; isConnected := false;
               statusElement := statusElement p; statusText := statusText p;
               overlayHidden := Some false; written := written p;
               posted := posted p; resizeTimers := resizeTimers p |}
        end
    | None => p
    end in
  match status with
  | Connected =>
      terminal_write
        [Writeln (esc +:+ "[1;32m✓ Connected to backend server" +:+ esc +:+ "[0m");
         Writeln ""] p
  | Disconnected =>
      terminal_write
        [Writeln (esc +:+ "[1;31m✗ Disconnected from backend server" +:+ esc +:+ "[0m")]
        p
  | StatusError =>
      if truthy_str message then
        terminal_write
          [Writeln (esc +:+ "[1;31m✗ Error: " +:+ default "" message +:+ esc +:+ "[0m")]
          p
      else p
  | Connecting => p
  end.

(** [handleMessage] of the panel. *)
Definition handleMessage (message : WebSocketMessage) (p : Panel) : Panel :=
  match message with
  | TerminalOutput data => terminal_write [Write data] p
  | ConnectionStatus status msg => updateConnectionStatus status msg p
  | _ => p
  end.

(** What happens in the panel: a message from the worker, typing,
    a click on the reconnect or retry button, or an armed resize timer
    firing. *)
Inductive PanelEvent :=
| Received (message : WebSocketMessage)
| Typed (data : string)
| ReconnectClicked
| ResizeTimerFired.

Definition panel_step (e : PanelEvent) (p : Panel) : Panel :=
  match e with
  | Received message => handleMessage message p
  | Typed data => onData data p
  | ReconnectClicked =>
      sendMessage ReconnectCommand (updateConnectionStatus Connecting None p)
  | ResizeTimerFired =>
      match resizeTimers p with
      | S n =>
          sendResize
            {| terminal := terminal p; isConnected := isConnected p;
               statusElement := statusElement p; statusText := statusText p;
               overlayHidden := overlayHidden p; written := written p;
               posted := posted p; resizeTimers := n |}
      | O => p
      end
  end.

Definition panel_run (evs : list PanelEvent) (p : Panel) : Panel :=
  foldl (λ p e, panel_step e p) p evs.

(** The event is the worker telling the panel it is connected. *)
Definition is_connected_status (e : PanelEvent) : bool :=
  match e with
  | Received (ConnectionStatus Connected _) => true
  | _ => false
  end.

(** The message carries terminal traffic for the backend. *)
Definition is_terminal_traffic (m : RuntimeMessage) : bool :=
  match m with
  | FromPanel (TerminalInput _) | FromPanel (TerminalResize _ _) => true
  | _ => false
  end.

(** The last connection status among the events, if any. *)
Definition last_status (evs : list PanelEvent) : option ConnStatus :=
  foldl (λ acc e,
           match e with
           | Received (ConnectionStatus status _) => Some status
           | ReconnectClicked => Some Connecting
           | _ => acc
           end) None evs.

End SidePanel.

(** ** More predicates and inputs *)

(** What the worker may write to the socket. *)
Definition backend_bound (m : WebSocketMessage) : Prop :=
  match m with
  | BrowserResponse _ | TerminalInput _ | TerminalResize _ _ => True
  | _ => False
  end.

(** What the worker may broadcast to the panel. *)
Definition panel_bound (m : WebSocketMessage) : Prop :=
  match m with
  | TerminalOutput _ | ConnectionStatus _ _ => True
  | _ => False
  end.

(** Everything broadcast, or waiting to be, is meant for the panel. *)
Definition panel_only (s : BgState) : Prop :=
  Forall panel_bound (broadcasts s) ∧ Forall panel_bound (statusTimers s).

(** The variables right after [attachDebuggerToTab] registered a
    session for the tab: the tab is in the set and its ring is empty. *)
Definition freshly_attached (tabId : nat) (s : BgState) : BgState :=
  set_consoleLogs (<[tabId := []]> (consoleLogs s))
    (set_attachedTabs ({[tabId]} ∪ attachedTabs s) s).

(** A world in which the debugger refuses to attach. *)
Definition refusing_world : World :=
  {| tabs_query := inr [sample_tab "https://example.org/"];
     scripting := ScriptingRuns;
     page := sample_page;
     captureVisibleTab := inr "data:image/png;base64,AAAA";
     debugger_attach := λ _, inl (JsError "Another debugger is already attached");
     debugger_sendCommand := λ _ _, inr tt;
     settle_events := [] |}.

(** A world in which the debugger attaches and then refuses to
    enable the [Log] domain. *)
Definition half_attaching_world : World :=
  {| tabs_query := inr [sample_tab "https://example.org/"];
     scripting := ScriptingRuns;
     page := sample_page;
     captureVisibleTab := inr "data:image/png;base64,AAAA";
     debugger_attach := λ _, inr tt;
     debugger_sendCommand := λ _ _, inl (JsError "Detached while handling command.");
     settle_events := [] |}.

(** The state with three records in the ring of tab 7, after the
    debugger was detached from it from outside: the ring is kept. *)
Definition logged_detached_state : BgState :=
  run (logged_history ++ [Async (DebuggerDetached (Some 7))]) (startup None).

(** A state with two socket objects: the keep-alive tick created a
    second one while the first was still connecting, and the second
    one is open. *)
Definition two_sockets_state : BgState :=
  run [KeepAliveTick None; Async (SocketOpened 1)] (startup None).

(** The message types the content script knows. *)
Definition content_message_types : list string :=
  ["content:getDom"; "content:getSelection"; "content:executeScript"].

(** The status tells the panel that the backend is connected. *)
Definition is_connected (status : ConnStatus) : bool :=
  match status with
  | Connected => true
  | _ => false
  end.

(** A panel right after it was set up: a terminal of 80 by 24, every
    element present, the overlay showing, nothing sent yet. *)
Definition fresh_panel : SidePanel.Panel :=
  {| SidePanel.terminal := Some (80, 24);
     SidePanel.isConnected := false;
     SidePanel.statusElement := Some "status-indicator";
     SidePanel.statusText := Some "";
     SidePanel.overlayHidden := Some false;
     SidePanel.written := [];
     SidePanel.posted := [];
     SidePanel.resizeTimers := 0 |}.

(** One failed connection: the socket created last closes, and the
    reconnect timer armed by that fires. *)
Definition failing_cycle (i : nat) : list Event :=
  [Async (SocketClosed i); ReconnectTimerFired None].

(** The first [n] failed connections after the module was loaded. *)
Definition failing_cycles (n : nat) : list Event :=
  flat_map failing_cycle (seq 0 n).


(** * Properties *)

(** ** Reasoning about asynchronous code *)

Section Keeps.
Context (P : BgState -> Prop).

Lemma keeps_ret {A} (a : A) : keeps P (ret a).
Proof. intros s H. exact H. Qed.

Lemma keeps_throw {A} (e : JsExn) : keeps P (@throw A e).
Proof. intros s H. exact H. Qed.

Lemma keeps_gets {A} (f : BgState -> A) : keeps P (gets f).
Proof. intros s H. exact H. Qed.

Lemma keeps_of_result {A} (r : JsExn + A) : keeps P (of_result r).
Proof. intros s H. exact H. Qed.

Lemma keeps_modify (f : BgState -> BgState) :
  (∀ s, P s -> P (f s)) -> keeps P (modify f).
Proof. intros Hf s H. apply Hf, H. Qed.

Lemma keeps_bind {A B} (m : M A) (k : A -> M B) :
  keeps P m -> (∀ a, keeps P (k a)) -> keeps P (bind m k).
Proof.
  intros Hm Hk s H. unfold bind.
  specialize (Hm s H). destruct (m s) as [[e | a] s']; simpl in *.
  - exact Hm.
  - apply Hk, Hm.
Qed.

Lemma keeps_try_catch {A} (m : M A) (h : JsExn -> M A) :
  keeps P m -> (∀ e, keeps P (h e)) -> keeps P (try_catch m h).
Proof.
  intros Hm Hh s H. unfold try_catch.
  specialize (Hm s H). destruct (m s) as [[e | a] s']; simpl in *.
  - apply Hh, Hm.
  - exact Hm.
Qed.

End Keeps.

Section Returns.
Context {A : Type} (Q : A -> Prop).

Lemma returns_ret (a : A) : Q a -> returns Q (ret a).
Proof. intros H s a' E. injection E as <-. exact H. Qed.

Lemma returns_throw (e : JsExn) : returns Q (throw e).
Proof. intros s a E. discriminate E. Qed.

Lemma returns_bind {B} (m : M B) (k : B -> M A) :
  (∀ b, returns Q (k b)) -> returns Q (bind m k).
Proof.
  intros Hk s a. unfold bind.
  destruct (m s) as [[e | b] s']; simpl.
  - discriminate.
  - apply Hk.
Qed.

Lemma returns_try_catch (m : M A) (h : JsExn -> M A) :
  returns Q m -> (∀ e, returns Q (h e)) -> returns Q (try_catch m h).
Proof.
  intros Hm Hh s a. unfold try_catch.
  specialize (Hm s). destruct (m s) as [[e | b] s']; simpl in *.
  - apply Hh.
  - apply Hm.
Qed.

End Returns.

(** ** The ring of one tab *)

Opaque MAX_LOGS_PER_TAB.

Lemma push_and_trim_drop (logs : list ConsoleLogEntry) (e : ConsoleLogEntry) :
  push_and_trim logs e
  = drop (length (logs ++ [e]) - MAX_LOGS_PER_TAB) (logs ++ [e]).
Proof.
  unfold push_and_trim. case_decide as Hlen; [reflexivity |].
  replace (length (logs ++ [e]) - MAX_LOGS_PER_TAB) with 0 by lia.
  reflexivity.
Qed.

Lemma push_and_trim_length (logs : list ConsoleLogEntry) (e : ConsoleLogEntry) :
  length (push_and_trim logs e) ≤ MAX_LOGS_PER_TAB.
Proof.
  unfold push_and_trim. case_decide as Hlen.
  - rewrite length_drop. lia.
  - lia.
Qed.

Lemma foldl_push_and_trim_length (entries logs : list ConsoleLogEntry) :
  length logs ≤ MAX_LOGS_PER_TAB ->
  length (foldl push_and_trim logs entries) ≤ MAX_LOGS_PER_TAB.
Proof.
  revert logs. induction entries as [| e entries IH]; intros logs Hlen.
  - exact Hlen.
  - simpl. apply IH, push_and_trim_length.
Qed.

(** Pushing records one by one keeps the last [MAX_LOGS_PER_TAB] of
    everything the ring ever held, in order. *)
Lemma foldl_push_and_trim (entries logs : list ConsoleLogEntry) :
  length logs ≤ MAX_LOGS_PER_TAB ->
  foldl push_and_trim logs entries
  = drop (length (logs ++ entries) - MAX_LOGS_PER_TAB) (logs ++ entries).
Proof.
  revert logs. induction entries as [| e entries IH]; intros logs Hlen.
  - simpl. rewrite app_nil_r.
    replace (length logs - MAX_LOGS_PER_TAB) with 0 by lia. reflexivity.
  - simpl. rewrite IH by apply push_and_trim_length.
    rewrite push_and_trim_drop.
    set (k := length (logs ++ [e]) - MAX_LOGS_PER_TAB).
    assert (Hk : k ≤ length (logs ++ [e])) by (unfold k; lia).
    rewrite <- (drop_app_le (logs ++ [e]) entries k Hk).
    rewrite drop_drop, <- app_assoc. simpl.
    f_equal. rewrite length_drop, !length_app. simpl.
    unfold k. rewrite length_app. simpl. lia.
Qed.

(** After 502 records pushed into an empty ring, the two oldest are
    gone and the other 500 are kept in order. *)
Example ring_evicts_oldest :
  foldl push_and_trim [] (map sample_entry (seq 0 502))
  = map sample_entry (seq 2 500).
Proof. vm_compute. reflexivity. Qed.

(** ** What the handlers leave alone *)

Lemma keeps_bind_returns (P : BgState -> Prop) {A B} (Q : A -> Prop)
    (m : M A) (k : A -> M B) :
  keeps P m -> returns Q m -> (∀ a, Q a -> keeps P (k a)) -> keeps P (bind m k).
Proof.
  intros Hm Hq Hk s H. unfold bind.
  specialize (Hm s H). specialize (Hq s).
  destruct (m s) as [[e | a] s']; simpl in *.
  - exact Hm.
  - apply Hk; [apply Hq; reflexivity | exact Hm].
Qed.

(** The tab [getActiveTab] returns has a usable identifier. *)
Lemma getActiveTab_id (w : World) :
  returns (λ tab, id_of tab ≠ 0) (getActiveTab w).
Proof.
  unfold getActiveTab. apply returns_bind. intros tabs.
  destruct (head tabs) as [tab |]; [| apply returns_throw].
  destruct (truthy_num (tab_id tab)) eqn:Hid; simpl; [| apply returns_throw].
  destruct (restricted_url _); [apply returns_throw |].
  apply returns_ret. unfold id_of.
  destruct (tab_id tab) as [[| n] |]; simpl in *; congruence.
Qed.

Section HandlersKeep.
Context (P : BgState -> Prop).
Hypothesis P_api : ∀ v s, P s -> P (set_apiCalls v s).
Hypothesis P_page : ∀ v s, P s -> P (set_pageEffects v s).
Hypothesis P_deliver : ∀ ev s, P s -> P (deliver ev s).
Hypothesis P_attach : ∀ tabId s, tabId ≠ 0 -> P s ->
  P (set_consoleLogs (<[tabId := []]> (consoleLogs s))
       (set_attachedTabs ({[tabId]} ∪ attachedTabs s) s)).
Hypothesis P_clear : ∀ tabId s, P s ->
  P (set_consoleLogs (<[tabId := []]> (consoleLogs s)) s).

Lemma keeps_api {A} (c : ApiCall) (answer : JsExn + A) : keeps P (api c answer).
Proof. intros s H. apply P_api, H. Qed.

Ltac keeps_auto :=
  repeat first
    [ apply keeps_ret | apply keeps_throw | apply keeps_gets | apply keeps_api
    | apply keeps_bind | apply keeps_try_catch
    | match goal with
      | |- ∀ _, _ => intro
      | |- keeps _ (if ?b then _ else _) => destruct b
      | |- keeps _ (match ?x with _ => _ end) => destruct x
      end ].

Lemma keeps_getActiveTab (w : World) : keeps P (getActiveTab w).
Proof. unfold getActiveTab. keeps_auto. Qed.

Lemma keeps_scripting_executeScript {R} (w : World) (tabId : nat)
    (func : Page -> list PageEffect * (JsExn + R)) :
  keeps P (scripting_executeScript w tabId func).
Proof.
  unfold scripting_executeScript. keeps_auto.
  apply keeps_modify. intros ? ?. apply P_page. assumption.
Qed.

Lemma keeps_getActiveTabDom (w : World) (req : BrowserContextRequest) :
  keeps P (getActiveTabDom w req).
Proof.
  unfold getActiveTabDom.
  apply keeps_bind; [apply keeps_getActiveTab | intros tab].
  apply keeps_bind; [apply keeps_scripting_executeScript | intros r].
  keeps_auto.
Qed.

Lemma keeps_getActiveTabSelection (w : World) (req : BrowserContextRequest) :
  keeps P (getActiveTabSelection w req).
Proof.
  unfold getActiveTabSelection.
  apply keeps_bind; [apply keeps_getActiveTab | intros tab].
  apply keeps_bind; [apply keeps_scripting_executeScript | intros r].
  keeps_auto.
Qed.

Lemma keeps_getActiveTabUrl (w : World) (req : BrowserContextRequest) :
  keeps P (getActiveTabUrl w req).
Proof.
  unfold getActiveTabUrl.
  apply keeps_bind; [apply keeps_getActiveTab | intros tab]. keeps_auto.
Qed.

Lemma keeps_captureActiveTabScreenshot (w : World) (req : BrowserContextRequest) :
  keeps P (captureActiveTabScreenshot w req).
Proof. unfold captureActiveTabScreenshot. keeps_auto. Qed.

Lemma keeps_executeScriptInTab (w : World) (req : BrowserContextRequest) :
  keeps P (executeScriptInTab w req).
Proof.
  unfold executeScriptInTab.
  apply keeps_bind; [apply keeps_getActiveTab | intros tab].
  destruct (negb _); [apply keeps_ret |].
  apply keeps_try_catch; [| intros; apply keeps_ret].
  apply keeps_bind; [apply keeps_scripting_executeScript | intros r].
  apply keeps_ret.
Qed.

Lemma keeps_modifyDomInTab (w : World) (req : BrowserContextRequest) :
  keeps P (modifyDomInTab w req).
Proof.
  unfold modifyDomInTab.
  apply keeps_bind; [apply keeps_getActiveTab | intros tab].
  destruct (negb _); [apply keeps_ret |].
  destruct (negb _); [apply keeps_ret |].
  apply keeps_try_catch; [| intros; apply keeps_ret].
  apply keeps_bind; [apply keeps_scripting_executeScript | intros r].
  keeps_auto.
Qed.

Lemma P_deliver_all (evs : list AsyncEvent) (s : BgState) :
  P s -> P (deliver_all evs s).
Proof.
  revert s. induction evs as [| ev evs IH]; intros s H; simpl.
  - exact H.
  - apply IH, P_deliver, H.
Qed.

Lemma keeps_attachDebuggerToTab (w : World) (tabId : nat) :
  tabId ≠ 0 -> keeps P (attachDebuggerToTab w tabId).
Proof.
  intros Hid. unfold attachDebuggerToTab.
  apply keeps_bind; [apply keeps_gets | intros attached].
  destruct attached; [apply keeps_ret |].
  apply keeps_try_catch; [| intros; apply keeps_throw].
  apply keeps_bind; [apply keeps_api | intros _].
  apply keeps_bind; [| intros _; keeps_auto].
  apply keeps_modify. intros s H. apply P_attach; assumption.
Qed.

Lemma keeps_getConsoleLogs (w : World) (req : BrowserContextRequest) :
  keeps P (getConsoleLogs w req).
Proof.
  unfold getConsoleLogs.
  apply (keeps_bind_returns P (λ tab, id_of tab ≠ 0));
    [apply keeps_getActiveTab | apply getActiveTab_id | intros tab Hid].
  apply keeps_bind; [apply keeps_gets | intros attached].
  apply keeps_bind.
  - destruct (negb attached); [| apply keeps_ret].
    apply keeps_try_catch; [| intros; apply keeps_ret].
    apply keeps_bind; [apply keeps_attachDebuggerToTab, Hid | intros _].
    apply keeps_bind; [| intros; apply keeps_ret].
    apply keeps_modify. intros s. apply P_deliver_all.
  - intros [response |]; [apply keeps_ret |].
    apply keeps_bind; [apply keeps_gets | intros logs].
    apply keeps_bind; [apply keeps_of_result | intros filtered].
    apply keeps_bind; [| intros; keeps_auto].
    destruct (truthy_bool _); [| apply keeps_ret].
    apply keeps_modify. intros s. apply P_clear.
Qed.

Lemma keeps_dispatch (w : World) (req : BrowserContextRequest) :
  keeps P (dispatch w req).
Proof.
  unfold dispatch.
  repeat match goal with |- keeps _ (if ?b then _ else _) => destruct b end;
    auto using keeps_getActiveTabDom, keeps_getActiveTabSelection,
      keeps_getActiveTabUrl, keeps_captureActiveTabScreenshot,
      keeps_executeScriptInTab, keeps_modifyDomInTab, keeps_getConsoleLogs,
      keeps_ret.
Qed.

End HandlersKeep.

(** ** The invariant holds in every reachable state *)

Opaque MAX_RECONNECT_ATTEMPTS.

(** The invariant reads four variables only. *)
Lemma invariant_ext (s s' : BgState) :
  consoleLogs s' = consoleLogs s ->
  attachedTabs s' = attachedTabs s ->
  reconnectAttempts s' = reconnectAttempts s ->
  pendingRequests s' = pendingRequests s ->
  invariant s -> invariant s'.
Proof.
  intros Hl Ha Hr Hp [I1 I2 I3 I4 I5].
  split; unfold rings_bounded, sessions_have_rings in *;
    rewrite ?Hl, ?Ha, ?Hr, ?Hp; assumption.
Qed.

Ltac same_variables := apply invariant_ext; reflexivity.

Lemma invariant_initial : invariant initial_state.
Proof.
  split; simpl.
  - intros tabId logs H. simpl in H. rewrite lookup_empty in H. discriminate H.
  - unfold sessions_have_rings. simpl. set_solver.
  - set_solver.
  - lia.
  - reflexivity.
Qed.

Lemma invariant_broadcast (m : WebSocketMessage) (s : BgState) :
  invariant s -> invariant (broadcastToExtension m s).
Proof. unfold broadcastToExtension. same_variables. Qed.

Lemma invariant_sendToBackend (m : WebSocketMessage) (s : BgState) :
  invariant s -> invariant (snd (sendToBackend m s)).
Proof. unfold sendToBackend. destruct (socket_is_open s); same_variables. Qed.

Lemma invariant_scheduleReconnect (s : BgState) :
  invariant s -> invariant (scheduleReconnect s).
Proof.
  intros H. unfold scheduleReconnect. case_decide as Hlt.
  - destruct H as [I1 I2 I3 I4 I5].
    split; unfold rings_bounded, sessions_have_rings in *; simpl;
      try assumption; try lia.
  - apply invariant_broadcast, H.
Qed.

Lemma invariant_connectToBackend (ctor : option JsExn) (s : BgState) :
  invariant s -> invariant (connectToBackend ctor s).
Proof.
  intros H. unfold connectToBackend.
  destruct (socket_is_open s); [exact H |].
  destruct ctor.
  - apply invariant_scheduleReconnect, invariant_broadcast, H.
  - revert H. same_variables.
Qed.

Lemma invariant_onDebuggerEvent (src : option nat) (now : nat)
    (ev : DebuggerEvent) (s : BgState) :
  invariant s -> invariant (onDebuggerEvent src now ev s).
Proof.
  intros H. unfold onDebuggerEvent.
  destruct src as [tabId |]; [| exact H].
  destruct (_ || _); [exact H |].
  destruct (entry_of_event now ev) as [entry |]; [| exact H].
  destruct H as [I1 I2 I3 I4 I5].
  split; unfold rings_bounded, sessions_have_rings in *; simpl;
    try assumption.
  - intros t logs. rewrite lookup_insert. case_decide as Ht.
    + intros [= E]. rewrite <- E. apply push_and_trim_length.
    + apply I1.
  - rewrite dom_insert_L. set_solver.
Qed.

Lemma invariant_onDebuggerDetach (src : option nat) (s : BgState) :
  invariant s -> invariant (onDebuggerDetach src s).
Proof.
  intros H. unfold onDebuggerDetach.
  destruct src as [tabId |]; [| exact H].
  destruct (truthy_num _); [| exact H].
  destruct H as [I1 I2 I3 I4 I5].
  split; unfold rings_bounded, sessions_have_rings in *; simpl;
    try assumption.
  - set_solver.
  - set_solver.
Qed.

Lemma invariant_onTabRemoved (tabId : nat) (s : BgState) :
  invariant s -> invariant (onTabRemoved tabId s).
Proof.
  intros [I1 I2 I3 I4 I5]. unfold onTabRemoved.
  split; unfold rings_bounded, sessions_have_rings in *; simpl;
    try assumption.
  - intros t logs. rewrite lookup_delete. case_decide; [discriminate | apply I1].
  - rewrite dom_delete_L. set_solver.
  - set_solver.
Qed.

Lemma invariant_deliver (ev : AsyncEvent) (s : BgState) :
  invariant s -> invariant (deliver ev s).
Proof.
  intros H. destruct ev as [i | i | i | src now ev | src | tabId]; simpl.
  - destruct (sockets s !! i) as [[] |]; try exact H.
    unfold socket_onopen. apply invariant_broadcast.
    destruct H as [I1 I2 I3 I4 I5].
  split; unfold rings_bounded, sessions_have_rings in *; simpl;
    try assumption; try lia.
  - destruct (sockets s !! i) as [[] |]; try exact H;
      unfold socket_onclose;
      apply invariant_scheduleReconnect, invariant_broadcast;
      revert H; same_variables.
  - destruct (sockets s !! i); [| exact H].
    unfold socket_onerror. apply invariant_broadcast, H.
  - apply invariant_onDebuggerEvent, H.
  - apply invariant_onDebuggerDetach, H.
  - apply invariant_onTabRemoved, H.
Qed.

Lemma invariant_attach (tabId : nat) (s : BgState) :
  tabId ≠ 0 -> invariant s ->
  invariant (set_consoleLogs (<[tabId := []]> (consoleLogs s))
               (set_attachedTabs ({[tabId]} ∪ attachedTabs s) s)).
Proof.
  intros Hid [I1 I2 I3 I4 I5].
  split; unfold rings_bounded, sessions_have_rings in *; simpl;
    try assumption.
  - intros t logs. rewrite lookup_insert. case_decide as Ht.
    + intros [= E]. rewrite <- E. simpl. lia.
    + apply I1.
  - rewrite dom_insert_L. set_solver.
  - set_solver.
Qed.

Lemma invariant_clear (tabId : nat) (s : BgState) :
  invariant s ->
  invariant (set_consoleLogs (<[tabId := []]> (consoleLogs s)) s).
Proof.
  intros [I1 I2 I3 I4 I5].
  split; unfold rings_bounded, sessions_have_rings in *; simpl;
    try assumption.
  - intros t logs. rewrite lookup_insert. case_decide as Ht.
    + intros [= E]. rewrite <- E. simpl. lia.
    + apply I1.
  - rewrite dom_insert_L. set_solver.
Qed.

Lemma invariant_dispatch (w : World) (req : BrowserContextRequest) :
  keeps invariant (dispatch w req).
Proof.
  apply keeps_dispatch.
  - intros v s. same_variables.
  - intros v s. same_variables.
  - apply invariant_deliver.
  - apply invariant_attach.
  - apply invariant_clear.
Qed.

Lemma invariant_handleBrowserContextRequest (w : World)
    (req : BrowserContextRequest) :
  keeps invariant (handleBrowserContextRequest w req).
Proof.
  unfold handleBrowserContextRequest. apply keeps_try_catch.
  - apply keeps_bind; [apply invariant_dispatch | intros response].
    apply keeps_modify. intros s. apply invariant_sendToBackend.
  - intros e. apply keeps_modify. intros s. apply invariant_sendToBackend.
Qed.

Lemma invariant_step (e : Event) (s : BgState) :
  invariant s -> invariant (step e s).
Proof.
  intros H. destruct e as [ev | i parsed w | ctor | | ctor | m ctor]; simpl.
  - apply invariant_deliver, H.
  - destruct (sockets s !! i) as [[] |]; try exact H.
    destruct parsed as [message |]; [| exact H].
    destruct message; simpl; try exact H.
    + apply invariant_broadcast, H.
    + apply invariant_handleBrowserContextRequest, H.
  - destruct (reconnectTimers s); [exact H |].
    apply invariant_connectToBackend. revert H. same_variables.
  - destruct (statusTimers s); [exact H |].
    apply invariant_broadcast. revert H. same_variables.
  - unfold keepAlive. destruct (negb _); [| exact H].
    apply invariant_connectToBackend, H.
  - destruct m as [| | m | |]; simpl; try exact H.
    + revert H. same_variables.
    + destruct m; simpl; try exact H; apply invariant_sendToBackend, H.
    + apply invariant_connectToBackend.
      destruct H as [I1 I2 I3 I4 I5].
  split; unfold rings_bounded, sessions_have_rings in *; simpl;
    try assumption; try lia.
Qed.

Lemma invariant_run (evs : list Event) (s : BgState) :
  invariant s -> invariant (run evs s).
Proof.
  revert s. induction evs as [| e evs IH]; intros s H; simpl.
  - exact H.
  - apply IH, invariant_step, H.
Qed.

Lemma invariant_reachable (s : BgState) : reachable s -> invariant s.
Proof.
  intros (ctor & evs & ->).
  apply invariant_run, invariant_connectToBackend, invariant_initial.
Qed.

(** ** Connection manager: the reconnect counter *)

Lemma socket_is_open_set_reconnectAttempts (n : nat) (s : BgState) :
  socket_is_open (set_reconnectAttempts n s) = socket_is_open s.
Proof. reflexivity. Qed.

Lemma scheduleReconnect_below (s : BgState) :
  reconnectAttempts s < MAX_RECONNECT_ATTEMPTS ->
  scheduleReconnect s
  = set_reconnectTimers (S (reconnectTimers s))
      (set_reconnectAttempts (S (reconnectAttempts s)) s).
Proof.
  intros H. unfold scheduleReconnect.
  case_decide; [reflexivity | contradiction].
Qed.

Lemma scheduleReconnect_at_max (s : BgState) :
  ¬ reconnectAttempts s < MAX_RECONNECT_ATTEMPTS ->
  scheduleReconnect s
  = broadcastToExtension
      (ConnectionStatus StatusError
         (Some "Failed to connect after multiple attempts. Is the backend running?"))
      s.
Proof.
  intros H. unfold scheduleReconnect.
  case_decide; [contradiction | reflexivity].
Qed.

(** C3.  The reconnect counter is zero after the handler of the
    socket's open event and is set to zero by the manual reconnect
    command before it connects (so that afterwards it is zero, or one
    when that very attempt fails because the socket cannot be
    created).  A failed attempt, which ends in [scheduleReconnect],
    adds one to a counter below [MAX_RECONNECT_ATTEMPTS] = 10 and arms
    one reconnect timer without broadcasting; at the maximum it arms
    no timer, leaves the counter alone and only broadcasts the error
    status.  The close handler counts in the same way, and in no
    state the worker can reach does the counter exceed the maximum. *)
Theorem reconnect_counter_discipline (s : BgState) (ctor ctor0 : option JsExn)
    (evs : list Event) :
  MAX_RECONNECT_ATTEMPTS = 10
  ∧ reconnectAttempts (socket_onopen s) = 0
  ∧ snd (onRuntimeMessage ctor ReconnectCommand s)
    = connectToBackend ctor (set_reconnectAttempts 0 s)
  ∧ reconnectAttempts (snd (onRuntimeMessage ctor ReconnectCommand s))
    = (if socket_is_open s then 0
       else match ctor with Some _ => 1 | None => 0 end)
  ∧ (if decide (reconnectAttempts s < MAX_RECONNECT_ATTEMPTS)
     then reconnectAttempts (scheduleReconnect s) = S (reconnectAttempts s)
          ∧ reconnectTimers (scheduleReconnect s) = S (reconnectTimers s)
          ∧ broadcasts (scheduleReconnect s) = broadcasts s
     else reconnectAttempts (scheduleReconnect s) = reconnectAttempts s
          ∧ reconnectTimers (scheduleReconnect s) = reconnectTimers s
          ∧ broadcasts (scheduleReconnect s)
            = broadcasts s ++
              [ConnectionStatus StatusError
                 (Some "Failed to connect after multiple attempts. Is the backend running?")])
  ∧ reconnectAttempts (socket_onclose s)
    = (if decide (reconnectAttempts s < MAX_RECONNECT_ATTEMPTS)
       then S (reconnectAttempts s) else reconnectAttempts s)
  ∧ reconnectAttempts (run evs (startup ctor0)) ≤ MAX_RECONNECT_ATTEMPTS.
Proof.
  split; [reflexivity |].
  split; [reflexivity |].
  split; [reflexivity |].
  split.
  { simpl. unfold connectToBackend.
    rewrite socket_is_open_set_reconnectAttempts.
    destruct (socket_is_open s); [reflexivity |].
    destruct ctor; [| reflexivity].
    rewrite scheduleReconnect_below; [reflexivity |].
    exact (Nat.lt_0_succ 9). }
  split.
  { case_decide as Hlt.
    - rewrite scheduleReconnect_below by exact Hlt. repeat split.
    - rewrite scheduleReconnect_at_max by exact Hlt. repeat split. }
  split.
  { unfold socket_onclose. case_decide as Hlt.
    - rewrite scheduleReconnect_below by exact Hlt. reflexivity.
    - rewrite scheduleReconnect_at_max by exact Hlt. reflexivity. }
  apply invariant_reachable. exists ctor0, evs. reflexivity.
Qed.

(** ** Connection manager: connecting twice *)

(** C6, as the code has it.  With the socket connected
    ([readyState] is [OPEN]) [connectToBackend] changes nothing: no
    broadcast, no new socket.  In every other case, a connection
    attempt in progress included, it changes the state: it broadcasts
    the connecting status and, when the constructor does not throw,
    creates a new socket to which [socket] then refers. *)
Theorem connectToBackend_noop_only_when_open (s : BgState) (ctor : option JsExn) :
  match socket_readyState s with
  | Some OPEN => connectToBackend ctor s = s
  | _ =>
      length (broadcasts s) < length (broadcasts (connectToBackend ctor s))
      ∧ broadcasts (connectToBackend None s)
        = broadcasts s ++ [ConnectionStatus Connecting None]
      ∧ sockets (connectToBackend None s) = sockets s ++ [CONNECTING]
      ∧ socket (connectToBackend None s) = Some (length (sockets s))
  end.
Proof.
  assert (Hgrows : socket_is_open s = false ->
            length (broadcasts s) < length (broadcasts (connectToBackend ctor s))).
  { intros Hclosed. unfold connectToBackend. rewrite Hclosed.
    destruct ctor; simpl.
    - unfold scheduleReconnect. case_decide; simpl;
        rewrite ?length_app; simpl; lia.
    - rewrite length_app. simpl. lia. }
  unfold connectToBackend, socket_is_open in *.
  destruct (socket_readyState s) as [[] |]; try reflexivity;
    (split; [apply Hgrows; reflexivity | repeat split]).
Qed.

(** C6, as the specification words it, fails: called while the first
    connection attempt is still in progress, [connectToBackend]
    changes the state; a second socket now exists and a second
    connecting status was broadcast. *)
Lemma connectToBackend_while_connecting :
  socket_readyState connecting_state = Some CONNECTING
  ∧ connectToBackend None connecting_state ≠ connecting_state
  ∧ sockets (connectToBackend None connecting_state) = [CONNECTING; CONNECTING]
  ∧ socket (connectToBackend None connecting_state) = Some 1
  ∧ broadcasts (connectToBackend None connecting_state)
    = [ConnectionStatus Connecting None; ConnectionStatus Connecting None].
Proof.
  split; [reflexivity |].
  split; [| repeat split].
  intros E. apply (f_equal socket) in E. discriminate E.
Qed.

(** ** Log buffer: sessions and rings *)

(** C9, as the code has it.  In every state the worker can reach,
    each tab with a debug session owns a ring.  Closing a tab removes
    its session and its ring together; a detach removes the session
    and keeps the ring. *)
Theorem sessions_own_rings (ctor : option JsExn) (evs : list Event) (tabId : nat) :
  let s := run evs (startup ctor) in
  attachedTabs s ⊆ dom (consoleLogs s)
  ∧ (tabId ∉ attachedTabs (onTabRemoved tabId s))
  ∧ (tabId ∉ dom (consoleLogs (onTabRemoved tabId s)))
  ∧ (tabId ∉ attachedTabs (onDebuggerDetach (Some tabId) s))
  ∧ consoleLogs (onDebuggerDetach (Some tabId) s) = consoleLogs s.
Proof.
  intros s.
  assert (Hinv : invariant s)
    by (apply invariant_reachable; exists ctor, evs; reflexivity).
  destruct Hinv as [_ Hsub Hzero _ _].
  split; [exact Hsub |].
  split; [simpl; set_solver |].
  split; [simpl; rewrite dom_delete_L; set_solver |].
  unfold onDebuggerDetach. destruct tabId as [| n]; simpl.
  - split; [exact Hzero | reflexivity].
  - split; [set_solver | reflexivity].
Qed.

(** C9, as the specification words it, fails: after the debugger is
    detached from a tab, the tab still owns its ring and has no
    session, in a state the worker reaches. *)
Lemma ring_without_session_after_detach :
  reachable detached_state
  ∧ (7 ∈ dom (consoleLogs detached_state))
  ∧ (7 ∉ attachedTabs detached_state)
  ∧ ¬ rings_have_sessions detached_state.
Proof.
  assert (Hin : 7 ∈ dom (consoleLogs detached_state)).
  { apply elem_of_dom. exists []. vm_compute. reflexivity. }
  assert (Hout : 7 ∉ attachedTabs detached_state).
  { apply (bool_decide_unpack _). vm_compute. exact I. }
  split.
  { exists None, detached_history. reflexivity. }
  split; [exact Hin |]. split; [exact Hout |].
  intros Hsub. apply Hout, Hsub, Hin.
Qed.

(** ** Log buffer: capacity and recency *)

Lemma onDebuggerEvent_ring (tabId now : nat) (ev : DebuggerEvent) (s : BgState) :
  tabId ≠ 0 -> tabId ∈ attachedTabs s ->
  ring tabId (onDebuggerEvent (Some tabId) now ev s)
  = match entry_of_event now ev with
    | Some entry => push_and_trim (ring tabId s) entry
    | None => ring tabId s
    end
  ∧ attachedTabs (onDebuggerEvent (Some tabId) now ev s) = attachedTabs s.
Proof.
  intros Hid Hin. unfold onDebuggerEvent.
  rewrite (bool_decide_eq_true_2 _ Hin).
  destruct tabId as [| n]; [congruence |]. simpl.
  destruct (entry_of_event now ev) as [entry |]; [| split; reflexivity].
  split; [| reflexivity].
  unfold ring. simpl. rewrite lookup_insert_eq. reflexivity.
Qed.

Lemma deliver_fired_ring (tabId : nat) (evs : list (nat * DebuggerEvent))
    (s : BgState) :
  tabId ≠ 0 -> tabId ∈ attachedTabs s ->
  ring tabId (deliver_all (fired_for tabId evs) s)
  = foldl push_and_trim (ring tabId s) (entries_of evs).
Proof.
  intros Hid. revert s.
  induction evs as [| [now ev] evs IH]; intros s Hin; [reflexivity |].
  destruct (onDebuggerEvent_ring tabId now ev s Hid Hin) as [Hring Hatt].
  change (deliver_all (fired_for tabId ((now, ev) :: evs)) s)
    with (deliver_all (fired_for tabId evs) (onDebuggerEvent (Some tabId) now ev s)).
  rewrite IH by (rewrite Hatt; exact Hin). rewrite Hring.
  unfold entries_of. simpl.
  destruct (entry_of_event now ev); reflexivity.
Qed.

(** C7.  Take any state the worker can reach and a tab with a debug
    session in it.  After any sequence of debugger events for that
    tab, its ring holds at most [MAX_LOGS_PER_TAB] = 500 records, and
    they are the last 500 of what the ring held followed by the
    records of the events, in that order: the oldest are dropped from
    the front. *)
Theorem ring_capacity_and_recency (ctor : option JsExn) (history : list Event)
    (tabId : nat) (evs : list (nat * DebuggerEvent)) :
  let s := run history (startup ctor) in
  tabId ∈ attachedTabs s ->
  let s' := deliver_all (fired_for tabId evs) s in
  let appended := ring tabId s ++ entries_of evs in
  MAX_LOGS_PER_TAB = 500
  ∧ length (ring tabId s') ≤ MAX_LOGS_PER_TAB
  ∧ ring tabId s' = drop (length appended - MAX_LOGS_PER_TAB) appended.
Proof.
  intros s Hin s' appended.
  assert (Hinv : invariant s)
    by (apply invariant_reachable; exists ctor, history; reflexivity).
  destruct Hinv as [Hrings _ Hzero _ _].
  assert (Hid : tabId ≠ 0) by (intros ->; contradiction).
  assert (Hlen : length (ring tabId s) ≤ MAX_LOGS_PER_TAB).
  { unfold ring. destruct (consoleLogs s !! tabId) as [logs |] eqn:E; simpl.
    - apply (Hrings tabId logs E).
    - lia. }
  unfold s'. rewrite (deliver_fired_ring tabId evs s Hid Hin).
  split; [reflexivity |]. split.
  - apply foldl_push_and_trim_length, Hlen.
  - apply foldl_push_and_trim, Hlen.
Qed.

Lemma ring_capacity_and_recency_witness :
  let s := run attached_history (startup None) in
  let s' := deliver_all (fired_for 7 sample_debugger_events) s in
  let appended := ring 7 s ++ entries_of sample_debugger_events in
  7 ∈ attachedTabs s
  ∧ MAX_LOGS_PER_TAB = 500
  ∧ length (ring 7 s') ≤ MAX_LOGS_PER_TAB
  ∧ ring 7 s' = drop (length appended - MAX_LOGS_PER_TAB) appended.
Proof.
  intros s s' appended.
  assert (Hin : 7 ∈ attachedTabs s).
  { apply (bool_decide_unpack _). vm_compute. exact I. }
  split; [exact Hin |].
  exact (ring_capacity_and_recency None attached_history 7
           sample_debugger_events Hin).
Defined.

(** ** Running the handlers *)

Lemma bind_inr {A B} (m : M A) (k : A -> M B) (s s' : BgState) (b : B) :
  bind m k s = (inr b, s') ->
  ∃ a s1, m s = (inr a, s1) ∧ k a s1 = (inr b, s').
Proof.
  unfold bind. destruct (m s) as [[e | a] s1]; intros E.
  - discriminate E.
  - exists a, s1. split; [reflexivity | exact E].
Qed.

Lemma bind_run {A B} (m : M A) (k : A -> M B) (s s1 : BgState) (a : A) :
  m s = (inr a, s1) -> bind m k s = k a s1.
Proof. intros E. unfold bind. rewrite E. reflexivity. Qed.

Lemma bind_throws {A B} (m : M A) (k : A -> M B) (s s1 : BgState) (e : JsExn) :
  m s = (inl e, s1) -> bind m k s = (inl e, s1).
Proof. intros E. unfold bind. rewrite E. reflexivity. Qed.

Lemma bind_gets {A B} (f : BgState -> A) (k : A -> M B) (s : BgState) :
  bind (gets f) k s = k (f s) s.
Proof. reflexivity. Qed.

Lemma bind_modify {B} (f : BgState -> BgState) (k : unit -> M B) (s : BgState) :
  bind (modify f) k s = k tt (f s).
Proof. reflexivity. Qed.

Lemma bind_ret {A B} (a : A) (k : A -> M B) (s : BgState) :
  bind (ret a) k s = k a s.
Proof. reflexivity. Qed.

Lemma bind_of_result {A B} (r : JsExn + A) (k : A -> M B) (s : BgState) :
  bind (of_result r) k s
  = match r with inl e => (inl e, s) | inr a => k a s end.
Proof. unfold bind, of_result. destruct r; reflexivity. Qed.

(** [getActiveTab] asks for the tabs once, and what it answers
    depends on the world only. *)
Lemma getActiveTab_run (w : World) (s : BgState) :
  getActiveTab w s = (active_tab w, set_apiCalls (apiCalls s ++ [TabsQuery]) s).
Proof.
  unfold active_tab, getActiveTab, bind, api.
  destruct (tabs_query w) as [e | tabs]; [reflexivity |].
  destruct (head tabs) as [tab |]; [| reflexivity].
  destruct (negb (truthy_num (tab_id tab))); [reflexivity |].
  destruct (restricted_url _); reflexivity.
Qed.




Lemma attachDebuggerToTab_refused (w : World) (tabId : nat) (s : BgState)
    (e : JsExn) :
  is_attached tabId s = false ->
  debugger_attach w tabId = inl e ->
  attachDebuggerToTab w tabId s
  = (inl e, set_apiCalls (apiCalls s ++ [DebuggerAttach tabId]) s).
Proof.
  intros Hnot Hattach. unfold attachDebuggerToTab. rewrite bind_gets, Hnot.
  unfold try_catch, bind, api, throw. rewrite Hattach. reflexivity.
Qed.

(** ** Console logs: what a request does *)

(** [getConsoleLogs] step by step, once the active tab is known: the
    tab query, the attach when the tab has no session, the read of
    the ring through the filter, and the clear after it. *)
Lemma getConsoleLogs_run (w : World) (req : BrowserContextRequest)
    (s : BgState) (tab : Tab) :
  active_tab w = inr tab ->
  let tabId := id_of tab in
  let s0 := set_apiCalls (apiCalls s ++ [TabsQuery]) s in
  let read (s_read : BgState) :=
    match filter_logs (params req ≫= p_level) (ring tabId s_read) with
    | inl e => (inl e, s_read)
    | inr logs =>
        (inr (success req
                (Some (LogsData logs tabId (tab_url tab)
                         (is_attached tabId s_read)))),
         if truthy_bool (params req ≫= p_clear)
         then set_consoleLogs (<[tabId := []]> (consoleLogs s_read)) s_read
         else s_read)
    end in
  getConsoleLogs w req s
  = if is_attached tabId s then read s0
    else match attachDebuggerToTab w tabId s0 with
         | (inl e, s1) =>
             (inr (failure req ("Failed to attach debugger: "
                                +:+ errorMessageOr "Unknown error" e)), s1)
         | (inr _, s1) => read (deliver_all (settle_events w) s1)
         end.
Proof.
  intros Htab tabId s0 read.
  assert (Hread : ∀ s_read,
            (let* logs := gets (ring tabId) in
             let* logs := of_result (filter_logs (params req ≫= p_level) logs) in
             (if truthy_bool (params req ≫= p_clear)
              then modify (λ s, set_consoleLogs
                                  (<[tabId := []]> (consoleLogs s)) s)
              else ret tt) ;;
             let* isCapturing := gets (is_attached tabId) in
             ret (success req
                    (Some (LogsData logs tabId (tab_url tab) isCapturing))))
              s_read
            = read s_read).
  { intros s_read. rewrite bind_gets, bind_of_result. unfold read.
    destruct (filter_logs _ _) as [e | logs]; [reflexivity |].
    destruct (truthy_bool _); reflexivity. }
  unfold getConsoleLogs.
  erewrite bind_run by (rewrite getActiveTab_run, Htab; reflexivity).
  fold tabId s0. rewrite bind_gets.
  change (is_attached tabId s0) with (is_attached tabId s).
  destruct (is_attached tabId s); cbn [negb].
  - rewrite bind_ret. apply Hread.
  - unfold try_catch.
    destruct (attachDebuggerToTab w tabId s0) as [[e | []] s1] eqn:Hattach.
    + erewrite bind_run; cycle 1.
      { cbv beta. erewrite bind_throws by exact Hattach. reflexivity. }
      reflexivity.
    + erewrite bind_run; cycle 1.
      { cbv beta. erewrite bind_run by exact Hattach. reflexivity. }
      apply Hread.
Qed.

(** ** Console logs: reading with [clear] *)




(** ** Request router: one response per request *)

Section ResponsesCarryTheId.
Context (w : World) (req : BrowserContextRequest).

Lemma returns_intro {A} (Q : A -> Prop) (m : M A) :
  (∀ s s' a, m s = (inr a, s') -> Q a) -> returns Q m.
Proof.
  intros H s a E. destruct (m s) as [r s'] eqn:Hm. simpl in E. subst r.
  apply (H s s' a Hm).
Qed.

Ltac returns_auto :=
  repeat first
    [ apply returns_ret; reflexivity | apply returns_throw
    | apply returns_bind | apply returns_try_catch
    | match goal with
      | |- ∀ _, _ => intro
      | |- returns _ (if ?b then _ else _) => destruct b
      | |- returns _ (match ?x with _ => _ end) => destruct x
      end ].

Lemma getActiveTabDom_id : returns (carries_id req) (getActiveTabDom w req).
Proof. unfold getActiveTabDom. returns_auto. Qed.

Lemma getActiveTabSelection_id : returns (carries_id req) (getActiveTabSelection w req).
Proof. unfold getActiveTabSelection. returns_auto. Qed.

Lemma getActiveTabUrl_id : returns (carries_id req) (getActiveTabUrl w req).
Proof. unfold getActiveTabUrl. returns_auto. Qed.

Lemma captureActiveTabScreenshot_id :
  returns (carries_id req) (captureActiveTabScreenshot w req).
Proof. unfold captureActiveTabScreenshot. returns_auto. Qed.

Lemma executeScriptInTab_id : returns (carries_id req) (executeScriptInTab w req).
Proof. unfold executeScriptInTab. returns_auto. Qed.

Lemma modifyDomInTab_id : returns (carries_id req) (modifyDomInTab w req).
Proof. unfold modifyDomInTab. returns_auto. Qed.

Lemma getConsoleLogs_id : returns (carries_id req) (getConsoleLogs w req).
Proof.
  unfold getConsoleLogs.
  apply returns_bind; intros tab. apply returns_bind; intros attached.
  apply returns_intro. intros s s' resp Hrun.
  apply bind_inr in Hrun as (refused & s1 & Hrefused & Hrun).
  destruct refused as [response |].
  - injection Hrun as <- _.
    destruct (negb attached); [| discriminate Hrefused].
    unfold try_catch in Hrefused.
    destruct (bind _ _ s) as [[e | o] s2] eqn:Hattach.
    + injection Hrefused as <- _. reflexivity.
    + apply bind_inr in Hattach as (? & ? & _ & Hattach).
      apply bind_inr in Hattach as (? & ? & _ & Hattach).
      injection Hattach as <- _. discriminate Hrefused.
  - assert (Hrest : returns (carries_id req)
              (let* logs := gets (ring (id_of tab)) in
               let* logs :=
                 of_result (filter_logs (params req ≫= p_level) logs) in
               (if truthy_bool (params req ≫= p_clear)
                then modify (λ s, set_consoleLogs
                                    (<[id_of tab := []]> (consoleLogs s)) s)
                else ret tt) ;;
               let* isCapturing := gets (is_attached (id_of tab)) in
               ret (success req
                      (Some (LogsData logs (id_of tab) (tab_url tab)
                               isCapturing)))))
      by returns_auto.
    apply (Hrest s1 resp). rewrite Hrun. reflexivity.
Qed.

Lemma dispatch_id : returns (carries_id req) (dispatch w req).
Proof.
  unfold dispatch.
  repeat match goal with |- returns _ (if ?b then _ else _) => destruct b end;
    auto using getActiveTabDom_id, getActiveTabSelection_id, getActiveTabUrl_id,
      captureActiveTabScreenshot_id, executeScriptInTab_id, modifyDomInTab_id,
      getConsoleLogs_id.
  apply returns_ret. reflexivity.
Qed.

End ResponsesCarryTheId.

Lemma sendCalls_scheduleReconnect (s : BgState) :
  sendCalls (scheduleReconnect s) = sendCalls s.
Proof. unfold scheduleReconnect. case_decide; reflexivity. Qed.

Lemma sendCalls_deliver (ev : AsyncEvent) (s : BgState) :
  sendCalls (deliver ev s) = sendCalls s.
Proof.
  destruct ev as [i | i | i | src now ev | src | tabId]; simpl.
  - destruct (sockets s !! i) as [[] |]; reflexivity.
  - destruct (sockets s !! i) as [[] |]; try reflexivity;
      unfold socket_onclose; rewrite sendCalls_scheduleReconnect; reflexivity.
  - destruct (sockets s !! i); reflexivity.
  - unfold onDebuggerEvent. destruct src; [| reflexivity].
    destruct (_ || _); [reflexivity |].
    destruct (entry_of_event now ev); reflexivity.
  - unfold onDebuggerDetach. destruct src; [| reflexivity].
    destruct (truthy_num _); reflexivity.
  - reflexivity.
Qed.

(** The handlers themselves send nothing. *)
Lemma dispatch_sends_nothing (w : World) (req : BrowserContextRequest)
    (s : BgState) :
  sendCalls (snd (dispatch w req s)) = sendCalls s.
Proof.
  apply (keeps_dispatch (λ s', sendCalls s' = sendCalls s)); try reflexivity.
  - intros v s' H. exact H.
  - intros v s' H. exact H.
  - intros ev s' H. rewrite sendCalls_deliver. exact H.
  - intros tabId s' _ H. exact H.
  - intros tabId s' H. exact H.
Qed.

Lemma sendToBackend_run (m : WebSocketMessage) (s : BgState) :
  sendCalls (snd (sendToBackend m s)) = sendCalls s ++ [(m, socket_is_open s)]
  ∧ socket_is_open (snd (sendToBackend m s)) = socket_is_open s
  ∧ fst (sendToBackend m s) = socket_is_open s.
Proof.
  unfold sendToBackend. destruct (socket_is_open s) eqn:E; simpl;
    repeat split; try reflexivity; exact E.
Qed.

Lemma wire_snoc (s s' : BgState) (m : WebSocketMessage) (delivered : bool) :
  sendCalls s' = sendCalls s ++ [(m, delivered)] ->
  wire s' = wire s ++ (if delivered then [m] else []).
Proof.
  intros E. unfold wire. rewrite E, filter_app, map_app.
  destruct delivered; reflexivity.
Qed.

(** C1.  Whatever the request (its action known or not), whatever the
    outside answers and whatever the state, handling a browser request
    ends without throwing and hands exactly one message to
    [sendToBackend]: a browser response carrying the identifier of the
    request.  That response is the one frame written to the socket when
    the socket is open at that moment; [sendToBackend] drops it
    otherwise. *)
Theorem one_response_per_request (w : World) (req : BrowserContextRequest)
    (s : BgState) :
  let s' := snd (handleBrowserContextRequest w req s) in
  ∃ resp : BrowserContextResponse,
    fst (handleBrowserContextRequest w req s) = inr tt
    ∧ r_requestId resp = requestId req
    ∧ sendCalls s' = sendCalls s ++ [(BrowserResponse resp, socket_is_open s')]
    ∧ wire s' = wire s ++ (if socket_is_open s' then [BrowserResponse resp] else []).
Proof.
  intros s'.
  assert (Hmain : ∃ resp : BrowserContextResponse,
             fst (handleBrowserContextRequest w req s) = inr tt
             ∧ r_requestId resp = requestId req
             ∧ sendCalls s'
               = sendCalls s ++ [(BrowserResponse resp, socket_is_open s')]).
  { unfold s', handleBrowserContextRequest, try_catch, bind.
    pose proof (dispatch_sends_nothing w req s) as Hnone.
    pose proof (dispatch_id w req s) as Hid.
    destruct (dispatch w req s) as [[e | resp] s1]; simpl in *.
    - exists (failure req (errorMessageOr "Unknown error" e)).
      destruct (sendToBackend_run
                  (BrowserResponse (failure req (errorMessageOr "Unknown error" e)))
                  s1) as (Hcalls & Hopen & _).
      rewrite Hcalls, Hopen, Hnone. repeat split.
    - exists resp.
      destruct (sendToBackend_run (BrowserResponse resp) s1) as (Hcalls & Hopen & _).
      rewrite Hcalls, Hopen, Hnone. repeat split.
      apply Hid. reflexivity. }
  destruct Hmain as (resp & Hret & Hid & Hcalls).
  exists resp. repeat split; try assumption.
  apply wire_snoc, Hcalls.
Qed.

(** X1.  An action outside the table is answered with a failure that names
    it. *)
Lemma unknown_action_named (w : World) (req : BrowserContextRequest) (s : BgState) :
  action req ∉ ["getDom"; "getSelection"; "getUrl"; "screenshot";
                "executeScript"; "modifyDom"; "getConsoleLogs"] ->
  dispatch w req s = (inr (failure req ("Unknown action: " +:+ action req)), s).
Proof.
  intros Hnot. unfold dispatch.
  repeat match goal with
         | |- context [String.eqb (action req) ?a] =>
             destruct (String.eqb_spec (action req) a) as [E | _];
             [exfalso; apply Hnot; rewrite E; set_solver |]
         end.
  reflexivity.
Qed.

(** ** Request router: the active tab is resolved first *)

Lemma active_tab_none (w : World) :
  tabs_query w = inr [] -> active_tab w = inl (JsError "No active tab found").
Proof. intros E. unfold active_tab, getActiveTab, bind, api. rewrite E. reflexivity. Qed.

Lemma active_tab_restricted (w : World) (tab : Tab) (rest : list Tab) :
  tabs_query w = inr (tab :: rest) ->
  truthy_num (tab_id tab) = true ->
  restricted_url (str_or (tab_url tab) "") = true ->
  active_tab w
  = inl (JsError ("Cannot access restricted page: " +:+
                  before_slash (str_or (tab_url tab) "") +:+ "//...")).
Proof.
  intros E Hid Hurl. unfold active_tab, getActiveTab, bind, api.
  rewrite E. simpl. rewrite Hid, Hurl. reflexivity.
Qed.

(** X2.  For six of the seven actions an unresolved active tab, missing or
    denylisted, is answered with the error of [getActiveTab], and the
    only Chrome call made is the tab query. *)
Lemma unresolved_tab_rejected (w : World) (req : BrowserContextRequest)
    (s : BgState) (e : JsExn) :
  action req ∈ tab_checked_actions ->
  active_tab w = inl e ->
  handleBrowserContextRequest w req s
  = (inr tt,
     snd (sendToBackend
            (BrowserResponse (failure req (errorMessageOr "Unknown error" e)))
            (set_apiCalls (apiCalls s ++ [TabsQuery]) s))).
Proof.
  intros Hact Htab.
  assert (Hget : getActiveTab w s
                 = (inl e, set_apiCalls (apiCalls s ++ [TabsQuery]) s))
    by (rewrite getActiveTab_run, Htab; reflexivity).
  assert (Hdispatch : dispatch w req s
                      = (inl e, set_apiCalls (apiCalls s ++ [TabsQuery]) s)).
  { unfold tab_checked_actions in Hact. unfold dispatch.
    repeat (apply elem_of_cons in Hact as [-> | Hact];
            [simpl; apply bind_throws, Hget |]).
    apply elem_of_nil in Hact. contradiction. }
  unfold handleBrowserContextRequest, try_catch.
  rewrite (bind_throws _ _ _ _ _ Hdispatch). reflexivity.
Qed.

(** C4, where the code departs from it.  [captureActiveTabScreenshot]
    never resolves the active tab: its one Chrome call is the capture
    itself.  With the active tab on [chrome://settings], or with no
    tab at all, the capture is invoked and its image is returned with
    success. *)
Theorem screenshot_skips_tab_check (w : World) (req : BrowserContextRequest)
    (s : BgState) :
  apiCalls (snd (captureActiveTabScreenshot w req s))
  = apiCalls s ++ [CaptureVisibleTab]
  ∧ active_tab (sample_world "chrome://settings")
    = inl (JsError "Cannot access restricted page: chrome://...")
  ∧ active_tab tabless_world = inl (JsError "No active tab found")
  ∧ (let s' := snd (handleBrowserContextRequest (sample_world "chrome://settings")
                      (sample_request "screenshot" None) connected_state) in
     apiCalls s' = [CaptureVisibleTab]
     ∧ sendCalls s'
       = [(BrowserResponse
             (success (sample_request "screenshot" None)
                (Some (ScreenshotData "data:image/png;base64,AAAA" "png"))),
           true)])
  ∧ (let s' := snd (handleBrowserContextRequest tabless_world
                      (sample_request "screenshot" None) connected_state) in
     apiCalls s' = [CaptureVisibleTab]
     ∧ sendCalls s'
       = [(BrowserResponse
             (success (sample_request "screenshot" None)
                (Some (ScreenshotData "data:image/png;base64,AAAA" "png"))),
           true)]).
Proof.
  split.
  { unfold captureActiveTabScreenshot, try_catch, bind, api.
    destruct (captureVisibleTab w); reflexivity. }
  split; [vm_compute; reflexivity |].
  split; [vm_compute; reflexivity |].
  split; split; vm_compute; reflexivity.
Qed.

(** ** Request router: running a script in the page *)

Lemma scripting_executeScript_runs {R} (w : World) (tabId : nat)
    (func : Page -> list PageEffect * (JsExn + R)) (s : BgState) :
  scripting w = ScriptingRuns ->
  scripting_executeScript w tabId func s
  = (match snd (func (page w)) with
     | inl e => inl e
     | inr v => inr (Some v)
     end,
     set_pageEffects (pageEffects s ++ fst (func (page w)))
       (set_apiCalls (apiCalls s ++ [ScriptingExecuteScript tabId]) s)).
Proof.
  intros E. unfold scripting_executeScript. rewrite E.
  destruct (func (page w)) as [effects [e | v]]; reflexivity.
Qed.

(** Whatever the script does in the page, the answer is a success
    carrying [{ success: true }]. *)
Lemma executeScriptInTab_run (w : World) (req : BrowserContextRequest)
    (s : BgState) (tab : Tab) (script : string) :
  active_tab w = inr tab ->
  scripting w = ScriptingRuns ->
  params req ≫= p_script = Some script ->
  script ≠ "" ->
  executeScriptInTab w req s
  = (inr (success req (Some (ScriptData true))),
     set_pageEffects
       (pageEffects s ++
        [ScriptElementRun (wrappedScript script)
           (wrapper_caught (run_script (page w) script))])
       (set_apiCalls (apiCalls s ++ [TabsQuery; ScriptingExecuteScript (id_of tab)]) s)).
Proof.
  intros Htab Hruns Hscript Hne. unfold executeScriptInTab.
  erewrite bind_run by (rewrite getActiveTab_run, Htab; reflexivity).
  rewrite Hscript. simpl.
  destruct (String.eqb_spec script "") as [-> | _]; [contradiction |]. simpl.
  unfold try_catch, bind.
  rewrite (scripting_executeScript_runs w _ _ _ Hruns).
  unfold ret. simpl. rewrite <- app_assoc. reflexivity.
Qed.

Lemma executeScriptInTab_no_script (w : World) (req : BrowserContextRequest)
    (s : BgState) (tab : Tab) :
  active_tab w = inr tab ->
  truthy_str (params req ≫= p_script) = false ->
  executeScriptInTab w req s
  = (inr (failure req "No script provided"),
     set_apiCalls (apiCalls s ++ [TabsQuery]) s).
Proof.
  intros Htab Hscript. unfold executeScriptInTab.
  erewrite bind_run by (rewrite getActiveTab_run, Htab; reflexivity).
  rewrite Hscript. reflexivity.
Qed.

(** C5, where the code departs from it.  The script
    [throw new Error('boom')] raises in the page; the wrapper catches
    it (the page sees the wrapper evaluate to an [__error] of [boom]),
    and the response is a success whose data is [{ success: true }]:
    the failure is not reported.  A request without a script is
    answered with the failure [No script provided]. *)
Theorem executeScript_hides_script_failure :
  let w := sample_world "https://example.org/" in
  run_script (page w) "throw new Error('boom')" = Raises (Some "boom")
  ∧ executeScriptInTab w throwing_script_request connected_state
    = (inr (success throwing_script_request (Some (ScriptData true))),
       set_pageEffects
         [ScriptElementRun (wrappedScript "throw new Error('boom')") (Some "boom")]
         (set_apiCalls [TabsQuery; ScriptingExecuteScript 7] connected_state))
  ∧ sendCalls (snd (handleBrowserContextRequest w throwing_script_request
                      connected_state))
    = [(BrowserResponse (success throwing_script_request (Some (ScriptData true))),
        true)]
  ∧ fst (executeScriptInTab w (sample_request "executeScript" None) connected_state)
    = inr (failure (sample_request "executeScript" None) "No script provided").
Proof.
  intros w. split; [reflexivity |].
  split.
  { unfold w.
    rewrite (executeScriptInTab_run _ _ _
               (sample_tab "https://example.org/") "throw new Error('boom')");
      try reflexivity.
    intros E. discriminate E. }
  split; [vm_compute; reflexivity |].
  unfold w.
  rewrite (executeScriptInTab_no_script _ _ _ (sample_tab "https://example.org/"));
    reflexivity.
Qed.

(** ** Request router: modifying the DOM *)

Lemma modify_loop_ok (pg : Page) (action : string) (value attributeName : option string)
    (op : DomOp) (elements : list Element) (applied : list PageEffect) (n : nat) :
  dom_operation action value attributeName = inr op ->
  (∀ el, el ∈ elements -> dom_raises pg el op = None) ->
  modify_loop pg action value attributeName elements applied n
  = (applied ++ map (λ el, DomMutation el op) elements,
     inr (inr (n + length elements))).
Proof.
  intros Hop. revert applied n.
  induction elements as [| el rest IH]; intros applied n Hquiet; simpl.
  - rewrite app_nil_r, Nat.add_0_r. reflexivity.
  - rewrite Hop, (Hquiet el) by (apply elem_of_cons; left; reflexivity).
    rewrite IH by (intros el' Hin; apply Hquiet, elem_of_cons; right; exact Hin).
    rewrite <- app_assoc. simpl. repeat f_equal. lia.
Qed.

Lemma modify_loop_refused (pg : Page) (action : string)
    (value attributeName : option string) (error : string)
    (elements : list Element) (applied : list PageEffect) (n : nat) :
  dom_operation action value attributeName = inl error ->
  elements ≠ [] ->
  modify_loop pg action value attributeName elements applied n
  = (applied, inr (inl error)).
Proof.
  intros Hop Hne. destruct elements as [| el rest]; [contradiction |].
  simpl. rewrite Hop. reflexivity.
Qed.

Lemma dom_operation_error_truthy (action : string)
    (value attributeName : option string) (error : string) :
  dom_operation action value attributeName = inl error ->
  str_or (Some error) "DOM modification failed" = error.
Proof.
  unfold dom_operation.
  repeat match goal with
         | |- context [if ?b then _ else _] => destruct b
         end;
    intros E; try discriminate E; injection E as <-; reflexivity.
Qed.

Lemma selected_elements_targets (pg : Page) (selector : string) (all : bool)
    (matches : list Element) :
  querySelectorAll pg selector = inr matches ->
  selected_elements pg selector all = inr (targets all matches).
Proof.
  intros E. unfold selected_elements, querySelector, targets. rewrite E.
  destruct all; [reflexivity |]. destruct matches; reflexivity.
Qed.

Lemma targets_nil (all : bool) (matches : list Element) :
  targets all matches = [] <-> matches = [].
Proof. unfold targets. destruct all, matches; simpl; split; congruence. Qed.

Lemma targets_length (all : bool) (matches : list Element) :
  matches ≠ [] ->
  length (targets all matches) = if all then length matches else 1.
Proof. unfold targets. destruct all, matches; simpl; congruence. Qed.

(** C8, as the code has it.  Take a [modifyDom] request with a
    selector and an action, handled while the active tab resolves and
    the injection runs, and let the selector match the elements
    [matches].
    - When it matches none, the response is a failure naming the
      selector, and nothing is modified.
    - When it matches some and the action is unknown or lacks the
      argument it requires, the response is the failure of that arm,
      and nothing is modified.
    - When it matches some, the action is known with its argument and
      no DOM operation throws, the operation is applied to the first
      match only when [all] is false, and to every match in order when
      [all] is true; the response is a success whose [modifiedCount]
      is 1, respectively the number of matches. *)
Theorem modifyDom_first_or_all (w : World) (req : BrowserContextRequest)
    (s : BgState) (tab : Tab) (selector act : string) (matches : list Element) :
  active_tab w = inr tab ->
  scripting w = ScriptingRuns ->
  params req ≫= p_selector = Some selector -> selector ≠ "" ->
  params req ≫= p_action = Some act -> act ≠ "" ->
  querySelectorAll (page w) selector = inr matches ->
  let all := default false (params req ≫= p_all) in
  let r := modifyDomInTab w req s in
  match matches with
  | [] =>
      fst r = inr (failure req ("No elements found matching: " +:+ selector))
      ∧ pageEffects (snd r) = pageEffects s
  | first :: others =>
      match dom_operation act (params req ≫= p_value)
              (params req ≫= p_attributeName) with
      | inl error =>
          fst r = inr (failure req error)
          ∧ pageEffects (snd r) = pageEffects s
      | inr op =>
          (∀ el, el ∈ targets all matches -> dom_raises (page w) el op = None) ->
          let count := if all then length matches else 1 in
          targets all matches = (if all then matches else [first])
          ∧ fst r
            = inr (success req
                     (Some (ModifyData count
                              ("Modified " +:+ show_nat count +:+
                               " element(s) using " +:+ act))))
          ∧ pageEffects (snd r)
            = pageEffects s ++ map (λ el, DomMutation el op) (targets all matches)
      end
  end.
Proof.
  intros Htab Hruns Hsel Hsel_ne Hact Hact_ne Hmatches all r.
  assert (Hr : r = bind (getActiveTab w) (λ tab,
                 try_catch
                   (let* result :=
                      scripting_executeScript w (id_of tab)
                        (modifyDom_func selector act (params req ≫= p_value)
                           (params req ≫= p_attributeName) all) in
                    match result with
                    | Some (Modified modifiedCount message) =>
                        ret (success req (Some (ModifyData modifiedCount message)))
                    | Some (NotModified error) =>
                        ret (failure req (str_or (Some error) "DOM modification failed"))
                    | None => ret (failure req "DOM modification failed")
                    end)
                   (λ error,
                      ret (failure req (errorMessageOr "Failed to modify DOM" error))))
                 s).
  { unfold r, modifyDomInTab, all. rewrite Hsel, Hact. simpl.
    destruct (String.eqb_spec selector "") as [-> | _]; [contradiction |].
    destruct (String.eqb_spec act "") as [-> | _]; [contradiction |].
    reflexivity. }
  rewrite Hr. clear Hr.
  erewrite bind_run by (rewrite getActiveTab_run, Htab; reflexivity).
  unfold try_catch, bind.
  rewrite (scripting_executeScript_runs w _ _ _ Hruns).
  unfold modifyDom_func.
  rewrite (selected_elements_targets _ _ all _ Hmatches).
  destruct matches as [| first others].
  - replace (targets all []) with (@nil Element) by (destruct all; reflexivity).
    simpl. split; [reflexivity | apply app_nil_r].
  - assert (Hne : targets all (first :: others) ≠ [])
      by (rewrite targets_nil; discriminate).
    destruct (decide (length (targets all (first :: others)) = 0)) as [Hz | _].
    { destruct (targets all (first :: others)); [contradiction | discriminate Hz]. }
    destruct (dom_operation act _ _) as [error | op] eqn:Hop.
    + rewrite (modify_loop_refused _ _ _ _ error _ _ _ Hop Hne). simpl.
      rewrite (dom_operation_error_truthy _ _ _ _ Hop).
      split; [reflexivity | apply app_nil_r].
    + intros Hquiet.
      rewrite (modify_loop_ok _ _ _ _ op _ _ _ Hop Hquiet). simpl.
      rewrite targets_length by discriminate.
      split; [destruct all; reflexivity |].
      split; reflexivity.
Qed.

Lemma modifyDom_first_or_all_witness :
  let w := sample_world "https://example.org/" in
  (fst (modifyDomInTab w (modify_request "setText" (Some "x") None false)
          connected_state)
   = inr (success (modify_request "setText" (Some "x") None false)
            (Some (ModifyData 1 "Modified 1 element(s) using setText")))
   ∧ pageEffects (snd (modifyDomInTab w (modify_request "setText" (Some "x") None false)
                         connected_state))
     = [DomMutation 1 (SetTextContent "x")])
  ∧ (fst (modifyDomInTab w (modify_request "setText" (Some "x") None true)
            connected_state)
     = inr (success (modify_request "setText" (Some "x") None true)
              (Some (ModifyData 3 "Modified 3 element(s) using setText")))
     ∧ pageEffects (snd (modifyDomInTab w (modify_request "setText" (Some "x") None true)
                           connected_state))
       = [DomMutation 1 (SetTextContent "x"); DomMutation 2 (SetTextContent "x");
          DomMutation 3 (SetTextContent "x")]).
Proof.
  intros w. split.
  - refine (proj2 (modifyDom_first_or_all w
                     (modify_request "setText" (Some "x") None false)
                     connected_state (sample_tab "https://example.org/")
                     "p" "setText" [1; 2; 3] _ _ _ _ _ _ _ _));
      try reflexivity; intros E; discriminate E.
  - refine (proj2 (modifyDom_first_or_all w
                     (modify_request "setText" (Some "x") None true)
                     connected_state (sample_tab "https://example.org/")
                     "p" "setText" [1; 2; 3] _ _ _ _ _ _ _ _));
      try reflexivity; intros E; discriminate E.
Defined.

(** C8, as the specification words it, fails: the selector [p]
    matches three elements and [all] is set, yet a [removeAttribute]
    request without [attributeName] modifies none of them and is
    answered with a failure. *)
Lemma modifyDom_matches_but_fails :
  let w := sample_world "https://example.org/" in
  let req := modify_request "removeAttribute" None None true in
  querySelectorAll (page w) "p" = inr [1; 2; 3]
  ∧ fst (modifyDomInTab w req connected_state)
    = inr (failure req "attributeName required for removeAttribute action")
  ∧ pageEffects (snd (modifyDomInTab w req connected_state)) = [].
Proof. vm_compute. repeat split. Qed.

(** ** The content-script round trip: timeout and late answers *)

Section RoundTrip.
Import ContentScript.

Opaque RESPONSE_TIMEOUT.

Lemma elapse_step (now ms : nat) (c : Call) :
  waiting_or_timed_out now c ->
  waiting_or_timed_out now (call_step (Elapse ms) c)
  ∧ clock (call_step (Elapse ms) c) = clock c + ms
  ∧ posted (call_step (Elapse ms) c) = posted c.
Proof.
  intros [(Hp & Ht & Hc) | (Hp & Ht & Hc)]; unfold call_step; simpl; rewrite Ht.
  - case_decide as Hdue.
    + unfold on_timeout, settle. simpl. rewrite Hp. simpl.
      split; [right; repeat split; exact Hdue | split; reflexivity].
    + split; [left; simpl; repeat split; try assumption; lia | split; reflexivity].
  - split; [right; simpl; repeat split; try assumption; lia | split; reflexivity].
Qed.

Lemma elapse_run (now : nat) (evs : list CallEvent) (c : Call) :
  forallb is_elapse evs = true ->
  waiting_or_timed_out now c ->
  waiting_or_timed_out now (call_run evs c)
  ∧ clock (call_run evs c) = clock c + elapsed evs
  ∧ posted (call_run evs c) = posted c.
Proof.
  revert c. induction evs as [| e evs IH]; intros c Hall Hc.
  - unfold elapsed. simpl. split; [exact Hc | split; [lia | reflexivity]].
  - simpl in Hall. apply andb_prop in Hall as [He Hall].
    destruct e as [ms | lastError response]; [| discriminate He].
    destruct (elapse_step now ms c Hc) as (Hc1 & Hclock1 & Hposted1).
    destruct (IH (call_step (Elapse ms) c) Hall Hc1) as (Hc2 & Hclock2 & Hposted2).
    change (call_run (Elapse ms :: evs) c)
      with (call_run evs (call_step (Elapse ms) c)).
    split; [exact Hc2 |].
    split; [rewrite Hclock2, Hclock1; unfold elapsed; simpl; lia |].
    rewrite Hposted2. exact Hposted1.
Qed.

(** Once the promise is settled and the timer gone, nothing that
    happens to the call changes what its caller got. *)
Lemma settled_step (e : CallEvent) (c : Call) :
  promise c ≠ Pending -> timer c = None ->
  promise (call_step e c) = promise c
  ∧ timer (call_step e c) = None
  ∧ posted (call_step e c) = posted c.
Proof.
  intros Hp Ht. destruct e as [ms | lastError response]; simpl.
  - rewrite Ht. repeat split. exact Ht.
  - unfold on_response, settle.
    destruct lastError; simpl; destruct (promise c) eqn:E;
      try contradiction; simpl; rewrite ?E; repeat split.
Qed.

Lemma settled_run (evs : list CallEvent) (c : Call) :
  promise c ≠ Pending -> timer c = None ->
  promise (call_run evs c) = promise c
  ∧ timer (call_run evs c) = None
  ∧ posted (call_run evs c) = posted c.
Proof.
  revert c. induction evs as [| e evs IH]; intros c Hp Ht.
  - repeat split. exact Ht.
  - destruct (settled_step e c Hp Ht) as (Hp1 & Ht1 & Hposted1).
    change (call_run (e :: evs) c) with (call_run evs (call_step e c)).
    destruct (IH (call_step e c)) as (Hp2 & Ht2 & Hposted2).
    + rewrite Hp1. exact Hp.
    + exact Ht1.
    + rewrite Hp2, Hposted2. repeat split; assumption.
Qed.

(** An answer that finds the call waiting settles it and disarms the
    timer. *)
Lemma answer_in_time (lastError : option string)
    (response : ContentScriptResponse) (c : Call) :
  promise c = Pending ->
  promise (call_step (Callback lastError response) c)
  = match lastError with
    | Some message => Rejected (JsError message)
    | None => Fulfilled response
    end
  ∧ timer (call_step (Callback lastError response) c) = None
  ∧ posted (call_step (Callback lastError response) c) = posted c.
Proof.
  intros Hp. unfold call_step, on_response, settle.
  destruct lastError; simpl; rewrite Hp; repeat split.
Qed.

(** C2.  A call of [_sendToContentScript] posts its message and waits:
    as long as less than [RESPONSE_TIMEOUT] = 10000 ms have passed
    without the callback, the promise is pending and the timer is
    armed for the deadline.  An answer arriving then settles the
    promise, with the response or with [lastError], and disarms the
    timer; no timeout follows.  When the callback has not run once
    the timeout has passed, the promise is rejected with the timeout
    error and the timer is gone.  Whatever happens afterwards, the
    answer arriving late or twice included, leaves the promise, the
    timer and the posted message as they were.  The map
    [_pendingRequests] holds no entry, for this or any identifier, in
    any state the worker can reach. *)
Theorem timeout_then_late_response_ignored (now tabId : nat)
    (message : ContentScriptMessage) (before waiting late : list CallEvent)
    (lastError : option string) (response : ContentScriptResponse)
    (ctor : option JsExn) (history : list Event) :
  forallb is_elapse before = true ->
  elapsed before < RESPONSE_TIMEOUT ->
  forallb is_elapse waiting = true ->
  RESPONSE_TIMEOUT ≤ elapsed waiting ->
  let c0 := sendToContentScript now tabId message in
  let early := call_run before c0 in
  let answered := call_step (Callback lastError response) early in
  let c := call_run waiting c0 in
  let c' := call_run late c in
  RESPONSE_TIMEOUT = 10000
  ∧ (promise early = Pending
     ∧ timer early = Some (now + 10000)
     ∧ clock early = now + elapsed before
     ∧ posted early = (tabId, message))
  ∧ (promise answered
     = match lastError with
       | Some message => Rejected (JsError message)
       | None => Fulfilled response
       end
     ∧ timer answered = None
     ∧ promise (call_run late answered) = promise answered
     ∧ timer (call_run late answered) = None)
  ∧ (promise c = Rejected (JsError "Content script response timeout")
     ∧ timer c = None
     ∧ posted c = (tabId, message))
  ∧ (promise c' = promise c
     ∧ timer c' = timer c
     ∧ posted c' = posted c)
  ∧ pendingRequests (run history (startup ctor)) = ∅.
Proof.
  intros Hbefore Hshort Hwaiting Hlong c0 early answered c c'.
  assert (Hstart : waiting_or_timed_out now c0).
  { left. simpl. repeat split.
    assert (0 < RESPONSE_TIMEOUT) by exact (Nat.lt_0_succ 9999). lia. }
  split; [reflexivity |].
  split.
  { destruct (elapse_run now before _ Hbefore Hstart) as (Hstate & Hclock & Hposted).
    fold early in Hstate, Hclock, Hposted. simpl in Hclock.
    destruct Hstate as [(Hp & Ht & _) | (_ & _ & Hdue)]; [| lia].
    repeat split; assumption. }
  split.
  { destruct (elapse_run now before _ Hbefore Hstart) as (Hstate & Hclock & _).
    fold early in Hstate, Hclock. simpl in Hclock.
    destruct Hstate as [(Hp & _ & _) | (_ & _ & Hdue)]; [| lia].
    destruct (answer_in_time lastError response early Hp) as (Hp1 & Ht1 & _).
    fold answered in Hp1, Ht1.
    destruct (settled_run late answered) as (Hp2 & Ht2 & _);
      [rewrite Hp1; destruct lastError; discriminate | exact Ht1 |].
    repeat split; assumption. }
  destruct (elapse_run now waiting _ Hwaiting Hstart) as (Hstate & Hclock & Hposted).
  fold c in Hstate, Hclock, Hposted. simpl in Hclock.
  destruct Hstate as [(_ & _ & Hearly) | (Hp & Ht & _)]; [lia |].
  destruct (settled_run late c) as (Hp' & Ht' & Hposted');
    [rewrite Hp; discriminate | exact Ht |].
  fold c' in Hp', Ht', Hposted'.
  split; [repeat split; assumption |].
  split; [repeat split; [exact Hp' | rewrite Ht, Ht'; reflexivity | exact Hposted'] |].
  apply inv_pending, invariant_reachable. exists ctor, history. reflexivity.
Qed.

Lemma timeout_then_late_response_ignored_witness :
  let c0 := sendToContentScript 0 7 sample_cs_message in
  let early := call_run [Elapse 9999] c0 in
  let answered := call_step (Callback None sample_cs_response) early in
  let c := call_run [Elapse 9999; Elapse 1] c0 in
  let c' := call_run [Callback None sample_cs_response;
                      Callback None sample_cs_response] c in
  RESPONSE_TIMEOUT = 10000
  ∧ (promise early = Pending
     ∧ timer early = Some (0 + 10000)
     ∧ clock early = 0 + elapsed [Elapse 9999]
     ∧ posted early = (7, sample_cs_message))
  ∧ (promise answered
     = match @None string with
       | Some message => Rejected (JsError message)
       | None => Fulfilled sample_cs_response
       end
     ∧ timer answered = None
     ∧ promise (call_run [Callback None sample_cs_response;
                          Callback None sample_cs_response] answered)
       = promise answered
     ∧ timer (call_run [Callback None sample_cs_response;
                        Callback None sample_cs_response] answered) = None)
  ∧ (promise c = Rejected (JsError "Content script response timeout")
     ∧ timer c = None
     ∧ posted c = (7, sample_cs_message))
  ∧ (promise c' = promise c
     ∧ timer c' = timer c
     ∧ posted c' = posted c)
  ∧ pendingRequests (run attached_history (startup None)) = ∅.
Proof.
  refine (timeout_then_late_response_ignored 0 7 sample_cs_message
            [Elapse 9999] [Elapse 9999; Elapse 1]
            [Callback None sample_cs_response; Callback None sample_cs_response]
            None sample_cs_response None attached_history _ _ _ _).
  - reflexivity.
  - apply Nat.ltb_lt. vm_compute. reflexivity.
  - reflexivity.
  - apply Nat.leb_le. vm_compute. reflexivity.
Defined.

End RoundTrip.

(** * Further properties of the worker *)

(** ** Dispatch: unknown actions and unresolved tabs *)

Lemma unknown_action_named_witness :
  dispatch tabless_world (sample_request "reload" None) connected_state
  = (inr (failure (sample_request "reload" None)
            ("Unknown action: " +:+ action (sample_request "reload" None))),
     connected_state).
Proof.
  refine (unknown_action_named tabless_world (sample_request "reload" None)
            connected_state _).
  apply (bool_decide_unpack _). vm_compute. exact I.
Defined.

Lemma unresolved_tab_rejected_witness :
  handleBrowserContextRequest (sample_world "chrome://settings")
    (sample_request "getDom" None) connected_state
  = (inr tt,
     snd (sendToBackend
            (BrowserResponse
               (failure (sample_request "getDom" None)
                  (errorMessageOr "Unknown error"
                     (JsError "Cannot access restricted page: chrome://..."))))
            (set_apiCalls (apiCalls connected_state ++ [TabsQuery])
               connected_state))).
Proof.
  refine (unresolved_tab_rejected (sample_world "chrome://settings")
            (sample_request "getDom" None) connected_state
            (JsError "Cannot access restricted page: chrome://...") _ _).
  - apply (bool_decide_unpack _). vm_compute. exact I.
  - vm_compute. reflexivity.
Defined.

(** [startsWith], said with concatenation. *)
Lemma startsWith_spec (url p : string) :
  startsWith url p = true <-> ∃ suffix, url = p +:+ suffix.
Proof.
  unfold startsWith. revert url. induction p as [| a p IH]; intros url.
  - split; [intros _; exists url; reflexivity | intros _; destruct url; reflexivity].
  - destruct url as [| b url]; simpl.
    + split; [discriminate | intros (suffix & E); discriminate E].
    + destruct (Ascii.ascii_dec a b) as [-> | Hne].
      * rewrite IH. split; intros (suffix & E); exists suffix.
        -- rewrite E. reflexivity.
        -- injection E as E. exact E.
      * split; [discriminate |].
        intros (suffix & E). injection E as E1 E2. congruence.
Qed.

Lemma str_or_empty (o : option string) : str_or o "" = default "" o.
Proof. unfold str_or. destruct o as [[| c rest] |]; reflexivity. Qed.

(** X3.  [getActiveTab] resolves a tab exactly when the query answers
    with that tab first, its identifier is a number other than zero,
    and its address, taken as empty when the tab has none, begins with
    none of [chrome://], [chrome-extension://], [edge://], [about:]
    and [devtools://].  A tab without an address is therefore
    resolved. *)
Theorem getActiveTab_resolves_iff (w : World) (tab : Tab) :
  (active_tab w = inr tab
   <-> ∃ rest n,
         tabs_query w = inr (tab :: rest)
         ∧ tab_id tab = Some (S n)
         ∧ ∀ suffix,
             default "" (tab_url tab)
             ∉ ["chrome://" +:+ suffix; "chrome-extension://" +:+ suffix;
                "edge://" +:+ suffix; "about:" +:+ suffix;
                "devtools://" +:+ suffix])
  ∧ (∀ rest n title,
        let blank := {| tab_id := Some (S n); tab_url := None;
                        tab_title := title |} in
        tabs_query w = inr (blank :: rest) -> active_tab w = inr blank).
Proof.
  assert (Hiff : ∀ tab,
            active_tab w = inr tab
            <-> ∃ rest n,
                  tabs_query w = inr (tab :: rest)
                  ∧ tab_id tab = Some (S n)
                  ∧ ∀ suffix,
                      default "" (tab_url tab)
                      ∉ ["chrome://" +:+ suffix;
                         "chrome-extension://" +:+ suffix;
                         "edge://" +:+ suffix; "about:" +:+ suffix;
                         "devtools://" +:+ suffix]).
  { clear tab. intros tab.
    unfold active_tab, getActiveTab, bind, api. split.
    - destruct (tabs_query w) as [e | [| first rest]]; simpl;
        try (intros E; discriminate E).
      destruct (tab_id first) as [[| n] |] eqn:Hid; simpl;
        try (intros E; discriminate E).
      rewrite str_or_empty.
      destruct (restricted_url _) eqn:Hurl; [intros E; discriminate E |].
      intros E. injection E as <-. exists rest, n.
      split; [reflexivity |]. split; [exact Hid |].
      intros suffix Hin. unfold restricted_url in Hurl.
      repeat (apply orb_false_elim in Hurl as [Hurl ?]).
      assert (Hstarts : ∀ prefix,
                default "" (tab_url first) = prefix +:+ suffix ->
                startsWith (default "" (tab_url first)) prefix = true).
      { intros prefix E. apply startsWith_spec. exists suffix. exact E. }
      repeat (apply elem_of_cons in Hin as [Hin | Hin];
              [apply Hstarts in Hin; congruence |]).
      inversion Hin.
    - intros (rest & n & -> & Hid & Hurl). simpl. rewrite Hid. simpl.
      rewrite str_or_empty.
      assert (Hnot : ∀ prefix,
                (∀ suffix, default "" (tab_url tab) ≠ prefix +:+ suffix) ->
                startsWith (default "" (tab_url tab)) prefix = false).
      { intros prefix Hne.
        destruct (startsWith _ prefix) eqn:E; [| reflexivity].
        apply startsWith_spec in E as (suffix & E).
        destruct (Hne suffix E). }
      unfold restricted_url.
      rewrite !Hnot; [reflexivity | ..]; intros suffix E;
        apply (Hurl suffix); rewrite E; set_solver. }
  split; [apply Hiff |].
  intros rest n title blank Hquery. apply Hiff. exists rest, n.
  split; [exact Hquery |]. split; [reflexivity |].
  intros suffix Hin. simpl in Hin.
  repeat (apply elem_of_cons in Hin as [Hin | Hin]; [discriminate Hin |]).
  inversion Hin.
Qed.

(** ** Channel separation *)

Lemma sendCalls_connectToBackend (ctor : option JsExn) (s : BgState) :
  sendCalls (connectToBackend ctor s) = sendCalls s.
Proof.
  unfold connectToBackend. destruct (socket_is_open s); [reflexivity |].
  destruct ctor; [| reflexivity].
  rewrite sendCalls_scheduleReconnect. reflexivity.
Qed.

Lemma sendCalls_handleBrowserContextRequest (w : World)
    (req : BrowserContextRequest) (s : BgState) :
  ∃ resp delivered,
    sendCalls (snd (handleBrowserContextRequest w req s))
    = sendCalls s ++ [(BrowserResponse resp, delivered)].
Proof.
  unfold handleBrowserContextRequest, try_catch, bind.
  pose proof (dispatch_sends_nothing w req s) as Hnone.
  destruct (dispatch w req s) as [[e | resp] s1]; simpl in *.
  - exists (failure req (errorMessageOr "Unknown error" e)), (socket_is_open s1).
    rewrite <- Hnone. apply sendToBackend_run.
  - exists resp, (socket_is_open s1).
    rewrite <- Hnone. apply sendToBackend_run.
Qed.

Lemma sendCalls_step (e : Event) (s : BgState) :
  sendCalls (step e s) = sendCalls s
  ∨ ∃ m delivered, backend_bound m
                   ∧ sendCalls (step e s) = sendCalls s ++ [(m, delivered)].
Proof.
  destruct e as [ev | i parsed w | ctor | | ctor | m ctor]; simpl.
  - left. apply sendCalls_deliver.
  - destruct (sockets s !! i) as [[] |]; try (left; reflexivity).
    destruct parsed as [message |]; [| left; reflexivity].
    destruct message; simpl; try (left; reflexivity).
    right. destruct (sendCalls_handleBrowserContextRequest w req s)
      as (resp & delivered & E).
    exists (BrowserResponse resp), delivered. split; [exact I | exact E].
  - left. destruct (reconnectTimers s); [reflexivity |].
    rewrite sendCalls_connectToBackend. reflexivity.
  - left. destruct (statusTimers s); reflexivity.
  - left. unfold keepAlive. destruct (negb _); [| reflexivity].
    apply sendCalls_connectToBackend.
  - destruct m as [| | m | |]; simpl; try (left; reflexivity).
    + destruct m; simpl; try (left; reflexivity); right.
      * exists (TerminalInput data), (socket_is_open s).
        split; [exact I | apply sendToBackend_run].
      * exists (TerminalResize cols rows), (socket_is_open s).
        split; [exact I | apply sendToBackend_run].
    + left. rewrite sendCalls_connectToBackend. reflexivity.
Qed.

(** X4.  Whatever happens, the worker hands to the socket nothing but
    browser responses and the terminal input and resize messages of
    the panel: no terminal output, request or status goes back to
    the backend. *)
Theorem only_responses_and_terminal_input_reach_the_backend
    (ctor : option JsExn) (evs : list Event) :
  Forall (λ call, backend_bound (fst call)) (sendCalls (run evs (startup ctor)))
  ∧ Forall backend_bound (wire (run evs (startup ctor))).
Proof.
  assert (Hcalls : ∀ s, Forall (λ call, backend_bound (fst call)) (sendCalls s) ->
                        Forall (λ call, backend_bound (fst call))
                               (sendCalls (run evs s))).
  { induction evs as [| e evs IH]; intros s H; [exact H |].
    simpl. apply IH.
    destruct (sendCalls_step e s) as [-> | (m & delivered & Hm & ->)];
      [exact H |].
    apply Forall_app. split; [exact H |]. repeat constructor. exact Hm. }
  assert (Hstart : Forall (λ call, backend_bound (fst call))
                     (sendCalls (startup ctor))).
  { unfold startup. rewrite sendCalls_connectToBackend. constructor. }
  specialize (Hcalls _ Hstart). split; [exact Hcalls |].
  unfold wire. apply Forall_forall. intros m Hm.
  apply (list_elem_of_fmap fst) in Hm as (call & -> & Hin).
  apply list_elem_of_filter in Hin as [_ Hin].
  rewrite Forall_forall in Hcalls. apply Hcalls, Hin.
Qed.

Lemma panel_only_ext (s s' : BgState) :
  broadcasts s' = broadcasts s -> statusTimers s' = statusTimers s ->
  panel_only s -> panel_only s'.
Proof. intros Hb Ht [H1 H2]. split; rewrite ?Hb, ?Ht; assumption. Qed.

Lemma panel_only_broadcast (m : WebSocketMessage) (s : BgState) :
  panel_bound m -> panel_only s -> panel_only (broadcastToExtension m s).
Proof.
  intros Hm [H1 H2]. split; simpl; [| exact H2].
  apply Forall_app. split; [exact H1 | repeat constructor; exact Hm].
Qed.

Lemma panel_only_scheduleReconnect (s : BgState) :
  panel_only s -> panel_only (scheduleReconnect s).
Proof.
  intros H. unfold scheduleReconnect. case_decide.
  - revert H. apply panel_only_ext; reflexivity.
  - apply panel_only_broadcast; [exact I | exact H].
Qed.

Lemma panel_only_connectToBackend (ctor : option JsExn) (s : BgState) :
  panel_only s -> panel_only (connectToBackend ctor s).
Proof.
  intros H. unfold connectToBackend. destruct (socket_is_open s); [exact H |].
  pose proof (panel_only_broadcast (ConnectionStatus Connecting None) s I H) as Hb.
  destruct ctor.
  - apply panel_only_scheduleReconnect, Hb.
  - revert Hb. apply panel_only_ext; reflexivity.
Qed.

Lemma panel_only_deliver (ev : AsyncEvent) (s : BgState) :
  panel_only s -> panel_only (deliver ev s).
Proof.
  intros H. destruct ev as [i | i | i | src now ev | src | tabId]; simpl.
  - destruct (sockets s !! i) as [[] |]; try exact H.
    unfold socket_onopen. apply panel_only_broadcast; [exact I |].
    revert H. apply panel_only_ext; reflexivity.
  - destruct (sockets s !! i) as [[] |]; try exact H;
      unfold socket_onclose; apply panel_only_scheduleReconnect;
      (apply panel_only_broadcast; [exact I |]);
      revert H; apply panel_only_ext; reflexivity.
  - destruct (sockets s !! i); [| exact H].
    unfold socket_onerror. apply panel_only_broadcast; [exact I | exact H].
  - unfold onDebuggerEvent. destruct src; [| exact H].
    destruct (_ || _); [exact H |].
    destruct (entry_of_event now ev); [| exact H].
    revert H. apply panel_only_ext; reflexivity.
  - unfold onDebuggerDetach. destruct src; [| exact H].
    destruct (truthy_num _); [| exact H].
    revert H. apply panel_only_ext; reflexivity.
  - revert H. apply panel_only_ext; reflexivity.
Qed.

Lemma panel_only_handleBrowserContextRequest (w : World)
    (req : BrowserContextRequest) :
  keeps panel_only (handleBrowserContextRequest w req).
Proof.
  assert (Hsend : ∀ m s, panel_only s -> panel_only (snd (sendToBackend m s))).
  { intros m s. unfold sendToBackend.
    destruct (socket_is_open s); apply panel_only_ext; reflexivity. }
  unfold handleBrowserContextRequest. apply keeps_try_catch.
  - apply keeps_bind; [| intros response; apply keeps_modify; intros s; apply Hsend].
    apply keeps_dispatch.
    + intros v s. apply panel_only_ext; reflexivity.
    + intros v s. apply panel_only_ext; reflexivity.
    + apply panel_only_deliver.
    + intros tabId s _. apply panel_only_ext; reflexivity.
    + intros tabId s. apply panel_only_ext; reflexivity.
  - intros e. apply keeps_modify. intros s. apply Hsend.
Qed.

Lemma panel_only_step (e : Event) (s : BgState) :
  panel_only s -> panel_only (step e s).
Proof.
  intros H. destruct e as [ev | i parsed w | ctor | | ctor | m ctor]; simpl.
  - apply panel_only_deliver, H.
  - destruct (sockets s !! i) as [[] |]; try exact H.
    destruct parsed as [message |]; [| exact H].
    destruct message; simpl; try exact H.
    + apply panel_only_broadcast; [exact I | exact H].
    + apply panel_only_handleBrowserContextRequest, H.
  - destruct (reconnectTimers s); [exact H |].
    apply panel_only_connectToBackend. revert H.
    apply panel_only_ext; reflexivity.
  - destruct (statusTimers s) as [| m rest] eqn:Htimers; [exact H |].
    destruct H as [H1 H2]. rewrite Htimers in H2.
    apply Forall_cons in H2 as [Hm Hrest].
    apply panel_only_broadcast; [exact Hm |].
    split; simpl; assumption.
  - unfold keepAlive. destruct (negb _); [| exact H].
    apply panel_only_connectToBackend, H.
  - destruct m as [| | m | |]; simpl; try exact H.
    + destruct H as [H1 H2]. split; simpl; [exact H1 |].
      apply Forall_app. split; [exact H2 | repeat constructor].
    + destruct m; simpl; try exact H;
        unfold sendToBackend; destruct (socket_is_open s);
        revert H; apply panel_only_ext; reflexivity.
    + apply panel_only_connectToBackend. revert H.
      apply panel_only_ext; reflexivity.
Qed.

(** X5.  Whatever happens, the worker broadcasts to the panel nothing but
    terminal output and connection statuses: no browser request and
    no browser response, so nothing read from a page, is shown to the
    panel. *)
Theorem only_output_and_status_reach_the_panel
    (ctor : option JsExn) (evs : list Event) :
  Forall panel_bound (broadcasts (run evs (startup ctor))).
Proof.
  assert (Hrun : ∀ s, panel_only s -> panel_only (run evs s)).
  { induction evs as [| e evs IH]; intros s H; [exact H |].
    simpl. apply IH, panel_only_step, H. }
  apply Hrun. unfold startup. apply panel_only_connectToBackend.
  split; constructor.
Qed.

(** ** Console logs: the level filter *)




(** ** Console logs: reading, attaching, detaching *)

Lemma deliver_set_apiCalls (ev : AsyncEvent) (v : list ApiCall) (s : BgState) :
  deliver ev (set_apiCalls v s) = set_apiCalls v (deliver ev s).
Proof.
  destruct ev as [i | i | i | src now ev | src | tabId]; simpl.
  - destruct (sockets s !! i) as [[] |]; reflexivity.
  - destruct (sockets s !! i) as [[] |]; try reflexivity;
      unfold socket_onclose, scheduleReconnect; simpl;
      case_decide; reflexivity.
  - destruct (sockets s !! i); reflexivity.
  - unfold onDebuggerEvent. destruct src; [| reflexivity]. simpl.
    destruct (_ || _); [reflexivity |].
    destruct (entry_of_event now ev); reflexivity.
  - unfold onDebuggerDetach. destruct src; [| reflexivity].
    destruct (truthy_num _); reflexivity.
  - reflexivity.
Qed.

Lemma deliver_all_set_apiCalls (evs : list AsyncEvent) (v : list ApiCall)
    (s : BgState) :
  deliver_all evs (set_apiCalls v s) = set_apiCalls v (deliver_all evs s).
Proof.
  revert s. induction evs as [| ev evs IH]; intros s; [reflexivity |].
  change (deliver_all (ev :: evs) (set_apiCalls v s))
    with (deliver_all evs (deliver ev (set_apiCalls v s))).
  rewrite deliver_set_apiCalls. apply IH.
Qed.

(** X7.  A read without [clear] of a tab that has a session changes no
    variable of the worker: it asks for the active tab, makes no
    debugger call, and returns the filtered ring, or throws what the
    filter throws. *)
Theorem read_without_clear_changes_nothing (w : World)
    (req : BrowserContextRequest) (s : BgState) (tab : Tab) :
  active_tab w = inr tab ->
  is_attached (id_of tab) s = true ->
  truthy_bool (params req ≫= p_clear) = false ->
  getConsoleLogs w req s
  = (match filter_logs (params req ≫= p_level) (ring (id_of tab) s) with
     | inr logs =>
         inr (success req
                (Some (LogsData logs (id_of tab) (tab_url tab) true)))
     | inl e => inl e
     end,
     set_apiCalls (apiCalls s ++ [TabsQuery]) s).
Proof.
  intros Htab Hattached Hclear.
  rewrite (getConsoleLogs_run w req s tab Htab). rewrite Hattached.
  change (ring (id_of tab) (set_apiCalls _ s)) with (ring (id_of tab) s).
  change (is_attached (id_of tab) (set_apiCalls _ s))
    with (is_attached (id_of tab) s).
  rewrite Hattached, Hclear.
  destruct (filter_logs _ _); reflexivity.
Qed.

Lemma read_without_clear_changes_nothing_witness :
  getConsoleLogs (sample_world "https://example.org/")
    (logs_request (Some "error") false) logged_state
  = (match filter_logs (params (logs_request (Some "error") false) ≫= p_level)
             (ring (id_of (sample_tab "https://example.org/")) logged_state)
     with
     | inr logs =>
         inr (success (logs_request (Some "error") false)
                (Some (LogsData logs
                         (id_of (sample_tab "https://example.org/"))
                         (tab_url (sample_tab "https://example.org/")) true)))
     | inl e => inl e
     end,
     set_apiCalls (apiCalls logged_state ++ [TabsQuery]) logged_state).
Proof.
  refine (read_without_clear_changes_nothing (sample_world "https://example.org/")
            (logs_request (Some "error") false) logged_state
            (sample_tab "https://example.org/") _ _ _).
  - vm_compute. reflexivity.
  - vm_compute. reflexivity.
  - reflexivity.
Defined.

Lemma attachDebuggerToTab_ok (w : World) (tabId : nat) (s : BgState) :
  is_attached tabId s = false ->
  debugger_attach w tabId = inr tt ->
  debugger_sendCommand w tabId "Log.enable" = inr tt ->
  debugger_sendCommand w tabId "Runtime.enable" = inr tt ->
  attachDebuggerToTab w tabId s
  = (inr tt,
     set_apiCalls
       (apiCalls s ++ [DebuggerAttach tabId;
                       DebuggerSendCommand tabId "Log.enable";
                       DebuggerSendCommand tabId "Runtime.enable"])
       (freshly_attached tabId s)).
Proof.
  intros Hnot Hattach Hlog Hruntime.
  unfold attachDebuggerToTab. rewrite bind_gets, Hnot.
  unfold try_catch, bind, api, modify, freshly_attached.
  rewrite Hattach, Hlog, Hruntime. simpl.
  f_equal. unfold set_apiCalls. simpl. f_equal.
  rewrite <- !app_assoc. reflexivity.
Qed.

(** X8.  The first read of a tab without a session attaches the debugger,
    enables the two domains, and starts from an empty ring: records
    the tab still had from an earlier session are discarded.  What
    is returned is what arrived during the settle delay, filtered;
    when the filter throws on those records, the request throws. *)
Theorem first_read_attaches_and_starts_afresh (w : World)
    (req : BrowserContextRequest) (s : BgState) (tab : Tab) :
  active_tab w = inr tab ->
  is_attached (id_of tab) s = false ->
  debugger_attach w (id_of tab) = inr tt ->
  debugger_sendCommand w (id_of tab) "Log.enable" = inr tt ->
  debugger_sendCommand w (id_of tab) "Runtime.enable" = inr tt ->
  let tabId := id_of tab in
  let settled := deliver_all (settle_events w) (freshly_attached tabId s) in
  let r := getConsoleLogs w req s in
  ring tabId (freshly_attached tabId s) = []
  ∧ fst r = match filter_logs (params req ≫= p_level) (ring tabId settled) with
            | inr logs =>
                inr (success req
                       (Some (LogsData logs tabId (tab_url tab)
                                (is_attached tabId settled))))
            | inl e => inl e
            end
  ∧ apiCalls (snd r)
    = apiCalls s ++ [TabsQuery; DebuggerAttach tabId;
                     DebuggerSendCommand tabId "Log.enable";
                     DebuggerSendCommand tabId "Runtime.enable"].
Proof.
  intros Htab Hnot Hattach Hlog Hruntime tabId settled r.
  split.
  { unfold ring, freshly_attached. simpl. rewrite lookup_insert_eq. reflexivity. }
  unfold r. rewrite (getConsoleLogs_run w req s tab Htab). fold tabId.
  rewrite (Hnot : is_attached tabId s = false).
  set (s0 := set_apiCalls (apiCalls s ++ [TabsQuery]) s).
  set (calls := apiCalls s0 ++ [DebuggerAttach tabId;
                                DebuggerSendCommand tabId "Log.enable";
                                DebuggerSendCommand tabId "Runtime.enable"]).
  rewrite (attachDebuggerToTab_ok w tabId s0 Hnot Hattach Hlog Hruntime).
  fold calls.
  change (set_apiCalls calls (freshly_attached tabId s0))
    with (set_apiCalls calls (freshly_attached tabId s)).
  rewrite deliver_all_set_apiCalls. fold settled.
  change (ring tabId (set_apiCalls calls settled)) with (ring tabId settled).
  change (is_attached tabId (set_apiCalls calls settled))
    with (is_attached tabId settled).
  destruct (filter_logs _ _) as [e | logs]; cbn [fst snd].
  - split; [reflexivity |]. unfold calls, s0. simpl.
    rewrite <- app_assoc. reflexivity.
  - split; [reflexivity |].
    destruct (truthy_bool _); unfold calls, s0; simpl;
      rewrite <- app_assoc; reflexivity.
Qed.

Lemma first_read_attaches_and_starts_afresh_witness :
  ring 7 logged_detached_state ≠ []
  ∧ (let tabId := id_of (sample_tab "https://example.org/") in
     let settled :=
       deliver_all (settle_events (sample_world "https://example.org/"))
         (freshly_attached tabId logged_detached_state) in
     let r := getConsoleLogs (sample_world "https://example.org/")
                (logs_request None false) logged_detached_state in
     ring tabId (freshly_attached tabId logged_detached_state) = []
     ∧ fst r = match filter_logs (params (logs_request None false) ≫= p_level)
                       (ring tabId settled)
               with
               | inr logs =>
                   inr (success (logs_request None false)
                          (Some (LogsData logs tabId
                                   (tab_url (sample_tab "https://example.org/"))
                                   (is_attached tabId settled))))
               | inl e => inl e
               end
     ∧ apiCalls (snd r)
       = apiCalls logged_detached_state
         ++ [TabsQuery; DebuggerAttach tabId;
             DebuggerSendCommand tabId "Log.enable";
             DebuggerSendCommand tabId "Runtime.enable"]).
Proof.
  split.
  { vm_compute. intros E. discriminate E. }
  refine (first_read_attaches_and_starts_afresh
            (sample_world "https://example.org/") (logs_request None false)
            logged_detached_state (sample_tab "https://example.org/") _ _ _ _ _).
  - vm_compute. reflexivity.
  - vm_compute. reflexivity.
  - reflexivity.
  - reflexivity.
  - reflexivity.
Defined.

Lemma attachDebuggerToTab_half (w : World) (tabId : nat) (s : BgState)
    (e : JsExn) :
  is_attached tabId s = false ->
  debugger_attach w tabId = inr tt ->
  debugger_sendCommand w tabId "Log.enable" = inl e ->
  attachDebuggerToTab w tabId s
  = (inl e,
     set_apiCalls
       ((apiCalls s ++ [DebuggerAttach tabId])
        ++ [DebuggerSendCommand tabId "Log.enable"])
       (freshly_attached tabId s)).
Proof.
  intros Hnot Hattach Hlog. unfold attachDebuggerToTab. rewrite bind_gets, Hnot.
  unfold try_catch, bind, api, throw, modify. rewrite Hattach, Hlog. reflexivity.
Qed.

(** X9.  When the debugger refuses to attach, the request is answered
    with a failure that says so, and the worker's variables are as
    before: no session is registered and the rings are untouched. *)
Theorem refused_attach_is_reported (w : World) (req : BrowserContextRequest)
    (s : BgState) (tab : Tab) (e : JsExn) :
  active_tab w = inr tab ->
  is_attached (id_of tab) s = false ->
  debugger_attach w (id_of tab) = inl e ->
  getConsoleLogs w req s
  = (inr (failure req ("Failed to attach debugger: " +:+
                       errorMessageOr "Unknown error" e)),
     set_apiCalls (apiCalls s ++ [TabsQuery; DebuggerAttach (id_of tab)]) s).
Proof.
  intros Htab Hnot Hattach. unfold getConsoleLogs.
  erewrite bind_run by (rewrite getActiveTab_run, Htab; reflexivity).
  rewrite bind_gets.
  change (is_attached (id_of tab) (set_apiCalls _ s))
    with (is_attached (id_of tab) s).
  rewrite Hnot. cbn [negb].
  erewrite bind_run; cycle 1.
  { unfold try_catch.
    erewrite bind_throws
      by (apply attachDebuggerToTab_refused; [exact Hnot | exact Hattach]).
    reflexivity. }
  cbv iota. unfold ret.
  f_equal. unfold set_apiCalls. simpl. f_equal.
  rewrite <- app_assoc. reflexivity.
Qed.

Lemma refused_attach_is_reported_witness :
  getConsoleLogs refusing_world (logs_request None true) logged_detached_state
  = (inr (failure (logs_request None true)
            ("Failed to attach debugger: " +:+
             errorMessageOr "Unknown error"
               (JsError "Another debugger is already attached"))),
     set_apiCalls
       (apiCalls logged_detached_state
        ++ [TabsQuery; DebuggerAttach (id_of (sample_tab "https://example.org/"))])
       logged_detached_state).
Proof.
  refine (refused_attach_is_reported refusing_world (logs_request None true)
            logged_detached_state (sample_tab "https://example.org/")
            (JsError "Another debugger is already attached") _ _ _).
  - vm_compute. reflexivity.
  - vm_compute. reflexivity.
  - reflexivity.
Defined.

(** X10.  When the debugger attaches and then refuses to enable the [Log]
    domain, the request is answered with the same kind of failure,
    yet the session stays registered with an empty ring: the next
    read finds the tab attached and enables nothing. *)
Theorem failed_enable_leaves_session (w : World) (req : BrowserContextRequest)
    (s : BgState) (tab : Tab) (e : JsExn) :
  active_tab w = inr tab ->
  is_attached (id_of tab) s = false ->
  debugger_attach w (id_of tab) = inr tt ->
  debugger_sendCommand w (id_of tab) "Log.enable" = inl e ->
  let r := getConsoleLogs w req s in
  fst r = inr (failure req ("Failed to attach debugger: " +:+
                            errorMessageOr "Unknown error" e))
  ∧ is_attached (id_of tab) (snd r) = true
  ∧ consoleLogs (snd r) = <[id_of tab := []]> (consoleLogs s)
  ∧ apiCalls (snd r)
    = apiCalls s ++ [TabsQuery; DebuggerAttach (id_of tab);
                     DebuggerSendCommand (id_of tab) "Log.enable"].
Proof.
  intros Htab Hnot Hattach Hlog r. unfold r, getConsoleLogs.
  erewrite bind_run by (rewrite getActiveTab_run, Htab; reflexivity).
  rewrite bind_gets.
  change (is_attached (id_of tab) (set_apiCalls _ s))
    with (is_attached (id_of tab) s).
  rewrite Hnot. cbn [negb].
  erewrite bind_run; cycle 1.
  { unfold try_catch.
    erewrite bind_throws
      by (apply attachDebuggerToTab_half; [exact Hnot | exact Hattach | exact Hlog]).
    reflexivity. }
  cbv iota. unfold ret. simpl.
  split; [reflexivity |].
  split.
  { unfold is_attached. simpl. apply bool_decide_eq_true_2. set_solver. }
  split; [reflexivity |].
  rewrite <- !app_assoc. reflexivity.
Qed.

Lemma failed_enable_leaves_session_witness :
  let r := getConsoleLogs half_attaching_world (logs_request None false)
             logged_detached_state in
  fst r = inr (failure (logs_request None false)
                 ("Failed to attach debugger: " +:+
                  errorMessageOr "Unknown error"
                    (JsError "Detached while handling command.")))
  ∧ is_attached (id_of (sample_tab "https://example.org/")) (snd r) = true
  ∧ consoleLogs (snd r)
    = <[id_of (sample_tab "https://example.org/") := []]>
        (consoleLogs logged_detached_state)
  ∧ apiCalls (snd r)
    = apiCalls logged_detached_state
      ++ [TabsQuery; DebuggerAttach (id_of (sample_tab "https://example.org/"));
          DebuggerSendCommand (id_of (sample_tab "https://example.org/"))
            "Log.enable"].
Proof.
  refine (failed_enable_leaves_session half_attaching_world
            (logs_request None false) logged_detached_state
            (sample_tab "https://example.org/")
            (JsError "Detached while handling command.") _ _ _ _).
  - vm_compute. reflexivity.
  - vm_compute. reflexivity.
  - reflexivity.
  - reflexivity.
Defined.

(** X11.  [detachDebuggerFromTab] never throws and never touches a ring.
    For a tab without a session it does nothing at all.  For a tab
    with one it calls the debugger once; the session is removed when
    the call succeeds and kept when it is rejected. *)
Theorem detach_keeps_ring_and_never_throws (detach : JsExn + unit)
    (tabId : nat) (s : BgState) :
  let r := detachDebuggerFromTab detach tabId s in
  fst r = inr tt
  ∧ consoleLogs (snd r) = consoleLogs s
  ∧ (if is_attached tabId s
     then apiCalls (snd r) = apiCalls s ++ [DebuggerDetach tabId]
          ∧ attachedTabs (snd r)
            = match detach with
              | inr _ => attachedTabs s ∖ {[tabId]}
              | inl _ => attachedTabs s
              end
     else snd r = s).
Proof.
  intros r. unfold r, detachDebuggerFromTab. rewrite bind_gets.
  destruct (is_attached tabId s); simpl.
  - unfold try_catch, bind, api, modify, ret.
    destruct detach as [e | []]; simpl; repeat split.
  - repeat split.
Qed.

(** ** Log buffer: what one debugger event changes *)

(** X12.  A debugger event never changes the set of sessions, and changes
    at most one ring: that of its own tab, when the tab has a session
    and the event yields a record, which is then pushed.  Events
    without a tab, for tab 0 or for a tab without a session change no
    ring. *)
Theorem debugger_event_touches_own_ring_only (src : option nat) (now : nat)
    (ev : DebuggerEvent) (s : BgState) (tabId : nat) :
  let s' := onDebuggerEvent src now ev s in
  attachedTabs s' = attachedTabs s
  ∧ (consoleLogs s' !! tabId = consoleLogs s !! tabId
     ∨ (src = Some tabId ∧ tabId ≠ 0 ∧ tabId ∈ attachedTabs s
        ∧ ∃ entry, entry_of_event now ev = Some entry
                   ∧ consoleLogs s' !! tabId
                     = Some (push_and_trim (ring tabId s) entry))).
Proof.
  intros s'. unfold s', onDebuggerEvent.
  destruct src as [t |]; [| split; [reflexivity | left; reflexivity]].
  destruct (negb (truthy_num (Some t))) eqn:Hzero; simpl;
    [split; [reflexivity | left; reflexivity] |].
  destruct (bool_decide (t ∈ attachedTabs s)) eqn:Hin; simpl;
    [| split; [reflexivity | left; reflexivity]].
  destruct (entry_of_event now ev) as [entry |] eqn:Hentry;
    [| split; [reflexivity | left; reflexivity]].
  split; [reflexivity |]. simpl.
  destruct (decide (t = tabId)) as [-> | Hne].
  - right. split; [reflexivity |].
    split; [destruct tabId; [discriminate Hzero | discriminate] |].
    split; [apply bool_decide_eq_true in Hin; exact Hin |].
    exists entry. split; [reflexivity | apply lookup_insert_eq].
  - left. apply lookup_insert_ne, Hne.
Qed.

(** ** Log buffer: the records built from events *)






(** ** Connection manager: giving up, and stale sockets *)

Lemma run_app (evs1 evs2 : list Event) (s : BgState) :
  run (evs1 ++ evs2) s = run evs2 (run evs1 s).
Proof. unfold run. apply foldl_app. Qed.

Lemma failing_cycles_S (n : nat) :
  failing_cycles (S n) = failing_cycles n ++ failing_cycle n.
Proof.
  unfold failing_cycles. rewrite seq_S, flat_map_app. reflexivity.
Qed.

Lemma insert_last_closed (n : nat) :
  <[n := CLOSED]> (replicate n CLOSED ++ [CONNECTING]) = replicate (S n) CLOSED.
Proof.
  induction n as [| n IH]; [reflexivity |]. simpl. rewrite IH. reflexivity.
Qed.

Lemma lookup_last_connecting (n : nat) :
  (replicate n CLOSED ++ [CONNECTING]) !! n = Some CONNECTING.
Proof. induction n as [| n IH]; [reflexivity | exact IH]. Qed.

(** After [n] failed connections, [n] at most the maximum, the
    counter is [n], no timer is armed and a fresh socket, the only one
    not closed, is connecting. *)
Lemma failing_cycles_state (n : nat) :
  n ≤ MAX_RECONNECT_ATTEMPTS ->
  let s := run (failing_cycles n) (startup None) in
  socket s = Some n
  ∧ sockets s = replicate n CLOSED ++ [CONNECTING]
  ∧ reconnectAttempts s = n
  ∧ reconnectTimers s = 0.
Proof.
  induction n as [| n IH]; intros Hle; [repeat split |].
  destruct IH as (Hsocket & Hsockets & Hattempts & Htimers); [lia |].
  rewrite failing_cycles_S, run_app.
  set (s := run (failing_cycles n) (startup None)) in *.
  unfold failing_cycle, run. simpl.
  rewrite Hsockets, lookup_last_connecting, insert_last_closed.
  unfold socket_onclose.
  rewrite scheduleReconnect_below by (simpl; lia).
  simpl. unfold connectToBackend, socket_is_open, socket_readyState. simpl.
  rewrite length_replicate, Hattempts. repeat split. exact Htimers.
Qed.

(** X14.  A backend that never accepts a connection is retried
    [MAX_RECONNECT_ATTEMPTS] times and no more.  After [n] failed
    connections in a row, [n] at most the maximum, the counter is [n]
    and one socket, the [n]-th created after the first, is connecting.
    When that one closes too, the worker is left without a socket; a
    further reconnect is armed, and the counter moves on, only while
    [n] is below the maximum; at the maximum nothing is armed and the
    last broadcast is the error status. *)
Theorem reconnect_gives_up_after_max (n : nat) :
  n ≤ MAX_RECONNECT_ATTEMPTS ->
  let s := run (failing_cycles n) (startup None) in
  let s' := step (Async (SocketClosed n)) s in
  reconnectAttempts s = n
  ∧ reconnectTimers s = 0
  ∧ socket s = Some n
  ∧ length (sockets s) = S n
  ∧ socket s' = None
  ∧ (if decide (n < MAX_RECONNECT_ATTEMPTS)
     then reconnectTimers s' = 1 ∧ reconnectAttempts s' = S n
     else reconnectTimers s' = 0 ∧ reconnectAttempts s' = n
          ∧ last (broadcasts s')
            = Some (ConnectionStatus StatusError
                      (Some "Failed to connect after multiple attempts. Is the backend running?"))).
Proof.
  intros Hle s s'.
  destruct (failing_cycles_state n Hle) as (Hsocket & Hsockets & Hattempts & Htimers).
  fold s in Hsocket, Hsockets, Hattempts, Htimers.
  split; [exact Hattempts |]. split; [exact Htimers |].
  split; [exact Hsocket |].
  split; [rewrite Hsockets, length_app, length_replicate; simpl; lia |].
  unfold s'. simpl. rewrite Hsockets, lookup_last_connecting.
  unfold socket_onclose. case_decide as Hlt.
  - rewrite scheduleReconnect_below by (simpl; lia). simpl.
    rewrite Htimers, Hattempts. repeat split.
  - rewrite scheduleReconnect_at_max by (simpl; lia). simpl.
    rewrite Htimers, Hattempts. repeat split.
    apply last_snoc.
Qed.

Lemma reconnect_gives_up_after_max_witness :
  let s := run (failing_cycles MAX_RECONNECT_ATTEMPTS) (startup None) in
  let s' := step (Async (SocketClosed MAX_RECONNECT_ATTEMPTS)) s in
  reconnectAttempts s = MAX_RECONNECT_ATTEMPTS
  ∧ reconnectTimers s = 0
  ∧ socket s = Some MAX_RECONNECT_ATTEMPTS
  ∧ length (sockets s) = S MAX_RECONNECT_ATTEMPTS
  ∧ socket s' = None
  ∧ (if decide (MAX_RECONNECT_ATTEMPTS < MAX_RECONNECT_ATTEMPTS)
     then reconnectTimers s' = 1 ∧ reconnectAttempts s' = S MAX_RECONNECT_ATTEMPTS
     else reconnectTimers s' = 0 ∧ reconnectAttempts s' = MAX_RECONNECT_ATTEMPTS
          ∧ last (broadcasts s')
            = Some (ConnectionStatus StatusError
                      (Some "Failed to connect after multiple attempts. Is the backend running?"))).
Proof.
  refine (reconnect_gives_up_after_max MAX_RECONNECT_ATTEMPTS _). lia.
Defined.

(** X15.  The close event of any socket object that is not yet closed, be
    it one the [socket] variable no longer refers to, clears the
    variable: from then on [sendToBackend] refuses every message.
    The other socket objects keep their state, so one of them may
    still be open. *)
Theorem any_close_disconnects (i k : nat) (st : ReadyState)
    (m : WebSocketMessage) (s : BgState) :
  sockets s !! i = Some st -> st ≠ CLOSED -> k ≠ i ->
  let s' := deliver (SocketClosed i) s in
  socket s' = None
  ∧ fst (sendToBackend m s') = false
  ∧ sockets s' !! i = Some CLOSED
  ∧ sockets s' !! k = sockets s !! k.
Proof.
  intros Hi Hst Hk s'.
  assert (Hs' : s' = socket_onclose (set_sockets (<[i := CLOSED]> (sockets s)) s)).
  { unfold s'. simpl. rewrite Hi. destruct st; [reflexivity .. | contradiction]. }
  assert (Hsocket : socket s' = None).
  { rewrite Hs'. unfold socket_onclose, scheduleReconnect.
    case_decide; reflexivity. }
  assert (Hsockets : sockets s' = <[i := CLOSED]> (sockets s)).
  { rewrite Hs'. unfold socket_onclose, scheduleReconnect.
    case_decide; reflexivity. }
  split; [exact Hsocket |].
  split.
  { unfold sendToBackend, socket_is_open, socket_readyState.
    rewrite Hsocket. reflexivity. }
  rewrite Hsockets. split.
  - apply list_lookup_insert_eq. apply lookup_lt_Some in Hi. exact Hi.
  - apply list_lookup_insert_ne. congruence.
Qed.

Lemma any_close_disconnects_witness :
  socket_is_open two_sockets_state = true
  ∧ (let s' := deliver (SocketClosed 0) two_sockets_state in
     socket s' = None
     ∧ fst (sendToBackend (TerminalInput "ls") s') = false
     ∧ sockets s' !! 0 = Some CLOSED
     ∧ sockets s' !! 1 = sockets two_sockets_state !! 1).
Proof.
  split; [reflexivity |].
  refine (any_close_disconnects 0 1 CONNECTING (TerminalInput "ls")
            two_sockets_state _ _ _).
  - reflexivity.
  - discriminate.
  - discriminate.
Defined.

(** ** The listener of the side panel: terminal traffic and probes *)

(** X16.  Terminal input and resize messages of the panel are written to
    the socket when it is open and dropped when it is not; the panel
    is told [success] in both cases, and nothing else changes. *)
Theorem terminal_traffic_forwarded_or_dropped (ctor : option JsExn)
    (data : string) (cols rows : nat) (s : BgState) :
  let input := onRuntimeMessage ctor (FromPanel (TerminalInput data)) s in
  let resize := onRuntimeMessage ctor (FromPanel (TerminalResize cols rows)) s in
  fst input = ReplySuccess
  ∧ wire (snd input)
    = wire s ++ (if socket_is_open s then [TerminalInput data] else [])
  ∧ set_sendCalls (sendCalls s) (snd input) = set_sendCalls (sendCalls s) s
  ∧ fst resize = ReplySuccess
  ∧ wire (snd resize)
    = wire s ++ (if socket_is_open s then [TerminalResize cols rows] else [])
  ∧ set_sendCalls (sendCalls s) (snd resize) = set_sendCalls (sendCalls s) s.
Proof.
  intros input resize. unfold input, resize. simpl.
  repeat split.
  - apply wire_snoc, sendToBackend_run.
  - unfold sendToBackend. destruct (socket_is_open s); reflexivity.
  - apply wire_snoc, sendToBackend_run.
  - unfold sendToBackend. destruct (socket_is_open s); reflexivity.
Qed.

Lemma statusTimers_deliver (ev : AsyncEvent) (s : BgState) :
  statusTimers (deliver ev s) = statusTimers s.
Proof.
  destruct ev as [i | i | i | src now ev | src | tabId]; simpl.
  - destruct (sockets s !! i) as [[] |]; reflexivity.
  - destruct (sockets s !! i) as [[] |]; try reflexivity;
      unfold socket_onclose, scheduleReconnect; case_decide; reflexivity.
  - destruct (sockets s !! i); reflexivity.
  - unfold onDebuggerEvent. destruct src; [| reflexivity].
    destruct (_ || _); [reflexivity |].
    destruct (entry_of_event now ev); reflexivity.
  - unfold onDebuggerDetach. destruct src; [| reflexivity].
    destruct (truthy_num _); reflexivity.
  - reflexivity.
Qed.

Lemma statusTimers_deliver_all (evs : list AsyncEvent) (s : BgState) :
  statusTimers (deliver_all evs s) = statusTimers s.
Proof.
  revert s. induction evs as [| ev evs IH]; intros s; [reflexivity |].
  change (deliver_all (ev :: evs) s) with (deliver_all evs (deliver ev s)).
  rewrite IH. apply statusTimers_deliver.
Qed.

(** X17.  The liveness probe is answered at once with [connected] exactly
    when the socket is open, and arms one deferred broadcast of that
    same status.  The broadcast made when the timer fires is the
    status as it was at the probe, whatever socket events came in
    between. *)
Theorem ping_answers_now_and_broadcasts_later (ctor : option JsExn)
    (evs : list AsyncEvent) (s : BgState) :
  statusTimers s = [] ->
  let status := if socket_is_open s then Connected else Disconnected in
  let probed := snd (onRuntimeMessage ctor Ping s) in
  let later := deliver_all evs probed in
  fst (onRuntimeMessage ctor Ping s) = ReplyPong status
  ∧ set_statusTimers [] probed = set_statusTimers [] s
  ∧ broadcasts (step StatusTimerFired later)
    = broadcasts later ++ [ConnectionStatus status None]
  ∧ statusTimers (step StatusTimerFired later) = [].
Proof.
  intros Hnone status probed later.
  split; [reflexivity |].
  split; [reflexivity |].
  assert (Htimers : statusTimers later = [ConnectionStatus status None]).
  { unfold later. rewrite statusTimers_deliver_all. unfold probed. simpl.
    rewrite Hnone. reflexivity. }
  simpl. rewrite Htimers. split; reflexivity.
Qed.

Lemma ping_answers_now_and_broadcasts_later_witness :
  let status := if socket_is_open connected_state then Connected else Disconnected in
  let probed := snd (onRuntimeMessage None Ping connected_state) in
  let later := deliver_all [SocketClosed 0] probed in
  fst (onRuntimeMessage None Ping connected_state) = ReplyPong status
  ∧ set_statusTimers [] probed = set_statusTimers [] connected_state
  ∧ broadcasts (step StatusTimerFired later)
    = broadcasts later ++ [ConnectionStatus status None]
  ∧ statusTimers (step StatusTimerFired later) = [].
Proof.
  refine (ping_answers_now_and_broadcasts_later None [SocketClosed 0]
            connected_state _).
  reflexivity.
Defined.

(** * Properties of the content script *)

Section ContentReplies.
Import ContentScript ContentHandlers.

(** X18.  Every message to the content script, whatever its type and
    whatever the page does, gets a reply that carries the identifier
    of the message and is either a success with data and no error or
    a failure with an error and no data.  A message of a type other
    than the three known ones gets the failure that names its type. *)
Theorem content_reply_well_formed (doc : Document) (message : ContentScriptMessage) :
  let r := handleMessage doc message in
  reply_requestId r = cs_requestId message
  ∧ (is_Some (reply_data r) <-> reply_success r = true)
  ∧ (reply_error r = None <-> reply_success r = true)
  ∧ (cs_type message ∈ content_message_types
     ∨ r = reply_failure message ("Unknown message type: " +:+ cs_type message)).
Proof.
  assert (Hfail : ∀ err,
             reply_requestId (reply_failure message err) = cs_requestId message
             ∧ (is_Some (reply_data (reply_failure message err))
                <-> reply_success (reply_failure message err) = true)
             ∧ (reply_error (reply_failure message err) = None
                <-> reply_success (reply_failure message err) = true)).
  { intros err. simpl. split; [reflexivity |].
    split; split; intros H; try discriminate H.
    destruct H as [x H]. discriminate H. }
  assert (Hok : ∀ d,
             reply_requestId (reply_success_with message d) = cs_requestId message
             ∧ (is_Some (reply_data (reply_success_with message d))
                <-> reply_success (reply_success_with message d) = true)
             ∧ (reply_error (reply_success_with message d) = None
                <-> reply_success (reply_success_with message d) = true)).
  { intros d. simpl. split; [reflexivity |].
    split; split; intros _; try reflexivity. exists d. reflexivity. }
  intros r. unfold r, handleMessage, content_message_types.
  destruct (String.eqb_spec (cs_type message) "content:getDom") as [-> | _].
  { assert (H := Hfail). unfold getDom.
    destruct (querySelector _ _) as [e | [el |]];
      [destruct (Hfail (errorMessageOr "Failed to get DOM" e)) as (? & ? & ?)
      | match goal with
        | |- context [reply_success_with message ?d] =>
            destruct (Hok d) as (? & ? & ?)
        end
      | match goal with
        | |- context [reply_failure message ?e] =>
            destruct (Hfail e) as (? & ? & ?)
        end];
      repeat split; try tauto; left; set_solver. }
  destruct (String.eqb_spec (cs_type message) "content:getSelection") as [-> | _].
  { unfold getSelection.
    destruct (getSelection_result doc) as [e | sel];
      [destruct (Hfail (errorMessageOr "Failed to get selection" e)) as (? & ? & ?)
      | match goal with
        | |- context [reply_success_with message ?d] =>
            destruct (Hok d) as (? & ? & ?)
        end];
      repeat split; try tauto; left; set_solver. }
  destruct (String.eqb_spec (cs_type message) "content:executeScript") as [-> | _].
  { unfold executeScript.
    destruct (negb _);
      [destruct (Hfail "No script provided") as (? & ? & ?)
      | destruct (call_function doc _) as [e | result];
        [destruct (Hfail (errorMessageOr "Script execution failed" e)) as (? & ? & ?)
        | destruct (Hok (ScriptReply result)) as (? & ? & ?)]];
      repeat split; try tauto; left; set_solver. }
  destruct (Hfail ("Unknown message type: " +:+ cs_type message)) as (? & ? & ?).
  repeat split; tauto.
Qed.

(** X19.  [getDom] looks up the selector of the request, [body] when it
    carries none or an empty one.  When the lookup throws, or matches
    nothing, the reply is a failure that says so and carries no data.
    Otherwise the reply is a success for the first match: its markup
    and text, the address and title of the page and, only when
    [includeStyles] is set, the computed values of that element for
    the seventeen properties the script lists, in the order it lists
    them. *)
Theorem getDom_styles_on_request (doc : Document) (message : ContentScriptMessage) :
  let selector :=
    match cs_params message ≫= p_selector with
    | Some (String c rest) => String c rest
    | _ => "body"
    end in
  let reply := getDom doc message in
  match querySelectorAll (doc_page doc) selector with
  | inl error =>
      reply = {| reply_requestId := cs_requestId message;
                 reply_success := false; reply_data := None;
                 reply_error := Some (errorMessageOr "Failed to get DOM" error) |}
  | inr [] =>
      reply = {| reply_requestId := cs_requestId message;
                 reply_success := false; reply_data := None;
                 reply_error := Some ("Element not found: " +:+ selector) |}
  | inr (element :: _) =>
      let value := getPropertyValue doc element in
      reply
      = {| reply_requestId := cs_requestId message;
           reply_success := true;
           reply_data :=
             Some (DomReply (outerHTML (doc_page doc) element)
                     (textContent doc element)
                     (location_href (doc_page doc))
                     (document_title (doc_page doc))
                     match cs_params message ≫= p_includeStyles with
                     | Some true =>
                         Some [("color", value "color");
                               ("backgroundColor", value "backgroundColor");
                               ("fontSize", value "fontSize");
                               ("fontFamily", value "fontFamily");
                               ("fontWeight", value "fontWeight");
                               ("width", value "width");
                               ("height", value "height");
                               ("margin", value "margin");
                               ("padding", value "padding");
                               ("border", value "border");
                               ("display", value "display");
                               ("position", value "position");
                               ("top", value "top");
                               ("left", value "left");
                               ("right", value "right");
                               ("bottom", value "bottom");
                               ("zIndex", value "zIndex")]
                     | _ => None
                     end);
           reply_error := None |}
  end.
Proof.
  intros selector reply.
  assert (Hsel : str_or (cs_params message ≫= p_selector) "body" = selector).
  { unfold selector, str_or.
    destruct (cs_params message ≫= p_selector) as [[| c rest] |]; reflexivity. }
  unfold reply, getDom, querySelector. cbv zeta. rewrite Hsel.
  destruct (querySelectorAll (doc_page doc) selector) as [e | [| element rest]];
    try reflexivity.
  simpl. unfold reply_success_with. f_equal. f_equal. f_equal.
  destruct (cs_params message ≫= p_includeStyles) as [[|] |]; reflexivity.
Qed.

End ContentReplies.

(** * Properties of the side panel *)

Section PanelGating.
Import SidePanel.

Lemma panel_run_snoc (evs : list PanelEvent) (e : PanelEvent) (p : Panel) :
  panel_run (evs ++ [e]) p = panel_step e (panel_run evs p).
Proof. unfold panel_run. rewrite foldl_app. reflexivity. Qed.

Lemma last_status_snoc (evs : list PanelEvent) (e : PanelEvent) :
  last_status (evs ++ [e])
  = match e with
    | Received (ConnectionStatus status _) => Some status
    | ReconnectClicked => Some Connecting
    | _ => last_status evs
    end.
Proof. unfold last_status. rewrite foldl_app. reflexivity. Qed.

Lemma terminal_write_flags (ops : list TerminalOp) (p : Panel) :
  isConnected (terminal_write ops p) = isConnected p
  ∧ overlayHidden (terminal_write ops p) = overlayHidden p
  ∧ posted (terminal_write ops p) = posted p.
Proof. unfold terminal_write. destruct (terminal p); repeat split. Qed.

Lemma updateConnectionStatus_flags (status : ConnStatus) (message : option string)
    (p : Panel) :
  let p' := updateConnectionStatus status message p in
  posted p' = posted p
  ∧ match overlayHidden p with
    | Some _ => isConnected p' = is_connected status
                ∧ overlayHidden p' = Some (is_connected status)
    | None => isConnected p' = isConnected p ∧ overlayHidden p' = None
    end.
Proof.
  unfold updateConnectionStatus.
  destruct (overlayHidden p) eqn:Hov, status; simpl;
    try destruct (truthy_str message);
    rewrite ?(proj1 (terminal_write_flags _ _)),
      ?(proj1 (proj2 (terminal_write_flags _ _))),
      ?(proj2 (proj2 (terminal_write_flags _ _)));
    simpl; rewrite ?Hov; repeat split.
Qed.

Lemma panel_step_flags (e : PanelEvent) (p : Panel) :
  let p' := panel_step e p in
  match overlayHidden p with
  | Some hidden =>
      match e with
      | Received (ConnectionStatus status _) =>
          isConnected p' = is_connected status
          ∧ overlayHidden p' = Some (is_connected status)
      | ReconnectClicked => isConnected p' = false ∧ overlayHidden p' = Some false
      | _ => isConnected p' = isConnected p ∧ overlayHidden p' = Some hidden
      end
  | None => isConnected p' = isConnected p ∧ overlayHidden p' = None
  end.
Proof.
  destruct e as [message | data | |]; cbn [panel_step].
  - destruct message; cbn [handleMessage];
      try (destruct (overlayHidden p); split; reflexivity).
    + destruct (terminal_write_flags [Write data] p) as (-> & -> & _).
      destruct (overlayHidden p); split; reflexivity.
    + destruct (updateConnectionStatus_flags status message p) as [_ H].
      destruct (overlayHidden p); exact H.
  - unfold onData.
    destruct (isConnected p) eqn:E, (overlayHidden p) eqn:Ho; simpl;
      rewrite ?E, ?Ho; split; reflexivity.
  - destruct (updateConnectionStatus_flags Connecting None p) as [_ H].
    unfold sendMessage. cbn [isConnected overlayHidden].
    destruct (overlayHidden p); exact H.
  - destruct (resizeTimers p); [destruct (overlayHidden p); split; reflexivity |].
    unfold sendResize. simpl.
    destruct (terminal p) as [[cols rows] |], (isConnected p) eqn:E,
      (overlayHidden p) eqn:Ho; simpl; rewrite ?E, ?Ho; split; reflexivity.
Qed.

(** X20.  The panel's [isConnected] flag follows the last status it was
    told: with the overlay element present, after any events the flag
    is set exactly when the last status received was [connected] (a
    click on reconnect counts as [connecting]), and the overlay is
    hidden exactly then; without a status the flag is as before.
    With the overlay element missing the flag never changes. *)
Theorem panel_flag_follows_last_status (evs : list PanelEvent) (p : Panel) :
  let p' := panel_run evs p in
  match overlayHidden p with
  | Some hidden =>
      match last_status evs with
      | Some status => isConnected p' = is_connected status
                       ∧ overlayHidden p' = Some (is_connected status)
      | None => isConnected p' = isConnected p ∧ overlayHidden p' = Some hidden
      end
  | None => isConnected p' = isConnected p ∧ overlayHidden p' = None
  end.
Proof.
  induction evs as [| e evs IH] using rev_ind; simpl.
  - destruct (overlayHidden p); split; reflexivity.
  - rewrite panel_run_snoc, last_status_snoc.
    pose proof (panel_step_flags e (panel_run evs p)) as Hstep.
    simpl in Hstep, IH.
    destruct (overlayHidden p) as [hidden |].
    + destruct (last_status evs) as [status |]; destruct IH as [Hc Ho];
        rewrite Ho in Hstep;
        destruct e as [[] | | |]; try exact Hstep;
        destruct Hstep as [Hc' Ho']; rewrite Hc', Ho'; split;
        assumption || reflexivity.
    + destruct IH as [Hc Ho]. rewrite Ho in Hstep.
      destruct Hstep as [Hc' Ho']. rewrite Hc', Ho'.
      split; [exact Hc | reflexivity].
Qed.

Lemma panel_step_gated (e : PanelEvent) (p : Panel) :
  isConnected p = false -> is_connected_status e = false ->
  isConnected (panel_step e p) = false
  ∧ filter (λ m, is_terminal_traffic m = true) (posted (panel_step e p))
    = filter (λ m, is_terminal_traffic m = true) (posted p).
Proof.
  intros Hoff Hnot. destruct e as [message | data | |]; cbn [panel_step].
  - destruct message; cbn [handleMessage];
      try (split; [exact Hoff | reflexivity]).
    + destruct (terminal_write_flags [Write data] p) as (-> & _ & ->).
      split; [exact Hoff | reflexivity].
    + destruct (updateConnectionStatus_flags status message p) as [Hposted H].
      cbv zeta in Hposted, H. rewrite Hposted. split; [| reflexivity].
      destruct (overlayHidden p); destruct H as [-> _]; [| exact Hoff].
      destruct status; [discriminate Hnot | reflexivity ..].
  - unfold onData. rewrite Hoff. split; [exact Hoff | reflexivity].
  - destruct (updateConnectionStatus_flags Connecting None p) as [Hposted H].
    cbv zeta in Hposted, H. unfold sendMessage.
    cbn [isConnected posted]. rewrite filter_app, Hposted.
    split; [| apply app_nil_r].
    destruct (overlayHidden p); destruct H as [-> _]; [reflexivity | exact Hoff].
  - destruct (resizeTimers p); [split; [exact Hoff | reflexivity] |].
    unfold sendResize. simpl. destruct (terminal p) as [[cols rows] |];
      rewrite ?Hoff; split; first [exact Hoff | reflexivity].
Qed.

(** X21.  Until the panel is told that the backend is connected, it sends
    the worker no terminal traffic: starting with the flag off, after
    any events none of which is a [connected] status, the flag is
    still off and no terminal input or resize message was sent;
    keystrokes typed meanwhile are dropped. *)
Theorem panel_sends_no_traffic_while_disconnected (evs : list PanelEvent)
    (p : Panel) :
  isConnected p = false ->
  forallb (λ e, negb (is_connected_status e)) evs = true ->
  isConnected (panel_run evs p) = false
  ∧ filter (λ m, is_terminal_traffic m = true) (posted (panel_run evs p))
    = filter (λ m, is_terminal_traffic m = true) (posted p).
Proof.
  revert p. induction evs as [| e evs IH]; intros p Hoff Hall.
  - split; [exact Hoff | reflexivity].
  - simpl in Hall. apply andb_prop in Hall as [He Hall].
    apply negb_true_iff in He.
    destruct (panel_step_gated e p Hoff He) as [Hoff' Hposted'].
    destruct (IH (panel_step e p) Hoff' Hall) as [Hoff'' Hposted''].
    change (panel_run (e :: evs) p) with (panel_run evs (panel_step e p)).
    split; [exact Hoff'' |]. rewrite Hposted''. exact Hposted'.
Qed.

Lemma panel_sends_no_traffic_while_disconnected_witness :
  isConnected
    (panel_run [Typed "ls"; Received (ConnectionStatus Connecting None);
                ReconnectClicked; Typed "pwd"; ResizeTimerFired]
       fresh_panel) = false
  ∧ filter (λ m, is_terminal_traffic m = true)
      (posted
         (panel_run [Typed "ls"; Received (ConnectionStatus Connecting None);
                     ReconnectClicked; Typed "pwd"; ResizeTimerFired]
            fresh_panel))
    = filter (λ m, is_terminal_traffic m = true) (posted fresh_panel).
Proof.
  refine (panel_sends_no_traffic_while_disconnected
            [Typed "ls"; Received (ConnectionStatus Connecting None);
             ReconnectClicked; Typed "pwd"; ResizeTimerFired]
            fresh_panel _ _); reflexivity.
Defined.

End PanelGating.
